(** * rag_chat_bot: the validator, the sandbox and the conversation memory

    A shallow embedding of
      - [utils/security.py]      ([is_safe_code], [sanitize_code_output]),
      - [core/code_executor.py]  ([generate_code], [execute_code]),
      - [core/memory_manager.py] ([add_message], [_check_and_summarize],
                                  [_summarize_memory]),
    followed by the properties of the specification that concern them.

    Python text is a sequence of Unicode code points.  What the program
    obtains from outside (the parser [ast.parse], the interpreter [exec],
    the language model, the clock, [str.upper]) is a variable of the
    section that uses it; what the program does to the outside (log
    records, interpreter runs, model requests) is recorded in a trace. *)

From Stdlib Require Import NArith ZArith List String Ascii Bool Lia DecimalString.
From stdpp Require Import gmap.
Import ListNotations.

Set Default Proof Using "Type".
Local Open Scope N_scope.

(** ** Python [str] *)

(** A [str] is a list of code points; [len] is [length]. *)
Abbreviation pystr := (list N).

Module Utf8.

(** The payload of a continuation byte. *)
Definition cont (b : N) : N := N.land b 63.

(** Decoding of a well-formed UTF-8 byte sequence.  It is only used to
    read the literals of this file, which are well formed. *)
Fixpoint decode (bs : list N) : pystr :=
  match bs with
  | [] => []
  | b0 :: r0 =>
      if b0 <? 128 then b0 :: decode r0
      else if b0 <? 224 then
        match r0 with
        | b1 :: r1 => (N.land b0 31 * 64 + cont b1) :: decode r1
        | _ => []
        end
      else if b0 <? 240 then
        match r0 with
        | b1 :: b2 :: r2 =>
            (N.land b0 15 * 4096 + cont b1 * 64 + cont b2) :: decode r2
        | _ => []
        end
      else
        match r0 with
        | b1 :: b2 :: b3 :: r3 =>
            (N.land b0 7 * 262144 + cont b1 * 4096 + cont b2 * 64 + cont b3)
              :: decode r3
        | _ => []
        end
  end.

End Utf8.

(** The [str] a literal of the source denotes. *)
Definition py (s : string) : pystr :=
  Utf8.decode (map N_of_ascii (list_ascii_of_string s)).
Arguments py : simpl never.

Definition pystr_eqb (a b : pystr) : bool := bool_decide (a = b).

(** [x in xs] for a list of strings. *)
Definition str_in (x : pystr) (xs : list pystr) : bool := bool_decide (x ∈ xs).

(** [sep.join(parts)]. *)
Fixpoint join (sep : pystr) (parts : list pystr) : pystr :=
  match parts with
  | [] => []
  | [p] => p
  | p :: rest => p ++ sep ++ join sep rest
  end.

(** [s.startswith(p)]. *)
Fixpoint startswith (p s : pystr) : bool :=
  match p, s with
  | [], _ => true
  | a :: p', b :: s' => (a =? b) && startswith p' s'
  | _ :: _, [] => false
  end.

(** [p in s] for two strings: [p] occurs in [s]. *)
Fixpoint contains (p s : pystr) : bool :=
  startswith p s ||
  match s with
  | [] => false
  | _ :: s' => contains p s'
  end.

(** The code points for which [str.isspace] holds; they are also the ones
    the class [\s] of a [str] pattern matches. *)
Definition isspace (c : N) : bool :=
  ((9 <=? c) && (c <=? 13)) || ((28 <=? c) && (c <=? 32)) ||
  (c =? 133) || (c =? 160) || (c =? 5760) ||
  ((8192 <=? c) && (c <=? 8202)) || (c =? 8232) || (c =? 8233) ||
  (c =? 8239) || (c =? 8287) || (c =? 12288).

(** [s.strip()]. *)
Fixpoint lstrip (s : pystr) : pystr :=
  match s with
  | c :: s' => if isspace c then lstrip s' else s
  | [] => []
  end.

Definition rstrip (s : pystr) : pystr := rev (lstrip (rev s)).

Definition strip (s : pystr) : pystr := rstrip (lstrip s).

(** [s.split(sep)] for a non-empty [sep]: the pieces between the
    non-overlapping occurrences of [sep], scanning from the left. *)
Fixpoint split_go (sep : pystr) (cur : pystr) (s : pystr) (skip : nat)
  : list pystr :=
  match s with
  | [] => [rev cur]
  | c :: s' =>
      match skip with
      | S k => split_go sep cur s' k
      | O =>
          if startswith sep s
          then rev cur :: split_go sep [] s' (length sep - 1)
          else split_go sep (c :: cur) s' 0
      end
  end.

Definition split (sep s : pystr) : list pystr := split_go sep [] s 0.

(** [l[-k:]] and [l[:-k]] for a positive constant [k]. *)
Definition slice_last {A} (k : nat) (l : list A) : list A :=
  drop (length l - k) l.

Definition slice_but_last {A} (k : nat) (l : list A) : list A :=
  take (length l - k) l.

(** ** Regular expressions: the part of Python's [re] the program uses *)

Module Re.

(** What matches one code point. *)
Inductive atom :=
| Lit (c : N)                      (* a literal character *)
| Dot                              (* [.]: anything but a newline *)
| Space                            (* [\s] *)
| Class (ranges : list (N * N)).   (* [[a-zA-Z]]: a union of ranges *)

Inductive regex :=
| Void
| Eps
| Atom (a : atom)
| Cat (r1 r2 : regex)
| Alt (r1 r2 : regex)
| Star (r : regex).

Definition in_range (c : N) (lh : N * N) : bool :=
  (fst lh <=? c) && (c <=? snd lh).

Definition atom_matches (a : atom) (c : N) : bool :=
  match a with
  | Lit d => c =? d
  | Dot => negb (c =? 10)
  | Space => isspace c
  | Class ranges => existsb (in_range c) ranges
  end.

(** *** Reading a pattern *)

Definition hex_digit (c : N) : option N :=
  if (48 <=? c) && (c <=? 57) then Some (c - 48)
  else if (97 <=? c) && (c <=? 102) then Some (c - 87)
  else if (65 <=? c) && (c <=? 70) then Some (c - 55)
  else None.

(** One member of a class: a character or an escape [\xHH]. *)
Definition class_char (s : pystr) : option (N * pystr) :=
  match s with
  | 92 :: 120 :: h :: l :: s' =>
      match hex_digit h, hex_digit l with
      | Some a, Some b => Some (a * 16 + b, s')
      | _, _ => None
      end
  | 92 :: _ => None
  | c :: s' => Some (c, s')
  | [] => None
  end.

(** The members of a class up to its closing bracket. *)
Fixpoint class_items (fuel : nat) (s : pystr) : option (list (N * N) * pystr) :=
  match fuel with
  | O => None
  | S fuel' =>
      match s with
      | 93 :: s' => Some ([], s')
      | _ =>
          match class_char s with
          | Some (lo, 45 :: s1) =>
              match s1 with
              | 93 :: _ =>
                  match class_items fuel' s1 with
                  | Some (rs, s2) => Some ((lo, lo) :: (45, 45) :: rs, s2)
                  | None => None
                  end
              | _ =>
                  match class_char s1 with
                  | Some (hi, s2) =>
                      match class_items fuel' s2 with
                      | Some (rs, s3) => Some ((lo, hi) :: rs, s3)
                      | None => None
                      end
                  | None => None
                  end
              end
          | Some (c, s1) =>
              match class_items fuel' s1 with
              | Some (rs, s2) => Some ((c, c) :: rs, s2)
              | None => None
              end
          | None => None
          end
      end
  end.

(** Characters with a meaning of their own, which this reader does not
    take as literals: [* + ? ( ) { } [ ] | ^ $ \]. *)
Definition special (c : N) : bool :=
  existsb (N.eqb c) [42; 43; 63; 40; 41; 123; 125; 91; 93; 124; 94; 36; 92].

(** Recursive descent over
      alt ::= cat ('|' cat)*      cat ::= rep*
      rep ::= item ('*' | '+')?   item ::= char | '.' | '\s' | '\' punct
                                         | '[' class ']' | '(?:' alt ')'
    Anything else (anchors, counted repetition, capturing groups,
    back-references, ...) is refused with [None]. *)
Fixpoint parse_alt (fuel : nat) (s : pystr) : option (regex * pystr) :=
  match fuel with
  | O => None
  | S fuel' =>
      match parse_cat fuel' s with
      | Some (r1, 124 :: s1) =>
          match parse_alt fuel' s1 with
          | Some (r2, s2) => Some (Alt r1 r2, s2)
          | None => None
          end
      | other => other
      end
  end
with parse_cat (fuel : nat) (s : pystr) : option (regex * pystr) :=
  match fuel with
  | O => None
  | S fuel' =>
      match s with
      | [] | 124 :: _ | 41 :: _ => Some (Eps, s)
      | _ =>
          match parse_rep fuel' s with
          | Some (r1, s1) =>
              match parse_cat fuel' s1 with
              | Some (Eps, s2) => Some (r1, s2)
              | Some (r2, s2) => Some (Cat r1 r2, s2)
              | None => None
              end
          | None => None
          end
      end
  end
with parse_rep (fuel : nat) (s : pystr) : option (regex * pystr) :=
  match fuel with
  | O => None
  | S fuel' =>
      match parse_item fuel' s with
      | Some (r, 42 :: s1) => Some (Star r, s1)
      | Some (r, 43 :: s1) => Some (Cat r (Star r), s1)
      | other => other
      end
  end
with parse_item (fuel : nat) (s : pystr) : option (regex * pystr) :=
  match fuel with
  | O => None
  | S fuel' =>
      match s with
      | 92 :: 115 :: s1 => Some (Atom Space, s1)
      | 92 :: c :: s1 =>
          if special c || (c =? 46) then Some (Atom (Lit c), s1) else None
      | 46 :: s1 => Some (Atom Dot, s1)
      | 91 :: s1 =>
          match class_items (S (length s1)) s1 with
          | Some (rs, s2) => Some (Atom (Class rs), s2)
          | None => None
          end
      | 40 :: 63 :: 58 :: s1 =>
          match parse_alt fuel' s1 with
          | Some (r, 41 :: s2) => Some (r, s2)
          | _ => None
          end
      | c :: s1 => if special c then None else Some (Atom (Lit c), s1)
      | [] => None
      end
  end.

(** [re.compile(pattern)]; [None] stands for a pattern outside the
    fragment above. *)
Definition compile (pattern : pystr) : option regex :=
  match parse_alt (4 * length pattern + 4) pattern with
  | Some (r, []) => Some r
  | _ => None
  end.

(** *** Matching, by derivatives *)

Fixpoint nullable (r : regex) : bool :=
  match r with
  | Void => false
  | Eps => true
  | Atom _ => false
  | Cat r1 r2 => nullable r1 && nullable r2
  | Alt r1 r2 => nullable r1 || nullable r2
  | Star _ => true
  end.

(** Constructors that drop what cannot match. *)
Definition cat (r1 r2 : regex) : regex :=
  match r1, r2 with
  | Void, _ => Void
  | _, Void => Void
  | Eps, _ => r2
  | _, _ => Cat r1 r2
  end.

Definition alt (r1 r2 : regex) : regex :=
  match r1, r2 with
  | Void, _ => r2
  | _, Void => r1
  | _, _ => Alt r1 r2
  end.

(** What is left of [r] after reading [c]. *)
Fixpoint deriv (c : N) (r : regex) : regex :=
  match r with
  | Void => Void
  | Eps => Void
  | Atom a => if atom_matches a c then Eps else Void
  | Cat r1 r2 =>
      if nullable r1
      then alt (cat (deriv c r1) r2) (deriv c r2)
      else cat (deriv c r1) r2
  | Alt r1 r2 => alt (deriv c r1) (deriv c r2)
  | Star r1 => cat (deriv c r1) (Star r1)
  end.

(** Some prefix of [s] matches [r] ([re.match] finds something). *)
Fixpoint match_prefix (r : regex) (s : pystr) : bool :=
  nullable r ||
  match r, s with
  | Void, _ => false
  | _, [] => false
  | _, c :: s' => match_prefix (deriv c r) s'
  end.

(** Some substring of [s] matches [r] ([re.search] finds something). *)
Fixpoint search_regex (r : regex) (s : pystr) : bool :=
  match_prefix r s ||
  match s with
  | [] => false
  | _ :: s' => search_regex r s'
  end.

(** The truth value of [re.search(pattern, s)]. *)
Definition search (pattern s : pystr) : bool :=
  match compile pattern with
  | Some r => search_regex r s
  | None => false
  end.

(** [re.sub(pattern, '', s)] for a pattern that is a single class or
    character: every code point it matches is dropped. *)
Definition sub_empty (pattern s : pystr) : pystr :=
  match compile pattern with
  | Some (Atom a) => List.filter (fun c => negb (atom_matches a c)) s
  | _ => s
  end.

(** *** What a pattern matches *)

(** [matches r s]: the whole of [s] is a match of [r]. *)
Inductive matches : regex -> pystr -> Prop :=
| matches_eps : matches Eps []
| matches_atom a c : atom_matches a c = true -> matches (Atom a) [c]
| matches_cat r1 r2 s1 s2 :
    matches r1 s1 -> matches r2 s2 -> matches (Cat r1 r2) (s1 ++ s2)
| matches_alt_l r1 r2 s : matches r1 s -> matches (Alt r1 r2) s
| matches_alt_r r1 r2 s : matches r2 s -> matches (Alt r1 r2) s
| matches_star_nil r : matches (Star r) []
| matches_star_more r s1 s2 :
    matches r s1 -> matches (Star r) s2 -> matches (Star r) (s1 ++ s2).

(** [occurs r s]: some substring of [s] is a match of [r]. *)
Definition occurs (r : regex) (s : pystr) : Prop :=
  exists before found after, s = before ++ found ++ after /\ matches r found.

End Re.

(** ** Exceptions and outcomes *)

(** How a call made for its effect alone can fail: an exception leaves
    it, or it never ends. *)
Inductive failure (E : Type) :=
| Raises (e : E)
| Never.
Arguments Raises {E} e.
Arguments Never {E}.

(** A raised exception: whether it is an instance of [Exception] (what
    [except Exception] catches; [SystemExit], [KeyboardInterrupt] and
    [GeneratorExit] are not), its text, the text [traceback.format_exc]
    prints for it after the header line, and how the calls [str(e)] and
    [traceback.format_exc()] fail when they do.  For the exceptions of the
    interpreter and of the client libraries both calls return, and the
    two last fields are [None].  The class of an exception that generated
    code raises can be code of its own: its [__str__] may raise in turn
    or never return, and [traceback] of CPython 3.11 raises
    [AttributeError] on a class that has no [__module__], as a class has
    that code run by [exec] without [__name__] in its globals made. *)
#[warnings="-register-all"]
Inductive exception := {
  exc_is_Exception : bool;
  exc_str : pystr;
  exc_frames : pystr;
  exc_str_fails : option (failure exception);
  exc_format_fails : option (failure exception)
}.

(** How a call ends: it returns, an exception leaves it, or it never ends. *)
Inductive run (A : Type) :=
| Returns (a : A)
| Propagates (e : exception)
| Hangs.
Arguments Returns {A} a.
Arguments Propagates {A} e.
Arguments Hangs {A}.

(** The call [str(e)]. *)
Definition str_exc (e : exception) : run pystr :=
  match exc_str_fails e with
  | None => Returns (exc_str e)
  | Some (Raises e') => Propagates e'
  | Some Never => Hangs
  end.

(** What [traceback.format_exc()] returns inside the handler of [e]. *)
Definition format_exc (e : exception) : pystr :=
  py "Traceback (most recent call last):
" ++ exc_frames e.

(** The call [traceback.format_exc()] inside the handler of [e]. *)
Definition format_exc_call (e : exception) : run pystr :=
  match exc_format_fails e with
  | None => Returns (format_exc e)
  | Some (Raises e') => Propagates e'
  | Some Never => Hangs
  end.

(** ** utils/security.py *)

Definition DANGEROUS_MODULES : list pystr :=
  [py "os"; py "subprocess"; py "sys"; py "shutil"; py "socket"; py "requests";
   py "urllib"; py "ftplib"; py "paramiko"; py "telnetlib"; py "smtplib";
   py "http.server"; py "socketserver"].

Definition DANGEROUS_FUNCTIONS : list pystr :=
  [py "eval"; py "exec"; py "compile"; py "globals"; py "locals"; py "getattr";
   py "setattr"; py "delattr"; py "__import__"; py "open"; py "file";
   py "input"; py "raw_input"].

Definition DANGEROUS_PATTERNS : list pystr :=
  [py "__[a-zA-Z]+__";
   py "sys\s*\.\s*exit";
   py "os\s*\.\s*system";
   py "subprocess\s*\.\s*(?:call|run|Popen)";
   py "import\s+(?:" ++ join (py "|") DANGEROUS_MODULES ++ py ")"].

(** The syntax tree [ast.parse] returns, as far as [is_safe_code] looks at
    it: the node classes it tests for, with the fields it reads, and
    [Node] for a node of any other class.  Children are in the order
    [ast.iter_child_nodes] yields them; leaves the walk does nothing with
    ([alias], [Load], ...) are left out. *)
#[warnings="-register-all"]
Inductive ast :=
| Import (names : list pystr)
| ImportFrom (module : option pystr)
| Call (func : ast) (args : list ast)
| Name (id : pystr)
| Attribute (value : ast) (attr : pystr)
| Node (children : list ast).

Definition children (n : ast) : list ast :=
  match n with
  | Import _ | ImportFrom _ | Name _ => []
  | Call func args => func :: args
  | Attribute value _ => [value]
  | Node cs => cs
  end.

Fixpoint ast_size (n : ast) : nat :=
  match n with
  | Import _ | ImportFrom _ | Name _ => 1
  | Call func args =>
      S (ast_size func + (fix sizes (l : list ast) : nat :=
                            match l with
                            | [] => 0
                            | a :: l' => ast_size a + sizes l'
                            end) args)
  | Attribute value _ => S (ast_size value)
  | Node cs =>
      S ((fix sizes (l : list ast) : nat :=
            match l with
            | [] => 0
            | a :: l' => ast_size a + sizes l'
            end) cs)
  end%nat.

(** [ast.walk]: breadth first, from a queue of nodes still to visit. *)
Fixpoint walk_queue (fuel : nat) (todo : list ast) : list ast :=
  match fuel, todo with
  | S fuel', n :: rest => n :: walk_queue fuel' (rest ++ children n)
  | _, _ => []
  end.

Definition walk (tree : ast) : list ast := walk_queue (ast_size tree) [tree].

(** What [ast.parse] does with a text: a tree, a [SyntaxError] with its
    [str(e)], or another exception ([ValueError] for a null character,
    [RecursionError], [MemoryError]). *)
Inductive parse_result :=
| Parsed (tree : ast)
| SyntaxError (msg : pystr)
| ParseRaises (e : exception).

(** The first [Some] a function gives along a list: a [for] loop whose
    body returns. *)
Fixpoint first_some {A B} (f : A -> option B) (l : list A) : option B :=
  match l with
  | [] => None
  | a :: l' =>
      match f a with
      | Some b => Some b
      | None => first_some f l'
      end
  end.

(** The body of the loop over the nodes: the reason to reject, if any. *)
Definition check_node (node : ast) : option pystr :=
  match node with
  | Import names =>
      first_some
        (fun name =>
           if str_in name DANGEROUS_MODULES
           then Some (py "Importación no permitida: " ++ name)
           else None)
        names
  | ImportFrom module =>
      match module with
      | Some m =>
          if str_in m DANGEROUS_MODULES
          then Some (py "Importación desde módulo no permitido: " ++ m)
          else None
      | None => None
      end
  | Call (Name id) _ =>
      if str_in id DANGEROUS_FUNCTIONS
      then Some (py "Función potencialmente peligrosa: " ++ id)
      else None
  | Call (Attribute (Name id) attr) _ =>
      if str_in id DANGEROUS_MODULES
      then Some (py "Módulo potencialmente peligroso: " ++ id ++ py "." ++ attr)
      else None
  | _ => None
  end.

(** The first loop of [is_safe_code]: the first pattern found in the code. *)
Definition dangerous_pattern (code : pystr) : option pystr :=
  find (fun pattern => Re.search pattern code) DANGEROUS_PATTERNS.

Section Validator.

Variable ast_parse : pystr -> parse_result.

Definition is_safe_code (code : pystr) : run (bool * pystr) :=
  match dangerous_pattern code with
  | Some pattern =>
      Returns (false,
               py "Patrón de código potencialmente peligroso detectado: "
               ++ pattern)
  | None =>
      match ast_parse code with
      | SyntaxError msg => Returns (false, py "Error de sintaxis: " ++ msg)
      | ParseRaises e => Propagates e
      | Parsed parsed =>
          match first_some check_node (walk parsed) with
          | Some reason => Returns (false, reason)
          | None => Returns (true, [])
          end
      end
  end.

End Validator.

Definition TRUNCATED : pystr := py "... (salida truncada)".

Definition CONTROL_CLASS : pystr := py "[\x00-\x09\x0b\x0c\x0e-\x1f\x7f-\x9f]".

Definition sanitize_code_output (output : pystr) : pystr :=
  let output :=
    if (10000 <? N.of_nat (length output))
    then take (N.to_nat 10000) output ++ TRUNCATED
    else output in
  Re.sub_empty CONTROL_CLASS output.

(** ** What the program does to the outside *)

Inductive level := INFO | WARNING | ERROR.

Inductive event :=
| Log (logger : pystr) (lvl : level) (msg : pystr)   (* a log record *)
| Exec (program : pystr)                             (* a run of [exec] *)
| Invoke (prompt : pystr)                            (* a request to a model *)
| Now.                                               (* a reading of the clock *)

(** ** core/code_executor.py *)

(** The dictionary [execute_code] returns.  [error] is [None] for
    Python's [None]; [traceback] and [variables] are [None] when the
    dictionary has no such key. *)
Record ExecutionResult := {
  status : pystr;
  stdout : pystr;
  stderr : pystr;
  error : option pystr;
  traceback : option pystr;
  variables : option (list (pystr * pystr))
}.

(** [self.allowed_imports], in insertion order. *)
Definition allowed_imports : list (pystr * pystr) :=
  [(py "math", py "import math");
   (py "random", py "import random");
   (py "datetime", py "from datetime import datetime, date, timedelta");
   (py "statistics", py "import statistics");
   (py "pandas", py "import pandas as pd");
   (py "numpy", py "import numpy as np");
   (py "re", py "import re");
   (py "collections", py "import collections")].

Definition values {K V} (d : list (K * V)) : list V := map snd d.

Definition augmented_code (code : pystr) : pystr :=
  join (py "
") (values allowed_imports) ++ py "

" ++ code.

Definition executor_log : level -> pystr -> event := Log (py "code_executor").

(** The prompt of [generate_code], with the query between double quotes. *)
Definition code_generation_prompt (query : pystr) : pystr :=
  py "
        El usuario ha realizado una consulta que requiere cálculos precisos o ejecución de código:
        
        " ++ [34] ++ query ++ [34] ++ py "
        
        Genera ÚNICAMENTE código Python para resolver esta consulta. El código debe:
        1. Ser claro, eficiente y seguir las mejores prácticas
        2. Incluir comentarios explicativos
        3. Manejar posibles errores
        4. Mostrar resultados con print() para que sean visibles
        5. Usar bibliotecas estándar o numpy/pandas si es necesario
        
        NO expliques el código, NO incluyas markdown. Proporciona SOLAMENTE el código Python.
        ".

(** The snippet returned when the model call fails. *)
Definition fallback_code (message : pystr) : pystr :=
  py "# Error al generar código
print('No se pudo generar código: " ++ message ++ py "')".

Definition IndexError : exception :=
  {| exc_is_Exception := true;
     exc_str := py "list index out of range";
     exc_frames := py "IndexError: list index out of range
";
     exc_str_fails := None;
     exc_format_fails := None |}.

(** [parts[i]]. *)
Definition item {A} (parts : list A) (i : nat) : run A :=
  match parts !! i with
  | Some x => Returns x
  | None => Propagates IndexError
  end.

(** The contents of the first fenced block of a response, when it has one. *)
Definition extract_code (python_code : pystr) : run pystr :=
  if contains (py "```python") python_code then
    match item (split (py "```python") python_code) 1 with
    | Returns rest =>
        match item (split (py "```") rest) 0 with
        | Returns block => Returns (strip block)
        | other => other
        end
    | other => other
    end
  else if contains (py "```") python_code then
    match item (split (py "```") python_code) 1 with
    | Returns rest =>
        match item (split (py "```") rest) 0 with
        | Returns block => Returns (strip block)
        | other => other
        end
    | other => other
    end
  else Returns python_code.

(** [generate_code(llm, query)]; [llm] gives how
    [llm.invoke(prompt).content] ends. *)
Definition generate_code (llm : pystr -> run pystr) (query : pystr)
  : run pystr * list event :=
  let prompt := code_generation_prompt query in
  let body :=
    match llm prompt with
    | Returns python_code => extract_code python_code
    | other => other
    end in
  match body with
  | Returns python_code => (Returns python_code, [Invoke prompt])
  | Propagates e =>
      if exc_is_Exception e
      then (Returns (fallback_code (exc_str e)),
            [Invoke prompt;
             executor_log ERROR (py "Error al generar código: " ++ exc_str e)])
      else (Propagates e, [Invoke prompt])
  | Hangs => (Hangs, [Invoke prompt])
  end.

(** What a run of [exec] leaves behind: how it ended, with the items of
    [local_vars] in insertion order when it completed, and how the calls
    of [getvalue()] on the two redirected buffers end, where the text
    written is read: right after the run (lines 151-152), and in the
    handler (lines 173-174), after [str(v)] and [str(e)] have run code of
    the snippet again.  The generated code can reach the buffers, through
    [sys.stdout] in any module it has, and close them; a closed buffer
    raises [ValueError] when read.  A value that is no text makes
    [sanitize_code_output] raise where it is read, and counts as that. *)
Record exec_result (pyobj : Type) := {
  ending : run (list (pystr * pyobj));
  written_out : run pystr;
  written_err : run pystr;
  kept_out : run pystr;
  kept_err : run pystr
}.
Arguments ending {pyobj} _.
Arguments written_out {pyobj} _.
Arguments written_err {pyobj} _.
Arguments kept_out {pyobj} _.
Arguments kept_err {pyobj} _.

(** A run that leaves the buffers open and untouched after it. *)
Definition plain_run {pyobj} (out err : pystr)
    (ending : run (list (pystr * pyobj))) : exec_result pyobj :=
  {| ending := ending;
     written_out := Returns out; written_err := Returns err;
     kept_out := Returns out; kept_err := Returns err |}.

Section Sandbox.

Variable ast_parse : pystr -> parse_result.

(** Python values, and how [str(v)] ends. *)
Variable pyobj : Type.
Variable py_str : pyobj -> run pystr.

(** [exec(program, {"__builtins__": __builtins__}, {})] under the two
    redirections. *)
Variable exec : pystr -> exec_result pyobj.

(** [{k: str(v) for k, v in local_vars.items() if not k.startswith("_")}] *)
Fixpoint render (items : list (pystr * pyobj)) : run (list (pystr * pystr)) :=
  match items with
  | [] => Returns []
  | (k, v) :: rest =>
      if negb (startswith (py "_") k) then
        match py_str v with
        | Returns s =>
            match render rest with
            | Returns d => Returns ((k, s) :: d)
            | other => other
            end
        | Propagates e => Propagates e
        | Hangs => Hangs
        end
      else render rest
  end.

(** The [except Exception as e] clause of [execute_code]: [str(e)] first,
    then the trace, then the log record, then the two buffers are read
    for the result. *)
Definition on_exception (out err : run pystr) (e : exception)
  : run ExecutionResult * list event :=
  if exc_is_Exception e then
    match str_exc e with
    | Returns error_msg =>
        match format_exc_call e with
        | Returns tb =>
            let logged :=
              [executor_log ERROR
                 (py "Error al ejecutar código: " ++ error_msg)] in
            match out with
            | Returns out =>
                match err with
                | Returns err =>
                    (Returns {| status := py "error";
                                stdout := sanitize_code_output out;
                                stderr := sanitize_code_output err;
                                error := Some error_msg;
                                traceback := Some tb;
                                variables := None |},
                     logged)
                | Propagates e' => (Propagates e', logged)
                | Hangs => (Hangs, logged)
                end
            | Propagates e' => (Propagates e', logged)
            | Hangs => (Hangs, logged)
            end
        | Propagates e' => (Propagates e', [])
        | Hangs => (Hangs, [])
        end
    | Propagates e' => (Propagates e', [])
    | Hangs => (Hangs, [])
    end
  else (Propagates e, []).

Definition then_events {A} (before : list event) (r : run A * list event)
  : run A * list event :=
  (fst r, before ++ snd r).

Definition execute_code (code : pystr) : run ExecutionResult * list event :=
  match is_safe_code ast_parse code with
  | Propagates e => (Propagates e, [])
  | Hangs => (Hangs, [])
  | Returns (false, error_message) =>
      (Returns {| status := py "error";
                  stdout := [];
                  stderr := py "Código potencialmente peligroso detectado: "
                            ++ error_message;
                  error := Some error_message;
                  traceback := None;
                  variables := None |},
       [executor_log WARNING
          (py "Código inseguro detectado: " ++ error_message)])
  | Returns (true, _) =>
      let program := augmented_code code in
      let r := exec program in
      let handler := on_exception (kept_out r) (kept_err r) in
      then_events [Exec program]
        match ending r with
        | Hangs => (Hangs, [])
        | Propagates e => handler e
        | Returns local_vars =>
            match written_out r with
            | Hangs => (Hangs, [])
            | Propagates e => handler e
            | Returns out =>
                match written_err r with
                | Hangs => (Hangs, [])
                | Propagates e => handler e
                | Returns err =>
                    then_events
                      [executor_log INFO (py "Código ejecutado correctamente")]
                      match render local_vars with
                      | Returns vars =>
                          (Returns {| status := py "success";
                                      stdout := sanitize_code_output out;
                                      stderr := sanitize_code_output err;
                                      error := None;
                                      traceback := None;
                                      variables := Some vars |}, [])
                      | Propagates e => handler e
                      | Hangs => (Hangs, [])
                      end
                end
            end
        end
  end.

End Sandbox.

(** ** config/settings.py: the two settings the memory reads *)

Record Settings := {
  max_memory_tokens : Z;
  char_to_token_ratio : Z
}.

Definition default_settings : Settings :=
  {| max_memory_tokens := 2000; char_to_token_ratio := 4 |}.

(** ** core/memory_manager.py *)

(** One message of the conversation. *)
Record entry := {
  role : pystr;
  content : pystr;
  timestamp : pystr
}.

(** The memory manager with the trace of what it did so far. *)
Record memory := {
  conversation_history : list entry;
  trace : list event
}.

Definition memory_log : level -> pystr -> event := Log (py "memory_manager").

(** [str(n)] for an integer. *)
Definition str_of_int (n : Z) : pystr :=
  py (DecimalString.NilZero.string_of_int (Z.to_int n)).

Definition ZeroDivisionError : exception :=
  {| exc_is_Exception := true;
     exc_str := py "integer division or modulo by zero";
     exc_frames := py "ZeroDivisionError: integer division or modulo by zero
";
     exc_str_fails := None;
     exc_format_fails := None |}.

(** The prompt of [_summarize_memory]. *)
Definition summary_prompt (history_text : pystr) : pystr :=
  py "
            Resume la siguiente conversación de manera concisa pero manteniendo 
            los puntos clave, el contexto importante y cualquier información factual relevante.
            El resumen debe ser completo pero compacto.
            
            CONVERSACIÓN:
            " ++ history_text ++ py "
            
            RESUMEN CONCISO:
            ".

Definition record_event (m : memory) (ev : event) : memory :=
  {| conversation_history := conversation_history m;
     trace := trace m ++ [ev] |}.

Section Memory.

Variable settings : Settings.

(** [s.upper()]. *)
Variable upper : pystr -> pystr.

(** [datetime.now().isoformat()], given what happened before. *)
Variable now : list event -> pystr.

(** How [self.summarizer_llm.invoke(prompt).content] ends, given what
    happened before. *)
Variable summarizer : list event -> pystr -> run pystr.

(** The text built by the loop over [history_to_summarize]. *)
Definition history_text (history_to_summarize : list entry) : pystr :=
  fold_left
    (fun text e => text ++ upper (role e) ++ py ": " ++ content e ++ py "

")
    history_to_summarize [].

Definition recent_history (history : list entry) : list entry :=
  if (4 <=? length history)%nat then slice_last 4 history else [].

Definition history_to_summarize (history : list entry) : list entry :=
  if (4 <=? length history)%nat then slice_but_last 4 history else history.

Definition summary_entry (summary ts : pystr) : entry :=
  {| role := py "system";
     content := py "Resumen de la conversación previa: " ++ summary;
     timestamp := ts |}.

Definition _summarize_memory (m : memory) : memory * run unit :=
  let history := conversation_history m in
  match history_to_summarize history with
  | [] => (m, Returns tt)
  | _ :: _ =>
      let prompt := summary_prompt (history_text (history_to_summarize history)) in
      let m1 := record_event m (Invoke prompt) in
      match summarizer (trace m) prompt with
      | Returns summary =>
          let ts := now (trace m1) in
          ({| conversation_history :=
                summary_entry summary ts :: recent_history history;
              trace :=
                trace m1 ++
                [Now; memory_log INFO (py "Memoria resumida exitosamente")] |},
           Returns tt)
      | Propagates e =>
          if exc_is_Exception e
          then (record_event m1
                  (memory_log ERROR
                     (py "Error al resumir la memoria: " ++ exc_str e)),
                Returns tt)
          else (m1, Propagates e)
      | Hangs => (m1, Hangs)
      end
  end.

Definition total_chars (history : list entry) : Z :=
  fold_right (fun e acc => Z.of_nat (length (content e)) + acc)%Z 0%Z history.

Definition _check_and_summarize (m : memory) : memory * run unit :=
  let history := conversation_history m in
  if (length history <=? 2)%nat then (m, Returns tt)
  else if (char_to_token_ratio settings =? 0)%Z
  then (m, Propagates ZeroDivisionError)
  else
    let estimated_tokens :=
      (total_chars history / char_to_token_ratio settings)%Z in
    if (max_memory_tokens settings <? estimated_tokens)%Z
    then _summarize_memory
           (record_event m
              (memory_log INFO
                 (py "Resumiendo memoria (aprox. "
                  ++ str_of_int estimated_tokens ++ py " tokens)")))
    else (m, Returns tt).

Definition add_message (role content : pystr) (m : memory)
  : memory * run unit :=
  let ts := now (trace m) in
  _check_and_summarize
    {| conversation_history :=
         conversation_history m
         ++ [{| role := role; content := content; timestamp := ts |}];
       trace := trace m ++ [Now] |}.

Definition clear_memory (m : memory) : memory :=
  {| conversation_history := [];
     trace := trace m ++ [memory_log INFO (py "Memoria de conversación limpiada")] |}.

End Memory.

(** ** An environment to run the examples in *)

(** How CPython answers on the handful of texts the examples below run:
    the tree of [ast.parse] (as [is_safe_code] sees it) and the outcome of
    [exec].  A text outside the table has no entry; the functions must
    answer something there, and no example depends on that answer.  The
    answers that show a place are those of CPython 3.11 as Debian 12
    installs it, with pandas and numpy added by pip and the program in
    [/srv/app]. *)
Module Observed.

(** A module is shown with where it comes from: [(built-in)], or [from]
    and the path of its file between quotes. *)
Inductive value :=
| Int (n : Z)
| ModuleObj (name origin : pystr)
| ClassObj (qualname : pystr).

(** [str(v)]. *)
Definition py_str (v : value) : run pystr :=
  Returns
    match v with
    | Int n => str_of_int n
    | ModuleObj name origin => py "<module '" ++ name ++ py "' " ++ origin ++ py ">"
    | ClassObj qualname => py "<class '" ++ qualname ++ py "'>"
    end.

Definition assign_x : pystr := py "x = 1".

Definition print_then_divide : pystr := py "print('a')
x = 1/0".

Definition ast_parse (code : pystr) : parse_result :=
  if pystr_eqb code assign_x then
    (* Module [Assign [Name x; Constant]] *)
    Parsed (Node [Node [Name (py "x"); Node []]])
  else if pystr_eqb code print_then_divide then
    (* Module [Expr [Call print [Constant]];
               Assign [Name x; BinOp [Constant; Div; Constant]]] *)
    Parsed (Node [Node [Call (Name (py "print")) [Node []]];
                  Node [Name (py "x"); Node [Node []; Node []; Node []]]])
  else if pystr_eqb code (fallback_code (py "Request timed out.")) then
    (* Module [Expr [Call print [Constant]]] *)
    Parsed (Node [Node [Call (Name (py "print")) [Node []]]])
  else SyntaxError (py "invalid syntax (<unknown>, line 1)").

(** The names the preamble binds. *)
Definition preamble_vars : list (pystr * value) :=
  [(py "math", ModuleObj (py "math") (py "(built-in)"));
   (py "random",
    ModuleObj (py "random") (py "from '/usr/lib/python3.11/random.py'"));
   (py "datetime", ClassObj (py "datetime.datetime"));
   (py "date", ClassObj (py "datetime.date"));
   (py "timedelta", ClassObj (py "datetime.timedelta"));
   (py "statistics",
    ModuleObj (py "statistics") (py "from '/usr/lib/python3.11/statistics.py'"));
   (py "pd",
    ModuleObj (py "pandas")
      (py "from '/usr/local/lib/python3.11/dist-packages/pandas/__init__.py'"));
   (py "np",
    ModuleObj (py "numpy")
      (py "from '/usr/local/lib/python3.11/dist-packages/numpy/__init__.py'"));
   (py "re", ModuleObj (py "re") (py "from '/usr/lib/python3.11/re/__init__.py'"));
   (py "collections",
    ModuleObj (py "collections")
      (py "from '/usr/lib/python3.11/collections/__init__.py'"))].

Definition division_by_zero : exception :=
  {| exc_is_Exception := true;
     exc_str := py "division by zero";
     exc_frames := py "  File " ++ [34] ++ py "/srv/app/core/code_executor.py"
                   ++ [34] ++ py ", line 148, in execute_code
    exec(augmented_code, {" ++ [34] ++ py "__builtins__" ++ [34]
                   ++ py ": __builtins__}, local_vars)
  File " ++ [34] ++ py "<string>" ++ [34] ++ py ", line 11, in <module>
ZeroDivisionError: division by zero
";
     exc_str_fails := None;
     exc_format_fails := None |}.

(** The renderings of those bindings. *)
Definition rendered_preamble : list (pystr * pystr) :=
  [(py "math", py "<module 'math' (built-in)>");
   (py "random", py "<module 'random' from '/usr/lib/python3.11/random.py'>");
   (py "datetime", py "<class 'datetime.datetime'>");
   (py "date", py "<class 'datetime.date'>");
   (py "timedelta", py "<class 'datetime.timedelta'>");
   (py "statistics",
    py "<module 'statistics' from '/usr/lib/python3.11/statistics.py'>");
   (py "pd",
    py "<module 'pandas' from '/usr/local/lib/python3.11/dist-packages/pandas/__init__.py'>");
   (py "np",
    py "<module 'numpy' from '/usr/local/lib/python3.11/dist-packages/numpy/__init__.py'>");
   (py "re", py "<module 're' from '/usr/lib/python3.11/re/__init__.py'>");
   (py "collections",
    py "<module 'collections' from '/usr/lib/python3.11/collections/__init__.py'>")].

(** The first entry is the assignment run by itself, which tells the
    names it creates; the others are programs [execute_code] runs. *)
Definition exec (program : pystr) : exec_result value :=
  if pystr_eqb program assign_x then
    plain_run [] [] (Returns [(py "x", Int 1)])
  else if pystr_eqb program (augmented_code assign_x) then
    plain_run [] [] (Returns (preamble_vars ++ [(py "x", Int 1)]))
  else if pystr_eqb program (augmented_code print_then_divide) then
    plain_run (py "a
") [] (Propagates division_by_zero)
  else plain_run [] [] Hangs.

(** [str.upper] on text without lower-case letters beyond [a-z]. *)
Definition upper (s : pystr) : pystr :=
  map (fun c => if (97 <=? c) && (c <=? 122) then c - 32 else c) s.

(** A clock that stands still. *)
Definition now (_ : list event) : pystr := py "2024-05-01T10:00:00.000000".

(** A summarizer that answers, and one that fails. *)
Definition summarizer_ok (_ : list event) (_ : pystr) : run pystr :=
  Returns (py "resumen").

Definition timeout : exception :=
  {| exc_is_Exception := true;
     exc_str := py "Request timed out.";
     exc_frames := py "openai.APITimeoutError: Request timed out.
";
     exc_str_fails := None;
     exc_format_fails := None |}.

Definition summarizer_down (_ : list event) (_ : pystr) : run pystr :=
  Propagates timeout.

(** A model that is down, and one whose client cannot be built. *)
Definition llm_down (_ : pystr) : run pystr := Propagates timeout.

Definition bad_client : exception :=
  {| exc_is_Exception := true;
     exc_str := py "Client.__init__() got an unexpected keyword argument 'proxies'";
     exc_frames := py "TypeError: Client.__init__() got an unexpected keyword argument 'proxies'
";
     exc_str_fails := None;
     exc_format_fails := None |}.

Definition llm_broken (_ : pystr) : run pystr := Propagates bad_client.

Definition message (who : pystr) (n : nat) : entry :=
  {| role := who; content := repeat 97 n; timestamp := now [] |}.

(** A memory of [k] messages of [n] characters each, the user first. *)
Fixpoint turns (k : nat) (user_next : bool) (n : nat) : list entry :=
  match k with
  | O => []
  | S k' =>
      message (if user_next then py "user" else py "assistant") n
        :: turns k' (negb user_next) n
  end.

Definition conversation (k n : nat) : memory :=
  {| conversation_history := turns k true n; trace := [] |}.

End Observed.

(** ** What the specification calls a control character *)

(** Unicode's general category Cc: U+0000..U+001F and U+007F..U+009F. *)
Definition is_control (c : N) : bool :=
  (c <=? 31) || ((127 <=? c) && (c <=? 159)).

(** The code points [CONTROL_CLASS] lists. *)
Definition in_control_class (c : N) : bool :=
  (c <=? 9) || (c =? 11) || (c =? 12) || ((14 <=? c) && (c <=? 31))
  || ((127 <=? c) && (c <=? 159)).

(** * The rest of the program *)

(** ** core/memory_manager.py: reading and clearing the history *)

(** [l[start:]] for any integer [start]: a negative one counts from the
    end, and one beyond either end is clipped to it. *)
Definition slice_from {A} (start : Z) (l : list A) : list A :=
  if (start <? 0)%Z
  then drop (Z.to_nat (Z.max (Z.of_nat (length l) + start) 0)) l
  else drop (Z.to_nat start) l.

Definition get_recent_history (n : Z) (m : memory) : list entry :=
  if (0 <? length (conversation_history m))%nat
  then slice_from (- n) (conversation_history m)
  else [].

Section Reading.

Variable upper : pystr -> pystr.

(** One line of the formatted history. *)
Definition format_message (msg : entry) : pystr :=
  upper (role msg) ++ py ": " ++ content msg.

(** [get_formatted_history(n)]; [None] is the default, all messages. *)
Definition get_formatted_history (n : option Z) (m : memory) : pystr :=
  let history :=
    match n with
    | None => conversation_history m
    | Some n => slice_from (- n) (conversation_history m)
    end in
  join (py "

") (map format_message history).

End Reading.

(** ** core/code_executor.py: the router and the explainer *)

Definition code_keywords : list pystr :=
  [py "calcula"; py "calcular"; py "calcule"; py "resultado exacto";
   py "precisión numérica"; py "computa"; py "computar"; py "cómputo";
   py "ejecuta"; py "ejecutar"; py "código"; py "python"; py "algoritmo";
   py "exactitud"; py "decimal"; py "número exacto"; py "estadística";
   py "matemáticas"; py "fórmula"; py "ecuación"].

(** The characters of a text, one after the other. *)
Definition chars (s : pystr) : list Re.regex :=
  map (fun c => Re.Atom (Re.Lit c)) s.

(** A sequence and a choice of patterns, nested as [Re.compile] nests them. *)
Fixpoint in_sequence (rs : list Re.regex) : Re.regex :=
  match rs with
  | [] => Re.Eps
  | [r] => r
  | r :: rs' => Re.Cat r (in_sequence rs')
  end.

Fixpoint one_of (rs : list Re.regex) : Re.regex :=
  match rs with
  | [] => Re.Void
  | [r] => r
  | r :: rs' => Re.Alt r (one_of rs')
  end.

(** [r+] and [\s]. *)
Definition one_or_more (r : Re.regex) : Re.regex := Re.Cat r (Re.Star r).

Definition space : Re.regex := Re.Atom Re.Space.

(** The class [[+\-*/^]]. *)
Definition operator : Re.regex :=
  Re.Atom (Re.Class [(43, 43); (45, 45); (42, 42); (47, 47); (94, 94)]).

Section Router.

(** [s.lower()]. *)
Variable lower : pystr -> pystr.

(** [\d] matches the decimal digits of Unicode (category Nd): the ten of
    ASCII, and other ranges that depend on the version of the tables. *)
Variable other_decimal_digits : list (N * N).

Definition digit : Re.regex :=
  Re.Atom (Re.Class ((48, 57) :: other_decimal_digits)).

(** [math_patterns], each as [re] compiles it. *)
Definition math_patterns : list Re.regex :=
  [ (* \d+\s*[+\-*/^]\s*\d+ *)
    in_sequence [one_or_more digit; Re.Star space; operator; Re.Star space; one_or_more digit];
    (* \d+\s*% *)
    in_sequence [one_or_more digit; Re.Star space; Re.Atom (Re.Lit 37)];
    (* raíz\s+cuadrada *)
    in_sequence (chars (py "raíz") ++ [one_or_more space] ++ chars (py "cuadrada"));
    (* logaritmo *)
    in_sequence (chars (py "logaritmo"));
    (* factorial *)
    in_sequence (chars (py "factorial"));
    (* media|mediana|moda|promedio *)
    one_of [in_sequence (chars (py "media")); in_sequence (chars (py "mediana"));
            in_sequence (chars (py "moda")); in_sequence (chars (py "promedio"))];
    (* desviación\s+estándar *)
    in_sequence (chars (py "desviación") ++ [one_or_more space] ++ chars (py "estándar"));
    (* probabilidad *)
    in_sequence (chars (py "probabilidad")) ].

Definition detect_code_execution_needed (query : pystr) : bool :=
  let query_lower := lower query in
  let keyword_match :=
    existsb (fun keyword => contains keyword query_lower) code_keywords in
  let math_match :=
    existsb (fun pattern => Re.search_regex pattern query_lower) math_patterns in
  keyword_match || math_match.

End Router.

(** Whether a text, or a text that may be [None], counts as true. *)
Definition truthy (s : pystr) : bool :=
  match s with
  | [] => false
  | _ :: _ => true
  end.

Definition truthy_option (o : option pystr) : bool :=
  match o with
  | Some s => truthy s
  | None => false
  end.

(** How an f-string shows a text that may be [None]. *)
Definition str_of_option (o : option pystr) : pystr :=
  match o with
  | Some s => s
  | None => py "None"
  end.

(** [var_str]: the public variables, one [name = value] per line; a
    result with no [variables] key has none. *)
Definition var_str (variables : option (list (pystr * pystr))) : pystr :=
  join (py "
")
    (map (fun kv => fst kv ++ py " = " ++ snd kv)
       (List.filter (fun kv => negb (startswith (py "_") (fst kv)))
          (match variables with
           | Some d => d
           | None => []
           end))).

(** The prompt of [explain_code_result]. *)
Definition explanation_prompt
    (query code status stdout stderr : pystr) (error : option pystr)
    (var_str : pystr) : pystr :=
  py "
        El usuario preguntó: "
  ++ [34]
  ++ query
  ++ [34]
  ++ py "
        
        Para responder con precisión, generé y ejecuté el siguiente código Python:
        
        ```python
        "
  ++ code
  ++ py "
        ```
        
        El código "
  ++ (if pystr_eqb status (py "success")
      then py "se ejecutó correctamente" else py "encontró errores")
  ++ py ". 
        
        Resultado de la ejecución:
        
        SALIDA ESTÁNDAR:
        "
  ++ stdout
  ++ py "
        
        "
  ++ (if truthy stderr || truthy_option error then py "ERRORES:" else [])
  ++ py "
        "
  ++ stderr
  ++ py "
        "
  ++ str_of_option error
  ++ py "
        
        "
  ++ (if truthy var_str then py "VARIABLES FINALES:" else [])
  ++ py "
        "
  ++ var_str
  ++ py "
        
        Por favor, explica el resultado al usuario de manera clara y concisa, 
        relacionándolo con su pregunta original. 
        
        La explicación debe:
        1. Responder directamente a la consulta del usuario
        2. Explicar el significado del resultado (no el código)
        3. Ser concisa pero completa
        4. Incluir los valores numéricos o resultados relevantes
        5. No mencionar el proceso de generación de código a menos que sea relevante
        
        Si hubo errores, explica el problema de manera sencilla y proporciona una respuesta alternativa si es posible.
        ".

(** What [explain_code_result] answers when the model call fails after a
    successful run, and after a failed one. *)
Definition explanation_fallback_success (stdout : pystr) : pystr :=
  py "
                He realizado el cálculo que solicitaste. Aquí está el resultado:
                
                "
  ++ stdout
  ++ py "
                
                Si necesitas más detalles o tienes alguna pregunta adicional, házmelo saber.
                ".

Definition explanation_fallback_error (error : option pystr) : pystr :=
  py "
                Intenté realizar el cálculo, pero encontré algunos problemas técnicos.
                
                Error: "
  ++ str_of_option error
  ++ py "
                
                ¿Podrías reformular tu pregunta o proporcionar más detalles para que pueda ayudarte mejor?
                ".

(** [explain_code_result(llm, query, code, execution_result)]; [llm]
    gives how [llm.invoke(prompt).content] ends. *)
Definition explain_code_result
    (llm : pystr -> run pystr) (query code : pystr)
    (execution_result : ExecutionResult) : run pystr * list event :=
  let prompt :=
    explanation_prompt query code
      (status execution_result) (stdout execution_result)
      (stderr execution_result) (error execution_result)
      (var_str (variables execution_result)) in
  match llm prompt with
  | Returns explanation => (Returns explanation, [Invoke prompt])
  | Propagates e =>
      if exc_is_Exception e
      then (Returns
              (if pystr_eqb (status execution_result) (py "success")
               then explanation_fallback_success (stdout execution_result)
               else explanation_fallback_error (error execution_result)),
            [Invoke prompt;
             executor_log ERROR (py "Error al generar explicación: " ++ exc_str e)])
      else (Propagates e, [Invoke prompt])
  | Hangs => (Hangs, [Invoke prompt])
  end.

(** ** core/document_processor.py: retrieval *)

(** A retrieved passage: its text and its metadata dictionary. *)
Record Document := {
  page_content : pystr;
  metadata : list (pystr * pystr)
}.

Definition document_log : level -> pystr -> event :=
  Log (py "document_processor").

(** [getattr(doc.metadata, name, default)]: the metadata is a dictionary,
    whose keys are not attributes, so the default is what comes back for
    the two names asked, [source] and [page]. *)
Definition metadata_attribute (metadata : list (pystr * pystr))
    (default : pystr) : pystr :=
  default.

Definition format_documents (docs : list Document) : pystr :=
  match docs with
  | [] => py "No se encontró información relevante en la base de conocimiento."
  | _ :: _ =>
      join (py "
")
        (imap
           (fun i doc =>
              py "--- Documento " ++ str_of_int (Z.of_nat i + 1)
              ++ py " (Fuente: "
              ++ metadata_attribute (metadata doc) (py "Desconocido")
              ++ py ", Página: "
              ++ metadata_attribute (metadata doc) (py "N/A")
              ++ py ") ---
" ++ page_content doc ++ py "
")
           docs)
  end.

Section Retrieval.

(** Whether [self.vector_db] is set, and how
    [self.vector_db.similarity_search(query, k)] ends, given what happened
    before. *)
Variable vector_db : bool.
Variable similarity_search : list event -> pystr -> run (list Document).

Definition get_relevant_documents (query : pystr) (before : list event)
  : run (list Document) * list event :=
  if negb vector_db then
    (Returns [],
     [document_log WARNING
        (py "Se solicitaron documentos relevantes, pero no hay base de datos vectorial")])
  else
    match similarity_search before query with
    | Returns docs => (Returns docs, [])
    | Propagates e =>
        if exc_is_Exception e
        then (Returns [],
              [document_log ERROR
                 (py "Error al recuperar documentos relevantes: " ++ exc_str e)])
        else (Propagates e, [])
    | Hangs => (Hangs, [])
    end.

End Retrieval.

(** ** core/query_engine.py *)

Definition engine_log : level -> pystr -> event := Log (py "query_engine").

(** The memory with more events in its trace. *)
Definition emit (events : list event) (m : memory) : memory :=
  {| conversation_history := conversation_history m;
     trace := trace m ++ events |}.

(** What [_handle_code_execution] answers when an exception reaches it. *)
Definition code_execution_fallback (message : pystr) : pystr :=
  py "
            Intenté realizar cálculos para responder tu pregunta, pero encontré un error técnico.
            Si tu pregunta requiere cálculos precisos, por favor reformúlala o proporciona más detalles.
            
            Error: "
  ++ message
  ++ py "
            ".

(** The two prompts of [_handle_rag_query], with and without documents. *)
Definition rag_prompt_with_documents
    (conversation_context formatted_docs query : pystr) : pystr :=
  py "
                ### INSTRUCCIONES
                Eres un asistente de IA que proporciona respuestas precisas y útiles basadas en el contexto de la conversación
                y la información disponible en la base de conocimiento. Cuando la información no esté disponible en los documentos, 
                basa tu respuesta en tu conocimiento general, pero indica claramente cuando lo haces.
                
                ### CONTEXTO DE LA CONVERSACIÓN
                "
  ++ conversation_context
  ++ py "
                
                ### INFORMACIÓN DE LA BASE DE CONOCIMIENTO
                "
  ++ formatted_docs
  ++ py "
                
                ### CONSULTA DEL USUARIO
                "
  ++ query
  ++ py "
                
                ### RESPUESTA
                ".

Definition rag_prompt_without_documents
    (conversation_context query : pystr) : pystr :=
  py "
                ### INSTRUCCIONES
                Eres un asistente de IA que proporciona respuestas precisas y útiles basadas en el contexto de la conversación
                y tu conocimiento general. Sé honesto cuando no sepas algo.
                
                ### CONTEXTO DE LA CONVERSACIÓN
                "
  ++ conversation_context
  ++ py "
                
                ### CONSULTA DEL USUARIO
                "
  ++ query
  ++ py "
                
                ### RESPUESTA
                ".

(** What [_handle_rag_query] answers when an exception reaches it. *)
Definition rag_fallback : pystr :=
  py "
            Lo siento, encontré un error al procesar tu consulta. Por favor, inténtalo de nuevo o reformula tu pregunta.
            
            Si el problema persiste, considera reiniciar la conversación.
            ".

Section Engine.

Variable settings : Settings.
Variable upper lower : pystr -> pystr.
Variable other_decimal_digits : list (N * N).
Variable now : list event -> pystr.
Variable summarizer : list event -> pystr -> run pystr.

(** How [self.llm.invoke(prompt).content] ends, given what happened before. *)
Variable llm : list event -> pystr -> run pystr.

Variable ast_parse : pystr -> parse_result.
Variable pyobj : Type.
Variable py_str : pyobj -> run pystr.

(** [exec], given what happened before. *)
Variable exec : list event -> pystr -> exec_result pyobj.

Variable vector_db : bool.
Variable similarity_search : list event -> pystr -> run (list Document).

(** An [except Exception as e] clause around a body that has ended. *)
Definition except_Exception {A} (body : memory * run A)
    (handler : exception -> memory -> memory * run A) : memory * run A :=
  match snd body with
  | Propagates e => if exc_is_Exception e then handler e (fst body) else body
  | _ => body
  end.

(** A handler that starts with [str(e)], which may fail on the exception
    of a class the generated code wrote; [use] is what it does with the
    text. *)
Definition with_str {A} (e : exception) (m : memory)
    (use : pystr -> memory * run A) : memory * run A :=
  match str_exc e with
  | Returns message => use message
  | Propagates e' => (m, Propagates e')
  | Hangs => (m, Hangs)
  end.

Definition _handle_code_execution (query : pystr) (m : memory)
  : memory * run pystr :=
  except_Exception
    (let generated := generate_code (llm (trace m)) query in
     let m1 := emit (snd generated) m in
     match fst generated with
     | Returns python_code =>
         let executed :=
           execute_code ast_parse pyobj py_str (exec (trace m1)) python_code in
         let m2 := emit (snd executed) m1 in
         match fst executed with
         | Returns execution_result =>
             let explained :=
               explain_code_result (llm (trace m2)) query python_code
                 execution_result in
             (emit (snd explained) m2, fst explained)
         | Propagates e => (m2, Propagates e)
         | Hangs => (m2, Hangs)
         end
     | Propagates e => (m1, Propagates e)
     | Hangs => (m1, Hangs)
     end)
    (fun e m' =>
       with_str e m' (fun message =>
         (emit [engine_log ERROR
                  (py "Error en ejecución de código: " ++ message)] m',
          Returns (code_execution_fallback message)))).

Definition _handle_rag_query (query : pystr) (m : memory)
  : memory * run pystr :=
  except_Exception
    (let retrieved :=
       get_relevant_documents vector_db similarity_search query (trace m) in
     let m1 := emit (snd retrieved) m in
     match fst retrieved with
     | Returns relevant_docs =>
         let conversation_context := get_formatted_history upper (Some 5%Z) m1 in
         let rag_prompt :=
           match relevant_docs with
           | _ :: _ =>
               rag_prompt_with_documents conversation_context
                 (format_documents relevant_docs) query
           | [] => rag_prompt_without_documents conversation_context query
           end in
         (emit [Invoke rag_prompt] m1, llm (trace m1) rag_prompt)
     | Propagates e => (m1, Propagates e)
     | Hangs => (m1, Hangs)
     end)
    (fun e m' =>
       with_str e m' (fun message =>
         (emit [engine_log ERROR
                  (py "Error en procesamiento RAG: " ++ message)] m',
          Returns rag_fallback))).

Definition process_query (query : pystr) (m : memory) : memory * run pystr :=
  let m0 := emit [engine_log INFO (py "Procesando consulta: " ++ query)] m in
  let asked := add_message settings upper now summarizer (py "user") query m0 in
  match snd asked with
  | Returns _ =>
      let answered :=
        if detect_code_execution_needed lower other_decimal_digits query
        then _handle_code_execution query
               (emit [engine_log INFO
                        (py "Se detectó necesidad de ejecución de código")]
                     (fst asked))
        else _handle_rag_query query (fst asked) in
      match snd answered with
      | Returns response =>
          let stored :=
            add_message settings upper now summarizer (py "assistant") response
              (fst answered) in
          match snd stored with
          | Returns _ => (fst stored, Returns response)
          | Propagates e => (fst stored, Propagates e)
          | Hangs => (fst stored, Hangs)
          end
      | Propagates e => (fst answered, Propagates e)
      | Hangs => (fst answered, Hangs)
      end
  | Propagates e => (fst asked, Propagates e)
  | Hangs => (fst asked, Hangs)
  end.

(** ** main.py: the handlers of the interface *)

Definition app_log : level -> pystr -> event := Log (py "rag_chatbot").

(** The chat shown on the page: one pair of question and answer per turn.
    The handler of [_chat_and_log] calls [str(e)] twice, for the record
    and for the answer; the two calls are taken to end the same way. *)
Abbreviation chat := (list (pystr * pystr)).

Definition _chat_and_log (query : pystr) (history : chat) (m : memory)
  : memory * run (pystr * chat) :=
  if negb (truthy query) then (m, Returns ([], history))
  else
    except_Exception
      (let processed := process_query query m in
       match snd processed with
       | Returns response =>
           (fst processed, Returns ([], history ++ [(query, response)]))
       | Propagates e => (fst processed, Propagates e)
       | Hangs => (fst processed, Hangs)
       end)
      (fun e m' =>
         with_str e m' (fun message =>
           (emit [app_log ERROR (py "Error en el chat: " ++ message)] m',
            Returns
              ([],
               history
               ++ [(query,
                    py "Lo siento, ocurrió un error al procesar tu consulta: "
                    ++ message)])))).

Definition _clear_chat (m : memory) : memory * chat := (clear_memory m, []).

Definition _regenerate_response (history : chat) (m : memory)
  : memory * run chat :=
  match last history with
  | None => (m, Returns [])
  | Some (last_query, _) =>
      let history := removelast history in
      let m1 :=
        if (2 <=? length (conversation_history m))%nat
        then {| conversation_history := slice_but_last 2 (conversation_history m);
                trace := trace m |}
        else m in
      let processed := process_query last_query m1 in
      match snd processed with
      | Returns response =>
          (fst processed, Returns (history ++ [(last_query, response)]))
      | Propagates e => (fst processed, Propagates e)
      | Hangs => (fst processed, Hangs)
      end
  end.

End Engine.

(** ** Notions the further properties are stated with *)

(** [descendant root n]: [n] is [root] or a node below it. *)
Inductive descendant : ast -> ast -> Prop :=
| descendant_here n : descendant n n
| descendant_below root child n :
    child ∈ children root -> descendant child n -> descendant root n.

(** The whole of [s] is a match of [r], by derivatives. *)
Definition accepts (r : Re.regex) (s : pystr) : bool :=
  Re.nullable (fold_left (fun r c => Re.deriv c r) s r).

(** The letters of the class [[a-zA-Z]]. *)
Definition is_letter (c : N) : bool :=
  ((97 <=? c) && (c <=? 122)) || ((65 <=? c) && (c <=? 90)).

(** The digits [0] to [9]. *)
Definition is_ascii_digit (c : N) : bool := (48 <=? c) && (c <=? 57).

(** A request to a model, among the events. *)
Definition is_invoke (ev : event) : bool :=
  match ev with
  | Invoke _ => true
  | _ => false
  end.

(** The trigger of [_check_and_summarize] does not fire on a history of
    [n] entries with [total] characters in all. *)
Definition calm (settings : Settings) (n : nat) (total : Z) : Prop :=
  (n <= 2)%nat
  \/ (char_to_token_ratio settings <> 0
      /\ total / char_to_token_ratio settings <= max_memory_tokens settings)%Z.



(** What a message says: its role and its content, without the time. *)
Definition said (e : entry) : pystr * pystr := (role e, content e).

(** An event that is no run of [exec], or the run of the preamble before
    a text the validator of [ast_parse] has judged safe. *)
Definition vetted (ast_parse : pystr -> parse_result) (ev : event) : Prop :=
  match ev with
  | Exec program =>
      exists code reason,
        program = augmented_code code
        /\ is_safe_code ast_parse code = Returns (true, reason)
  | _ => True
  end.

(** The trace of [m'] is the trace of [m] and then events that all
    satisfy [P]. *)
Definition grows (P : event -> Prop) (m m' : memory) : Prop :=
  exists events, trace m' = trace m ++ events /\ Forall P events.

(** ** More of the environment of the examples *)

(** Further answers of the outside world, for the examples of the further
    properties; the same proviso holds as for [Observed]. *)
Module Sample.

(** [ast.parse] of CPython 3.11 on a text with a null character. *)
Definition null_bytes : exception :=
  {| exc_is_Exception := true;
     exc_str := py "source code string cannot contain null bytes";
     exc_frames := py "ValueError: source code string cannot contain null bytes
";
     exc_str_fails := None;
     exc_format_fails := None |}.

(** Two texts the validator lets through: one leaves the interpreter, the
    other closes the buffer that stands for the standard output and then
    divides by zero. *)
Definition raise_exit : pystr := py "raise SystemExit(3)".

Definition close_then_divide : pystr := py "collections._sys.stdout.close()
x = 1/0".

Definition ast_parse (code : pystr) : parse_result :=
  if bool_decide (0 ∈ code) then ParseRaises null_bytes
  else if pystr_eqb code raise_exit then
    (* Module [Raise [Call SystemExit [Constant]]] *)
    Parsed (Node [Node [Call (Name (py "SystemExit")) [Node []]]])
  else if pystr_eqb code close_then_divide then
    (* Module [Expr [Call collections._sys.stdout.close []];
               Assign [Name x; BinOp [Constant; Div; Constant]]] *)
    Parsed
      (Node [Node [Call (Attribute
                           (Attribute
                              (Attribute (Name (py "collections")) (py "_sys"))
                              (py "stdout"))
                           (py "close")) []];
             Node [Name (py "x"); Node [Node []; Node []; Node []]]])
  else Observed.ast_parse code.

(** The frames of a traceback for an exception that left [exec] at the
    line [line] of the program. *)
Definition frames_at (line : pystr) (last : pystr) : pystr :=
  py "  File " ++ [34] ++ py "/srv/app/core/code_executor.py"
  ++ [34] ++ py ", line 148, in execute_code
    exec(augmented_code, {" ++ [34] ++ py "__builtins__" ++ [34]
  ++ py ": __builtins__}, local_vars)
  File " ++ [34] ++ py "<string>" ++ [34] ++ py ", line " ++ line
  ++ py ", in <module>
" ++ last ++ py "
".

Definition system_exit : exception :=
  {| exc_is_Exception := false;
     exc_str := py "3";
     exc_frames := frames_at (py "10") (py "SystemExit: 3");
     exc_str_fails := None;
     exc_format_fails := None |}.

(** [getvalue()] on a closed buffer. *)
Definition closed_file : exception :=
  {| exc_is_Exception := true;
     exc_str := py "I/O operation on closed file";
     exc_frames := py "ValueError: I/O operation on closed file
";
     exc_str_fails := None;
     exc_format_fails := None |}.

Definition exec_program (program : pystr) : exec_result Observed.value :=
  if pystr_eqb program (augmented_code raise_exit) then
    plain_run [] [] (Propagates system_exit)
  else if pystr_eqb program (augmented_code close_then_divide) then
    {| ending := Propagates Observed.division_by_zero;
       written_out := Propagates closed_file; written_err := Returns [];
       kept_out := Propagates closed_file; kept_err := Returns [] |}
  else Observed.exec program.

(** [str.lower] on text without capital letters beyond [A-Z]. *)
Definition lower (s : pystr) : pystr :=
  map (fun c => if (65 <=? c) && (c <=? 90) then c + 32 else c) s.

(** The decimal digits beyond ASCII in the tables of CPython 3.11
    (Unicode 14.0, category Nd). *)
Definition other_decimal_digits : list (N * N) :=
  [(1632, 1641); (1776, 1785); (1984, 1993); (2406, 2415); (2534, 2543);
   (2662, 2671); (2790, 2799); (2918, 2927); (3046, 3055); (3174, 3183);
   (3302, 3311); (3430, 3439); (3558, 3567); (3664, 3673); (3792, 3801);
   (3872, 3881); (4160, 4169); (4240, 4249); (6112, 6121); (6160, 6169);
   (6470, 6479); (6608, 6617); (6784, 6793); (6800, 6809); (6992, 7001);
   (7088, 7097); (7232, 7241); (7248, 7257); (42528, 42537); (43216, 43225);
   (43264, 43273); (43472, 43481); (43504, 43513); (43600, 43609);
   (44016, 44025); (65296, 65305); (66720, 66729); (68912, 68921);
   (69734, 69743); (69872, 69881); (69942, 69951); (70096, 70105);
   (70384, 70393); (70736, 70745); (70864, 70873); (71248, 71257);
   (71360, 71369); (71472, 71481); (71904, 71913); (72016, 72025);
   (72784, 72793); (73040, 73049); (73120, 73129); (92768, 92777);
   (92864, 92873); (93008, 93017); (120782, 120831); (123200, 123209);
   (123632, 123641); (125264, 125273); (130032, 130041)].


(** A model that greets, and one that writes the assignment in a fenced
    block when asked for code and a sentence otherwise. *)
Definition llm_greets (_ : list event) (_ : pystr) : run pystr :=
  Returns (py "Hola, ¿en qué puedo ayudarte?").

Definition llm_codes (_ : list event) (prompt : pystr) : run pystr :=
  if contains (py "Genera ÚNICAMENTE código Python") prompt
  then Returns (py "```python
x = 1
```")
  else Returns (py "x vale 1").

Definition exec (_ : list event) : pystr -> exec_result Observed.value :=
  exec_program.

(** An index that answers nothing, and one that is down. *)
Definition index_empty (_ : list event) (_ : pystr) : run (list Document) :=
  Returns [].

Definition index_down (_ : list event) (_ : pystr) : run (list Document) :=
  Propagates Observed.timeout.


(** An index that answers one passage. *)
Definition passage : Document :=
  {| page_content := py "El cielo es azul.";
     metadata := [(py "source", py "cielo.pdf"); (py "page", py "3")] |}.

Definition index_one (_ : list event) (_ : pystr) : run (list Document) :=
  Returns [passage].

End Sample.

(** * The definitions at work *)

Example py_accents :
  py "código" = [99; 243; 100; 105; 103; 111].
Proof. reflexivity. Qed.

Example split_fence :
  split (py "```") (py "a```b```c") = [py "a"; py "b"; py "c"].
Proof. reflexivity. Qed.

Example strip_blank : strip (py "  x y
") = py "x y".
Proof. reflexivity. Qed.

Example compile_dunder :
  Re.compile (py "__[a-zA-Z]+__")
  = Some (Re.Cat (Re.Atom (Re.Lit 95)) (Re.Cat (Re.Atom (Re.Lit 95))
      (Re.Cat (Re.Cat (Re.Atom (Re.Class [(97, 122); (65, 90)]))
                      (Re.Star (Re.Atom (Re.Class [(97, 122); (65, 90)]))))
      (Re.Cat (Re.Atom (Re.Lit 95)) (Re.Atom (Re.Lit 95)))))).
Proof. reflexivity. Qed.

Example search_examples :
  Re.search (py "os\s*\.\s*system") (py "import os
os . system('ls')") = true
  /\ Re.search (py "sys\s*\.\s*exit") (py "import os
os.system('ls')") = false
  /\ Re.search (py "a.b") [97; 10; 98] = false
  /\ Re.search (py "a.b") [97; 13; 98] = true.
Proof. repeat split; reflexivity. Qed.

Example patterns_compile :
  forallb (fun p => match Re.compile p with Some _ => true | None => false end)
          (CONTROL_CLASS :: DANGEROUS_PATTERNS) = true.
Proof. reflexivity. Qed.

Example control_class_compiled :
  Re.compile CONTROL_CLASS
  = Some (Re.Atom (Re.Class [(0, 9); (11, 11); (12, 12); (14, 31); (127, 159)])).
Proof. reflexivity. Qed.

Example walk_order :
  walk (Node [Node [Call (Name (py "print")) [Node []]]; Import [py "math"]])
  = [Node [Node [Call (Name (py "print")) [Node []]]; Import [py "math"]];
     Node [Call (Name (py "print")) [Node []]];
     Import [py "math"];
     Call (Name (py "print")) [Node []];
     Name (py "print");
     Node []].
Proof. reflexivity. Qed.

Example str_of_int_examples :
  str_of_int 2001 = py "2001" /\ str_of_int 0 = py "0" /\ str_of_int (-7) = py "-7".
Proof. repeat split; reflexivity. Qed.

Example sanitize_long_output :
  sanitize_code_output (repeat 97 (N.to_nat 11000))
  = repeat 97 (N.to_nat 10000) ++ TRUNCATED.
Proof. by vm_compute. Qed.

Example sanitize_mixed_output :
  sanitize_code_output
    [97; 9; 98; 13; 99; 10; 100; 0; 101; 133; 102; 159; 103; 160; 104; 127; 105]
  = [97; 98; 13; 99; 10; 100; 101; 102; 103; 160; 104; 105].
Proof. by vm_compute. Qed.

Example extract_fenced_block :
  extract_code (py "Claro:
```python
print(2+2)
```
Listo.") = Returns (py "print(2+2)").
Proof. by vm_compute. Qed.

Example timed_out_fallback_is_safe :
  is_safe_code Observed.ast_parse (fallback_code (py "Request timed out."))
  = Returns (true, []).
Proof. by vm_compute. Qed.

Example eval_call_is_rejected :
  first_some check_node
    (walk (Node [Node [Name (py "x"); Call (Name (py "eval")) [Node []]]]))
  = Some (py "Función potencialmente peligrosa: eval").
Proof. by vm_compute. Qed.

Example fourth_message_compacts_nothing :
  conversation_history
    (fst (add_message default_settings Observed.upper Observed.now
            Observed.summarizer_ok (py "assistant") (repeat 97 2500)
            (Observed.conversation 3 2500)))
  = conversation_history (Observed.conversation 4 2500).
Proof. by vm_compute. Qed.

(** * Facts about the regular expressions *)

Module ReFacts.
Import Re.

Lemma matches_void s : ~ matches Void s.
Proof. inversion 1. Qed.

Lemma matches_eps_inv s : matches Eps s -> s = [].
Proof. by inversion 1. Qed.

Lemma matches_atom_inv a s :
  matches (Atom a) s -> exists c, s = [c] /\ atom_matches a c = true.
Proof. inversion 1; subst; eauto. Qed.

Lemma matches_cat_inv r1 r2 s :
  matches (Cat r1 r2) s ->
  exists s1 s2, s = s1 ++ s2 /\ matches r1 s1 /\ matches r2 s2.
Proof. inversion 1; subst; eauto 6. Qed.

Lemma matches_alt_inv r1 r2 s :
  matches (Alt r1 r2) s -> matches r1 s \/ matches r2 s.
Proof. inversion 1; subst; eauto. Qed.

Lemma matches_cons_app r1 r2 c s1 s2 :
  matches r1 (c :: s1) -> matches r2 s2 -> matches (Cat r1 r2) (c :: s1 ++ s2).
Proof. intros H1 H2. apply (matches_cat r1 r2 (c :: s1) s2 H1 H2). Qed.

Lemma nullable_matches r : nullable r = true <-> matches r [].
Proof.
  induction r; simpl.
  - split; [discriminate | intros []%matches_void].
  - split; [constructor | reflexivity].
  - split; [discriminate |].
    intros (c & E & _)%matches_atom_inv. discriminate.
  - rewrite andb_true_iff, IHr1, IHr2. split.
    + intros [H1 H2]. apply (matches_cat _ _ [] [] H1 H2).
    + intros (s1 & s2 & E & H1 & H2)%matches_cat_inv.
      symmetry in E. apply app_eq_nil in E as [-> ->]. by split.
  - rewrite orb_true_iff, IHr1, IHr2. split.
    + intros [H|H]; [by apply matches_alt_l | by apply matches_alt_r].
    + apply matches_alt_inv.
  - split; [constructor | reflexivity].
Qed.

Lemma cat_matches r1 r2 s : matches (cat r1 r2) s <-> matches (Cat r1 r2) s.
Proof.
  assert (Hv1 : forall r, matches (Cat Void r) s <-> matches Void s).
  { intros r; split; [| intros []%matches_void].
    intros (s1 & s2 & _ & []%matches_void & _)%matches_cat_inv. }
  assert (Hv2 : forall r, matches (Cat r Void) s <-> matches Void s).
  { intros r; split; [| intros []%matches_void].
    intros (s1 & s2 & _ & _ & []%matches_void)%matches_cat_inv. }
  assert (He : forall r, matches (Cat Eps r) s <-> matches r s).
  { intros r; split.
    - intros (s1 & s2 & -> & ->%matches_eps_inv & H2)%matches_cat_inv. done.
    - intros H. apply (matches_cat Eps r [] s); [constructor | done]. }
  destruct r1, r2; simpl; rewrite ?Hv1, ?Hv2, ?He; done.
Qed.

Lemma alt_matches r1 r2 s : matches (alt r1 r2) s <-> matches (Alt r1 r2) s.
Proof.
  assert (Hl : forall r, matches (Alt Void r) s <-> matches r s).
  { intros r; split; [| by apply matches_alt_r].
    intros [[]%matches_void|H]%matches_alt_inv. done. }
  assert (Hr : forall r, matches (Alt r Void) s <-> matches r s).
  { intros r; split; [| by apply matches_alt_l].
    intros [H|[]%matches_void]%matches_alt_inv. done. }
  destruct r1, r2; simpl; rewrite ?Hl, ?Hr; done.
Qed.

(** A non-empty match of [Star r] starts with a non-empty match of [r]. *)
Lemma matches_star_cons r c s :
  matches (Star r) (c :: s) ->
  exists s1 s2, s = s1 ++ s2 /\ matches r (c :: s1) /\ matches (Star r) s2.
Proof.
  intros H. remember (Star r) as r' eqn:Er. remember (c :: s) as t eqn:Et.
  revert s Et.
  induction H as [| | | | | |r0 s1 s2 H1 _ H2 IH2]; try discriminate.
  injection Er as ->. intros s Et. destruct s1 as [|c1 s1]; simpl in Et.
  - by apply IH2.
  - injection Et as -> <-. by exists s1, s2.
Qed.

Lemma deriv_matches c r s : matches (deriv c r) s <-> matches r (c :: s).
Proof.
  revert s.
  induction r as [| |a|r1 IH1 r2 IH2|r1 IH1 r2 IH2|r IH]; intros s; simpl.
  - split; intros []%matches_void.
  - split; [intros []%matches_void | intros E%matches_eps_inv; discriminate].
  - destruct (atom_matches a c) eqn:Ha; split.
    + intros ->%matches_eps_inv. by constructor.
    + intros (c' & [= -> ->] & _)%matches_atom_inv. constructor.
    + intros []%matches_void.
    + intros (c' & [= -> ->] & H)%matches_atom_inv. congruence.
  - assert (Hcat : matches (cat (deriv c r1) r2) s <->
                   exists s1 s2,
                     s = s1 ++ s2 /\ matches r1 (c :: s1) /\ matches r2 s2).
    { rewrite cat_matches. split.
      - intros (s1 & s2 & -> & H1 & H2)%matches_cat_inv.
        exists s1, s2. by rewrite <- IH1.
      - intros (s1 & s2 & -> & H1 & H2). constructor; [by apply IH1 | done]. }
    assert (Hinv : matches (Cat r1 r2) (c :: s) ->
                   (matches r1 [] /\ matches r2 (c :: s)) \/
                   exists s1 s2,
                     s = s1 ++ s2 /\ matches r1 (c :: s1) /\ matches r2 s2).
    { intros (s1 & s2 & E & H1 & H2)%matches_cat_inv.
      destruct s1 as [|c1 s1]; simpl in E.
      - left. by subst s2.
      - right. injection E as <- ->. by exists s1, s2. }
    destruct (nullable r1) eqn:Hn.
    + rewrite alt_matches. split.
      * intros [(s1 & s2 & -> & H1 & H2)%Hcat|H]%matches_alt_inv.
        -- by apply matches_cons_app.
        -- apply (matches_cat r1 r2 [] (c :: s)).
           ++ by apply nullable_matches.
           ++ by apply IH2.
      * intros [[_ H]|H]%Hinv.
        -- apply matches_alt_r. by apply IH2.
        -- apply matches_alt_l. by apply Hcat.
    + rewrite Hcat. split.
      * intros (s1 & s2 & -> & H1 & H2). by apply matches_cons_app.
      * intros [[H _]|H]%Hinv; [| done].
        apply nullable_matches in H. congruence.
  - rewrite alt_matches. split.
    + intros [H|H]%matches_alt_inv;
        [apply matches_alt_l, IH1 | apply matches_alt_r, IH2]; done.
    + intros [H|H]%matches_alt_inv;
        [apply matches_alt_l, IH1 | apply matches_alt_r, IH2]; done.
  - rewrite cat_matches. split.
    + intros (s1 & s2 & -> & H1 & H2)%matches_cat_inv.
      apply (matches_star_more r (c :: s1) s2); [by apply IH | done].
    + intros (s1 & s2 & -> & H1 & H2)%matches_star_cons.
      constructor; [by apply IH | done].
Qed.

Lemma match_prefix_nil r : match_prefix r [] = nullable r.
Proof. destruct r; simpl; by rewrite ?orb_false_r. Qed.

Lemma match_prefix_cons r c s :
  match_prefix r (c :: s) = nullable r || match_prefix (deriv c r) s.
Proof. destruct r; try reflexivity. simpl. by destruct s. Qed.

Lemma match_prefix_spec r s :
  match_prefix r s = true <->
  exists found after, s = found ++ after /\ matches r found.
Proof.
  revert r. induction s as [|c s IH]; intros r.
  - rewrite match_prefix_nil, nullable_matches. split.
    + intros H. by exists [], [].
    + intros (f & a & E' & H). symmetry in E'.
      apply app_eq_nil in E' as [-> _]. done.
  - rewrite match_prefix_cons, orb_true_iff, nullable_matches, IH. split.
    + intros [H|(f & a & -> & H)].
      * by exists [], (c :: s).
      * exists (c :: f), a. split; [done | by apply deriv_matches].
    + intros ([|c' f] & a & E' & H); [by left | right].
      simpl in E'. injection E' as <- ->.
      exists f, a. split; [done | by apply deriv_matches].
Qed.

Lemma search_regex_cons r c s :
  search_regex r (c :: s) = match_prefix r (c :: s) || search_regex r s.
Proof. reflexivity. Qed.

Lemma search_regex_spec r s : search_regex r s = true <-> occurs r s.
Proof.
  unfold occurs. induction s as [|c s IH].
  - change (search_regex r []) with (match_prefix r [] || false).
    rewrite orb_false_r, match_prefix_nil, nullable_matches. split.
    + intros H. by exists [], [], [].
    + intros (b & f & a & E & H). symmetry in E.
      apply app_eq_nil in E as [-> E]. apply app_eq_nil in E as [-> _]. done.
  - rewrite search_regex_cons, orb_true_iff, match_prefix_spec, IH. split.
    + intros [(f & a & E & H)|(b & f & a & -> & H)].
      * by exists [], f, a.
      * by exists (c :: b), f, a.
    + intros ([|c' b] & f & a & E & H).
      * left. by exists f, a.
      * right. simpl in E. injection E as <- ->. by exists b, f, a.
Qed.

(** What occurs in a text occurs in any text around it. *)
Lemma occurs_around r before s after :
  occurs r s -> occurs r (before ++ s ++ after).
Proof.
  intros (b & f & a & -> & H).
  exists (before ++ b), f, (a ++ after). split; [| done].
  by rewrite <- !app_assoc.
Qed.

Lemma search_around pattern before s after :
  search pattern s = true -> search pattern (before ++ s ++ after) = true.
Proof.
  unfold search. destruct (compile pattern) as [r|]; [| done].
  rewrite !search_regex_spec. apply occurs_around.
Qed.

End ReFacts.

(** * Facts about the validator *)

Lemma ast_size_children n :
  ast_size n = S (list_sum (map ast_size (children n))).
Proof.
  destruct n as [| |func args| |value attr|cs]; simpl; try reflexivity.
  - f_equal. f_equal. induction args as [|a args IH]; simpl; congruence.
  - f_equal. lia.
  - f_equal. induction cs as [|a cs IH]; simpl; congruence.
Qed.

(** The walk visits as many nodes as the queue holds: the fuel [walk]
    gives it never runs out before the queue is empty. *)
Lemma walk_queue_length fuel todo :
  fuel = list_sum (map ast_size todo) -> length (walk_queue fuel todo) = fuel.
Proof.
  revert todo. induction fuel as [|fuel IH]; intros todo E; [done |].
  destruct todo as [|n rest]; [discriminate |]. simpl. f_equal. apply IH.
  simpl in E. rewrite ast_size_children in E.
  rewrite map_app, list_sum_app. lia.
Qed.

Lemma walk_length tree : length (walk tree) = ast_size tree.
Proof. apply walk_queue_length. simpl. lia. Qed.

(** The lexical gate decides alone when it finds something. *)
Lemma is_safe_code_pattern ast_parse code pattern :
  dangerous_pattern code = Some pattern ->
  is_safe_code ast_parse code
  = Returns (false,
             py "Patrón de código potencialmente peligroso detectado: " ++ pattern).
Proof. unfold is_safe_code. by intros ->. Qed.

(** [is_safe_code] always ends; an exception leaves it only when it
    leaves [ast.parse]. *)
Lemma is_safe_code_ends ast_parse code :
  is_safe_code ast_parse code <> Hangs.
Proof.
  unfold is_safe_code.
  destruct (dangerous_pattern code); [done |].
  destruct (ast_parse code); [| done | done].
  by destruct (first_some _ _).
Qed.

Lemma startswith_refl p s : startswith p (p ++ s) = true.
Proof. induction p as [|c p IH]; simpl; [done |]. by rewrite N.eqb_refl. Qed.

Lemma contains_suffix p before : contains p (before ++ p) = true.
Proof.
  induction before as [|c before IH]; simpl.
  - replace p with (p ++ []) at 2 by apply app_nil_r.
    destruct p; simpl; [done |].
    by rewrite N.eqb_refl, startswith_refl.
  - rewrite IH. apply orb_true_r.
Qed.

(** * Properties of the validator and the sandbox *)

(** C9.  The validator judges [import os] followed by [os.system('ls')]
    unsafe, whatever the parser would say: the lexical gate stops at the
    pattern [os\s*\.\s*system], and the reason it returns names that
    pattern, which starts with the denylisted module [os]. *)
Theorem vet_os_system_unsafe ast_parse :
  is_safe_code ast_parse (py "import os
os.system('ls')")
  = Returns (false,
             py "Patrón de código potencialmente peligroso detectado: "
             ++ py "os\s*\.\s*system")
  /\ startswith (py "os") (py "os\s*\.\s*system") = true
  /\ py "os" ∈ DANGEROUS_MODULES.
Proof.
  split; [| split].
  - apply is_safe_code_pattern. by vm_compute.
  - by vm_compute.
  - unfold DANGEROUS_MODULES. rewrite elem_of_cons. by left.
Qed.

Section SandboxFacts.

Variable ast_parse : pystr -> parse_result.
Variable pyobj : Type.
Variable py_str : pyobj -> run pystr.
Variable exec : pystr -> exec_result pyobj.

Local Abbreviation execute := (execute_code ast_parse pyobj py_str exec).
Local Abbreviation rendered := (render pyobj py_str).

Lemma execute_code_unsafe code error_message :
  is_safe_code ast_parse code = Returns (false, error_message) ->
  execute code
  = (Returns {| status := py "error";
                stdout := [];
                stderr := py "Código potencialmente peligroso detectado: "
                          ++ error_message;
                error := Some error_message;
                traceback := None;
                variables := None |},
     [executor_log WARNING (py "Código inseguro detectado: " ++ error_message)]).
Proof. unfold execute_code. by intros ->. Qed.

Lemma execute_code_safe code reason :
  is_safe_code ast_parse code = Returns (true, reason) ->
  exists outcome events,
    execute code = (outcome, Exec (augmented_code code) :: events).
Proof.
  unfold execute_code. intros ->. unfold then_events. simpl. eauto.
Qed.


Lemma render_cons k v rest :
  rendered ((k, v) :: rest)
  = if negb (startswith (py "_") k) then
      match py_str v with
      | Returns s =>
          match rendered rest with
          | Returns d => Returns ((k, s) :: d)
          | other => other
          end
      | Propagates e => Propagates e
      | Hangs => Hangs
      end
    else rendered rest.
Proof. reflexivity. Qed.

Lemma render_spec items vars :
  rendered items = Returns vars ->
  forall k s,
    (k, s) ∈ vars <->
    exists v, (k, v) ∈ items /\ startswith (py "_") k = false
              /\ py_str v = Returns s.
Proof.
  revert vars. induction items as [|[k0 v0] items IH]; intros vars.
  - intros [= <-] k s. split.
    + by intros ?%elem_of_nil.
    + by intros (v & ?%elem_of_nil & _).
  - rewrite render_cons. destruct (startswith (py "_") k0) eqn:Hk; cbn [negb].
    + intros H k s. rewrite (IH _ H). split.
      * intros (v & Hin & Hpub & Hs). exists v. by rewrite elem_of_cons; auto.
      * intros (v & [E|Hin]%elem_of_cons & Hpub & Hs); [congruence |].
        by exists v.
    + destruct (py_str v0) as [s0| |] eqn:Hs0; try discriminate.
      destruct (rendered items) as [d| |] eqn:Hd; try discriminate.
      intros [= <-] k s. rewrite elem_of_cons, (IH _ eq_refl). split.
      * intros [E|(v & Hin & Hpub & Hs)].
        -- exists v0. rewrite elem_of_cons.
           assert (k = k0 /\ s = s0) as [-> ->] by (split; congruence). auto.
        -- exists v. by rewrite elem_of_cons; auto.
      * intros (v & [E|Hin]%elem_of_cons & Hpub & Hs).
        -- left. congruence.
        -- right. by exists v.
Qed.

End SandboxFacts.


Lemma error_is_not_success : py "error" <> py "success".
Proof. by vm_compute. Qed.

(** C10.  Code the validator judges unsafe is never run: [execute_code]
    returns at once, with status [error], an empty [stdout], a [stderr]
    that ends with the validator's message, and that message as [error];
    the only thing it does to the outside is one warning in the log, and
    no run of [exec]. *)
Theorem unsafe_code_never_executed
    ast_parse pyobj py_str exec code error_message :
  is_safe_code ast_parse code = Returns (false, error_message) ->
  exists result events,
    execute_code ast_parse pyobj py_str exec code = (Returns result, events)
    /\ status result = py "error"
    /\ stdout result = []
    /\ stderr result
       = py "Código potencialmente peligroso detectado: " ++ error_message
    /\ contains error_message (stderr result) = true
    /\ error result = Some error_message
    /\ (forall program, Exec program ∉ events).
Proof.
  intros H. eexists _, _. split; [by apply execute_code_unsafe |].
  cbn [status stdout stderr error].
  split; [reflexivity |]. split; [reflexivity |]. split; [reflexivity |].
  split; [apply contains_suffix |]. split; [reflexivity |].
  intros program Hin. apply elem_of_cons in Hin as [Hin|Hin].
  - discriminate Hin.
  - by apply elem_of_nil in Hin.
Qed.

Lemma unsafe_code_never_executed_witness :
  exists result events,
    execute_code Observed.ast_parse Observed.value Observed.py_str Observed.exec
      (py "import os
os.system('ls')") = (Returns result, events)
    /\ status result = py "error"
    /\ stdout result = []
    /\ stderr result
       = py "Código potencialmente peligroso detectado: "
         ++ py "Patrón de código potencialmente peligroso detectado: "
         ++ py "os\s*\.\s*system"
    /\ contains (py "Patrón de código potencialmente peligroso detectado: "
                 ++ py "os\s*\.\s*system")
                (stderr result) = true
    /\ error result
       = Some (py "Patrón de código potencialmente peligroso detectado: "
               ++ py "os\s*\.\s*system")
    /\ (forall program, Exec program ∉ events).
Proof.
  apply (unsafe_code_never_executed
           Observed.ast_parse Observed.value Observed.py_str Observed.exec
           (py "import os
os.system('ls')")
           (py "Patrón de código potencialmente peligroso detectado: "
            ++ py "os\s*\.\s*system")).
  vm_compute. reflexivity.
Defined.

(** C1, as the code has it.  [execute_code] asks the validator first and
    goes by its verdict: on an unsafe verdict it returns the rejection
    and runs nothing; on a safe verdict the first thing it does is run
    the preamble followed by the code; an exception that leaves the
    validator leaves [execute_code] as well. *)
Theorem execute_code_validates_first ast_parse pyobj py_str exec code :
  match is_safe_code ast_parse code with
  | Returns (false, error_message) =>
      execute_code ast_parse pyobj py_str exec code
      = (Returns {| status := py "error";
                    stdout := [];
                    stderr := py "Código potencialmente peligroso detectado: "
                              ++ error_message;
                    error := Some error_message;
                    traceback := None;
                    variables := None |},
         [executor_log WARNING
            (py "Código inseguro detectado: " ++ error_message)])
  | Returns (true, _) =>
      exists outcome events,
        execute_code ast_parse pyobj py_str exec code
        = (outcome, Exec (augmented_code code) :: events)
  | Propagates e =>
      execute_code ast_parse pyobj py_str exec code = (Propagates e, [])
  | Hangs => False
  end.
Proof.
  destruct (is_safe_code ast_parse code) as [[[] msg]|e|] eqn:H.
  - by apply execute_code_safe with msg.
  - by apply execute_code_unsafe.
  - unfold execute_code. by rewrite H.
  - by apply is_safe_code_ends in H.
Qed.

(** C1, as stated, fails: there is a code string for which
    [execute_code] returns the validator's rejection and runs nothing. *)
Lemma execute_code_rejects_os_system :
  execute_code Observed.ast_parse Observed.value Observed.py_str Observed.exec
    (py "import os
os.system('ls')")
  = (Returns {| status := py "error";
                stdout := [];
                stderr := py "Código potencialmente peligroso detectado: Patrón de código potencialmente peligroso detectado: os\s*\.\s*system";
                error := Some (py "Patrón de código potencialmente peligroso detectado: os\s*\.\s*system");
                traceback := None;
                variables := None |},
     [executor_log WARNING
        (py "Código inseguro detectado: Patrón de código potencialmente peligroso detectado: os\s*\.\s*system")]).
Proof. by vm_compute. Qed.

(** C7, as the code has it.  After a successful run the [variables]
    mapping is the rendering of [local_vars] as it is when the run of the
    preamble followed by the code ends: it holds [str(v)] for every
    binding whose name does not start with an underscore, and nothing
    else, whichever of the two made the binding. *)
Theorem variables_are_the_public_locals
    ast_parse pyobj py_str exec code result events :
  execute_code ast_parse pyobj py_str exec code = (Returns result, events) ->
  status result = py "success" ->
  exists local_vars vars,
    ending (exec (augmented_code code)) = Returns local_vars
    /\ variables result = Some vars
    /\ render pyobj py_str local_vars = Returns vars
    /\ forall k s,
         (k, s) ∈ vars <->
         exists v, (k, v) ∈ local_vars /\ startswith (py "_") k = false
                   /\ py_str v = Returns s.
Proof.
  unfold execute_code.
  destruct (is_safe_code ast_parse code) as [[[] msg]|e|]; cycle 1.
  - intros [= <- _] H. by apply error_is_not_success in H.
  - discriminate.
  - discriminate.
  - assert (Hhandler : forall out err e events',
              on_exception out err e = (Returns result, events') ->
              status result = py "success" -> False).
    { intros out err e events'. unfold on_exception.
      destruct (exc_is_Exception e); [| discriminate].
      destruct (str_exc e); [| discriminate ..].
      destruct (format_exc_call e); [| discriminate ..].
      destruct out; [| discriminate ..]. destruct err; [| discriminate ..].
      intros [= <- _] H. by apply error_is_not_success in H. }
    unfold then_events.
    destruct (ending (exec (augmented_code code))) as [local_vars|e|];
      cbn [fst snd]; [| | discriminate].
    + destruct (written_out _) as [out|e|]; [| | discriminate].
      * destruct (written_err _) as [err|e|]; [| | discriminate].
        -- destruct (render pyobj py_str local_vars) as [vars|e|] eqn:Hr;
             cbn [fst snd]; [| | discriminate].
           ++ intros [= <- _] _. exists local_vars, vars.
              repeat split; try done; by apply (render_spec _ _ _ _ Hr).
           ++ destruct (on_exception _ _ e) as [o ev] eqn:Ho. cbn [fst snd].
              intros [= -> _] H. by destruct (Hhandler _ _ _ _ Ho H).
        -- destruct (on_exception _ _ e) as [o ev] eqn:Ho. cbn [fst snd].
           intros [= -> _] H. by destruct (Hhandler _ _ _ _ Ho H).
      * destruct (on_exception _ _ e) as [o ev] eqn:Ho. cbn [fst snd].
        intros [= -> _] H. by destruct (Hhandler _ _ _ _ Ho H).
    + destruct (on_exception _ _ e) as [o ev] eqn:Ho. cbn [fst snd].
      intros [= -> _] H. by destruct (Hhandler _ _ _ _ Ho H).
Qed.

Lemma variables_are_the_public_locals_witness :
  let result :=
    {| status := py "success"; stdout := []; stderr := [];
       error := None; traceback := None;
       variables := Some (Observed.rendered_preamble ++ [(py "x", py "1")]) |} in
  exists local_vars vars,
    ending (Observed.exec (augmented_code Observed.assign_x)) = Returns local_vars
    /\ variables result = Some vars
    /\ render Observed.value Observed.py_str local_vars = Returns vars
    /\ forall k s,
         (k, s) ∈ vars <->
         exists v, (k, v) ∈ local_vars /\ startswith (py "_") k = false
                   /\ Observed.py_str v = Returns s.
Proof.
  intros result.
  apply (variables_are_the_public_locals
           Observed.ast_parse Observed.value Observed.py_str Observed.exec
           Observed.assign_x result
           [Exec (augmented_code Observed.assign_x);
            executor_log INFO (py "Código ejecutado correctamente")]);
    by vm_compute.
Defined.

(** C7, as stated, fails: the code [x = 1] creates the one name [x], and
    the mapping returned for it also holds the ten names the preamble
    bound, each with its rendering. *)
Lemma variables_hold_preamble_names :
  ending (Observed.exec Observed.assign_x) = Returns [(py "x", Observed.Int 1)]
  /\ fst (execute_code Observed.ast_parse Observed.value Observed.py_str
            Observed.exec Observed.assign_x)
     = Returns
         {| status := py "success"; stdout := []; stderr := [];
            error := None; traceback := None;
            variables :=
              Some (Observed.rendered_preamble ++ [(py "x", py "1")]) |}
  /\ map fst (Observed.rendered_preamble ++ [(py "x", py "1")])
     = [py "math"; py "random"; py "datetime"; py "date"; py "timedelta";
        py "statistics"; py "pd"; py "np"; py "re"; py "collections"; py "x"].
Proof. repeat split; by vm_compute. Qed.

(** * Properties of the sanitizer *)

Lemma control_class_matches c :
  Re.atom_matches
    (Re.Class [(0, 9); (11, 11); (12, 12); (14, 31); (127, 159)]) c
  = in_control_class c.
Proof.
  unfold in_control_class, Re.atom_matches, Re.in_range.
  cbn [existsb fst snd]. rewrite orb_false_r. apply eq_true_iff_eq.
  rewrite !orb_true_iff, !andb_true_iff, !N.leb_le, !N.eqb_eq. lia.
Qed.

Lemma sub_empty_control s :
  Re.sub_empty CONTROL_CLASS s
  = List.filter (fun c => negb (in_control_class c)) s.
Proof.
  unfold Re.sub_empty.
  replace (Re.compile CONTROL_CLASS)
    with (Some (Re.Atom (Re.Class [(0, 9); (11, 11); (12, 12); (14, 31); (127, 159)])))
    by (by vm_compute).
  apply List.filter_ext. intros c. by rewrite control_class_matches.
Qed.

Lemma control_class_is_control c :
  in_control_class c = true -> is_control c = true.
Proof.
  unfold in_control_class, is_control.
  rewrite !orb_true_iff, !andb_true_iff, !N.leb_le, !N.eqb_eq. lia.
Qed.

Lemma sub_empty_clean s :
  Forall (fun c => is_control c = false) s -> Re.sub_empty CONTROL_CLASS s = s.
Proof.
  rewrite sub_empty_control. induction 1 as [|c s Hc _ IH]; [done |].
  cbn [List.filter]. destruct (in_control_class c) eqn:E.
  - apply control_class_is_control in E. congruence.
  - cbn [negb]. by rewrite IH.
Qed.

Lemma sub_empty_app s1 s2 :
  Re.sub_empty CONTROL_CLASS (s1 ++ s2)
  = Re.sub_empty CONTROL_CLASS s1 ++ Re.sub_empty CONTROL_CLASS s2.
Proof. rewrite !sub_empty_control. apply List.filter_app. Qed.

Lemma sub_empty_truncated : Re.sub_empty CONTROL_CLASS TRUNCATED = TRUNCATED.
Proof. by vm_compute. Qed.

(** C4, as the code has it.  A string of more than 10,000 characters is
    cut to its first 10,000 characters followed by the marker; the
    control characters the class lists are then removed (none, and so
    nothing changes, when there is no control character to remove); what
    is returned has no control character other than the newline, the
    carriage return and the tab. *)
Theorem sanitize_code_output_spec output :
  (10000 < N.of_nat (length output) ->
   sanitize_code_output output
   = Re.sub_empty CONTROL_CLASS (take (N.to_nat 10000) output) ++ TRUNCATED)
  /\ (10000 < N.of_nat (length output) ->
      Forall (fun c => is_control c = false) (take (N.to_nat 10000) output) ->
      sanitize_code_output output = take (N.to_nat 10000) output ++ TRUNCATED)
  /\ (N.of_nat (length output) <= 10000 ->
      sanitize_code_output output = Re.sub_empty CONTROL_CLASS output)
  /\ (forall c, c ∈ sanitize_code_output output -> is_control c = true ->
                c = 10 \/ c = 13 \/ c = 9).
Proof.
  assert (Hlong : 10000 < N.of_nat (length output) ->
                  sanitize_code_output output
                  = Re.sub_empty CONTROL_CLASS (take (N.to_nat 10000) output)
                    ++ TRUNCATED).
  { intros H. unfold sanitize_code_output.
    apply N.ltb_lt in H. rewrite H.
    by rewrite sub_empty_app, sub_empty_truncated. }
  split; [done |]. split; [| split].
  - intros H Hclean. by rewrite Hlong, sub_empty_clean.
  - intros H. unfold sanitize_code_output.
    apply N.ltb_ge in H. by rewrite H.
  - intros c Hc Hctl. unfold sanitize_code_output in Hc.
    rewrite sub_empty_control, list_elem_of_In in Hc.
    apply List.filter_In in Hc as [_ Hc]. apply negb_true_iff in Hc.
    revert Hc Hctl. unfold in_control_class, is_control.
    rewrite !orb_false_iff, !andb_false_iff, !orb_true_iff, !andb_true_iff,
      !N.leb_le, !N.leb_gt, !N.eqb_neq. lia.
Qed.

(** C4, as stated, fails: a carriage return is a control character, it is
    neither the newline nor the tab, and it is returned as it came. *)
Lemma sanitize_keeps_carriage_return :
  sanitize_code_output [13] = [13]
  /\ is_control 13 = true /\ 13 <> 10 /\ 13 <> 9.
Proof. by vm_compute. Qed.

(** * The sandbox when the run fails *)






(** * Properties of the generator *)

Lemma fallback_code_around message :
  fallback_code message
  = py "# Error al generar código
print('No se pudo generar código: " ++ message ++ py "')".
Proof. reflexivity. Qed.

(** What occurs in the message occurs in the snippet built around it. *)
Lemma search_fallback pattern message :
  Re.search pattern message = true ->
  Re.search pattern (fallback_code message) = true.
Proof. intros H. rewrite fallback_code_around. by apply ReFacts.search_around. Qed.

Lemma generate_code_failed llm query e :
  llm (code_generation_prompt query) = Propagates e ->
  exc_is_Exception e = true ->
  generate_code llm query
  = (Returns (fallback_code (exc_str e)),
     [Invoke (code_generation_prompt query);
      executor_log ERROR (py "Error al generar código: " ++ exc_str e)]).
Proof. unfold generate_code. by intros -> ->. Qed.

(** C5, as the code has it.  When the model call fails, [generate_code]
    returns the fallback snippet, which prints an error message with the
    text of the exception put into it as it is.  The validator judges the
    snippet like any other: it is unsafe whenever the text of the
    exception matches a denylisted pattern, and safe when no pattern
    matches the snippet and the snippet parses as the one [print] call it
    was meant to be. *)
Theorem generate_code_fallback llm query e ast_parse :
  llm (code_generation_prompt query) = Propagates e ->
  exc_is_Exception e = true ->
  fst (generate_code llm query) = Returns (fallback_code (exc_str e))
  /\ (forall pattern,
        pattern ∈ DANGEROUS_PATTERNS ->
        Re.search pattern (exc_str e) = true ->
        exists reason,
          is_safe_code ast_parse (fallback_code (exc_str e))
          = Returns (false, reason))
  /\ (dangerous_pattern (fallback_code (exc_str e)) = None ->
      ast_parse (fallback_code (exc_str e))
      = Parsed (Node [Node [Call (Name (py "print")) [Node []]]]) ->
      is_safe_code ast_parse (fallback_code (exc_str e)) = Returns (true, [])).
Proof.
  intros Hllm He. split; [| split].
  - by rewrite (generate_code_failed _ _ _ Hllm He).
  - intros pattern Hin Hfound.
    destruct (dangerous_pattern (fallback_code (exc_str e))) as [p|] eqn:Hfind.
    + eexists. by apply is_safe_code_pattern.
    + apply list_elem_of_In in Hin.
      pose proof (find_none _ _ Hfind pattern Hin) as Hnone. cbv beta in Hnone.
      pose proof (search_fallback pattern (exc_str e) Hfound) as Hsome.
      congruence.
  - intros Hfind Hparse. unfold is_safe_code. rewrite Hfind, Hparse.
    by vm_compute.
Qed.

Lemma generate_code_fallback_witness :
  fst (generate_code Observed.llm_down (py "calcula 23*45"))
  = Returns (fallback_code (exc_str Observed.timeout))
  /\ (forall pattern,
        pattern ∈ DANGEROUS_PATTERNS ->
        Re.search pattern (exc_str Observed.timeout) = true ->
        exists reason,
          is_safe_code Observed.ast_parse (fallback_code (exc_str Observed.timeout))
          = Returns (false, reason))
  /\ (dangerous_pattern (fallback_code (exc_str Observed.timeout)) = None ->
      Observed.ast_parse (fallback_code (exc_str Observed.timeout))
      = Parsed (Node [Node [Call (Name (py "print")) [Node []]]]) ->
      is_safe_code Observed.ast_parse (fallback_code (exc_str Observed.timeout))
      = Returns (true, [])).
Proof.
  apply (generate_code_fallback
           Observed.llm_down (py "calcula 23*45") Observed.timeout
           Observed.ast_parse); reflexivity.
Defined.

(** C5, as stated, fails: the model client fails with a message that
    names [__init__]; the fallback snippet carries that message, and the
    validator judges it unsafe. *)
Lemma fallback_code_judged_unsafe :
  fst (generate_code Observed.llm_broken (py "calcula 23*45"))
  = Returns (fallback_code (exc_str Observed.bad_client))
  /\ is_safe_code Observed.ast_parse (fallback_code (exc_str Observed.bad_client))
     = Returns (false,
                py "Patrón de código potencialmente peligroso detectado: "
                ++ py "__[a-zA-Z]+__").
Proof. by vm_compute. Qed.

(** * Properties of the conversation memory *)

Lemma recent_history_long (history : list entry) :
  (4 <= length history)%nat ->
  recent_history history = slice_last 4 history
  /\ length (recent_history history) = 4%nat.
Proof.
  intros H. unfold recent_history, slice_last.
  apply Nat.leb_le in H as H'. rewrite H'. split; [done |].
  rewrite length_drop. lia.
Qed.

Lemma recent_history_short (history : list entry) :
  (length history < 4)%nat ->
  recent_history history = [] /\ history_to_summarize history = history.
Proof.
  intros H. unfold recent_history, history_to_summarize.
  apply Nat.leb_gt in H. by rewrite H.
Qed.

Lemma history_to_summarize_four (history : list entry) :
  length history = 4%nat -> history_to_summarize history = [].
Proof.
  intros H. unfold history_to_summarize, slice_but_last. by rewrite H.
Qed.

Lemma history_to_summarize_long (history : list entry) :
  (5 <= length history)%nat -> history_to_summarize history <> [].
Proof.
  intros H. unfold history_to_summarize, slice_but_last.
  replace (4 <=? length history)%nat with true by (symmetry; apply Nat.leb_le; lia).
  intros E. apply (f_equal length) in E. rewrite length_take in E.
  simpl in E. lia.
Qed.

(** The two parts of the split make up the history. *)
Lemma history_split (history : list entry) :
  (4 <= length history)%nat ->
  history = history_to_summarize history ++ recent_history history.
Proof.
  intros H. unfold history_to_summarize, recent_history, slice_last, slice_but_last.
  apply Nat.leb_le in H. rewrite H. by rewrite take_drop.
Qed.

Section MemoryFacts.

Variable settings : Settings.
Variable upper : pystr -> pystr.
Variable now : list event -> pystr.
Variable summarizer : list event -> pystr -> run pystr.

Local Abbreviation summarize := (_summarize_memory upper now summarizer).
Local Abbreviation check :=
  (_check_and_summarize settings upper now summarizer).

Lemma summarize_nothing m :
  history_to_summarize (conversation_history m) = [] ->
  summarize m = (m, Returns tt).
Proof. unfold _summarize_memory. by intros ->. Qed.

Lemma summarize_answered m summary :
  history_to_summarize (conversation_history m) <> [] ->
  summarizer (trace m)
    (summary_prompt
       (history_text upper (history_to_summarize (conversation_history m))))
  = Returns summary ->
  conversation_history (fst (summarize m))
  = summary_entry summary
      (now (trace m ++
            [Invoke (summary_prompt
                       (history_text upper
                          (history_to_summarize (conversation_history m))))]))
    :: recent_history (conversation_history m).
Proof.
  unfold _summarize_memory. intros Hne Hs.
  destruct (history_to_summarize (conversation_history m)); [done |].
  by rewrite Hs.
Qed.

Lemma summarize_failed m e :
  history_to_summarize (conversation_history m) <> [] ->
  summarizer (trace m)
    (summary_prompt
       (history_text upper (history_to_summarize (conversation_history m))))
  = Propagates e ->
  exc_is_Exception e = true ->
  summarize m
  = ({| conversation_history := conversation_history m;
        trace :=
          trace m ++
          [Invoke (summary_prompt
                     (history_text upper
                        (history_to_summarize (conversation_history m))));
           memory_log ERROR (py "Error al resumir la memoria: " ++ exc_str e)] |},
     Returns tt).
Proof.
  unfold _summarize_memory. intros Hne Hs He.
  destruct (history_to_summarize (conversation_history m)); [done |].
  rewrite Hs, He. unfold record_event. cbn [conversation_history trace].
  by rewrite <- app_assoc.
Qed.

(** Whatever the summarizer does, the history after [_summarize_memory]
    is the one before, or a summary entry followed by the recent part. *)
Lemma summarize_shape m :
  conversation_history (fst (summarize m)) = conversation_history m
  \/ exists summary ts,
       conversation_history (fst (summarize m))
       = summary_entry summary ts :: recent_history (conversation_history m).
Proof.
  unfold _summarize_memory.
  destruct (history_to_summarize (conversation_history m)) as [|old older];
    [by left |].
  destruct (summarizer _ _) as [summary|e|].
  - right. by eexists _, _.
  - left. by destruct (exc_is_Exception e).
  - by left.
Qed.

(** [_check_and_summarize] when the trigger fires. *)
Lemma check_fires m :
  (2 < length (conversation_history m))%nat ->
  char_to_token_ratio settings <> 0%Z ->
  (max_memory_tokens settings
   < total_chars (conversation_history m) / char_to_token_ratio settings)%Z ->
  check m
  = summarize
      (record_event m
         (memory_log INFO
            (py "Resumiendo memoria (aprox. "
             ++ str_of_int (total_chars (conversation_history m)
                            / char_to_token_ratio settings)
             ++ py " tokens)"))).
Proof.
  intros Hlen Hratio Hover. unfold _check_and_summarize.
  replace (length (conversation_history m) <=? 2)%nat with false
    by (symmetry; apply Nat.leb_gt; lia).
  apply Z.eqb_neq in Hratio. rewrite Hratio.
  apply Z.ltb_lt in Hover. by rewrite Hover.
Qed.

Lemma check_shape m :
  conversation_history (fst (check m)) = conversation_history m
  \/ exists summary ts,
       conversation_history (fst (check m))
       = summary_entry summary ts :: recent_history (conversation_history m).
Proof.
  unfold _check_and_summarize.
  destruct (length (conversation_history m) <=? 2)%nat; [by left |].
  destruct (char_to_token_ratio settings =? 0)%Z; [by left |].
  destruct (_ <? _)%Z; [| by left].
  apply (summarize_shape (record_event m _)).
Qed.

End MemoryFacts.

(** C2, as the code has it.  Take the history as it is after the append,
    of length above 2 and with an estimate above the ceiling, and a
    summarizer that answers.  With 5 entries or more the history becomes
    one new [system] entry that wraps the summary, followed by the last 4
    entries: 1 + min(4, n) entries.  With exactly 4 entries there is
    nothing to summarize and the history stays as it is.  With exactly 3
    entries all of them are summarized and the history becomes the
    summary entry alone. *)
Theorem compaction_keeps_last_four
    settings upper now summarizer who text m summary :
  let history :=
    conversation_history m
    ++ [{| role := who; content := text; timestamp := now (trace m) |}] in
  let estimated_tokens :=
    (total_chars history / char_to_token_ratio settings)%Z in
  let before_call :=
    trace m ++
    [Now;
     memory_log INFO
       (py "Resumiendo memoria (aprox. " ++ str_of_int estimated_tokens
        ++ py " tokens)")] in
  let prompt :=
    summary_prompt (history_text upper (history_to_summarize history)) in
  let new_entry := summary_entry summary (now (before_call ++ [Invoke prompt])) in
  let after :=
    conversation_history
      (fst (add_message settings upper now summarizer who text m)) in
  (2 < length history)%nat ->
  char_to_token_ratio settings <> 0%Z ->
  (max_memory_tokens settings < estimated_tokens)%Z ->
  summarizer before_call prompt = Returns summary ->
  ((5 <= length history)%nat ->
   after = new_entry :: slice_last 4 history
   /\ length after = (1 + min 4 (length history))%nat
   /\ role new_entry = py "system")
  /\ (length history = 4%nat -> after = history)
  /\ (length history = 3%nat -> after = [new_entry]).
Proof.
  intros history estimated_tokens before_call prompt new_entry after
    Hlen Hratio Hover Hs.
  set (appended := {| conversation_history := history; trace := trace m ++ [Now] |}).
  set (started :=
         record_event appended
           (memory_log INFO
              (py "Resumiendo memoria (aprox. " ++ str_of_int estimated_tokens
               ++ py " tokens)"))).
  assert (Hrun : add_message settings upper now summarizer who text m
                 = _summarize_memory upper now summarizer started).
  { unfold add_message. fold history. fold appended. by apply check_fires. }
  assert (Htrace : trace started = before_call).
  { unfold started, record_event, before_call. cbn [trace appended].
    by rewrite <- app_assoc. }
  assert (Hanswered : history_to_summarize history <> [] ->
                      after = new_entry :: recent_history history).
  { intros Hne. unfold after. rewrite Hrun.
    rewrite (summarize_answered upper now summarizer started summary).
    - by rewrite Htrace.
    - done.
    - by rewrite Htrace. }
  split; [| split].
  - intros H5. destruct (recent_history_long history) as [Hrecent Hfour]; [lia |].
    rewrite Hanswered by (by apply history_to_summarize_long).
    rewrite <- Hrecent. split; [done |].
    cbn [length]. rewrite Hfour. split; [lia | done].
  - intros H4. unfold after. rewrite Hrun, summarize_nothing; [done |].
    by apply history_to_summarize_four.
  - intros H3. destruct (recent_history_short history) as [Hrecent Hall]; [lia |].
    rewrite Hanswered, Hrecent; [done |].
    fold history in Hall. rewrite Hall. intros E. by rewrite E in H3.
Qed.

Lemma compaction_keeps_last_four_witness :
  let m := Observed.conversation 4 2500 in
  let hola := {| role := py "user"; content := py "hola";
                 timestamp := Observed.now [] |} in
  let after :=
    conversation_history
      (fst (add_message default_settings Observed.upper Observed.now
              Observed.summarizer_ok (py "user") (py "hola") m)) in
  after
  = summary_entry (py "resumen") (Observed.now [])
    :: [Observed.message (py "assistant") 2500;
        Observed.message (py "user") 2500;
        Observed.message (py "assistant") 2500;
        hola]
  /\ length after = 5%nat.
Proof.
  intros m hola after.
  destruct (compaction_keeps_last_four
              default_settings Observed.upper Observed.now
              Observed.summarizer_ok (py "user") (py "hola") m (py "resumen"))
    as [H _].
  - vm_compute. lia.
  - discriminate.
  - reflexivity.
  - reflexivity.
  - destruct H as (H1 & H2 & _); [vm_compute; lia |].
    split.
    + etransitivity; [exact H1 | by vm_compute].
    + etransitivity; [exact H2 | by vm_compute].
Defined.

(** C2, as stated, fails.  A third message takes the estimate above the
    ceiling: the history of 3 entries is replaced by the summary entry
    alone, 1 entry and not 1 + min(4, 3).  A fourth message does so in
    another conversation: nothing is left to summarize, and the history
    of 4 entries stays as it is, its first entry the user's. *)
Lemma compaction_of_three_and_of_four :
  let ask (text : pystr) (m : memory) :=
    conversation_history
      (fst (add_message default_settings Observed.upper Observed.now
              Observed.summarizer_ok (py "user") text m)) in
  let appended (text : pystr) (m : memory) :=
    conversation_history m
    ++ [{| role := py "user"; content := text; timestamp := Observed.now [] |}] in
  let estimate (history : list entry) :=
    (total_chars history / char_to_token_ratio default_settings)%Z in
  let three := appended (py "hola") (Observed.conversation 2 4002) in
  let four := appended (py "hola mundo") (Observed.conversation 3 2666) in
  (length three = 3%nat
   /\ estimate three = 2002%Z
   /\ ask (py "hola") (Observed.conversation 2 4002)
      = [summary_entry (py "resumen") (Observed.now [])]
   /\ 1%nat <> (1 + min 4 (length three))%nat)
  /\ (length four = 4%nat
      /\ estimate four = 2002%Z
      /\ ask (py "hola mundo") (Observed.conversation 3 2666) = four
      /\ option_map role (head four) = Some (py "user")
      /\ length four <> (1 + min 4 (length four))%nat).
Proof. by vm_compute. Qed.

(** C6.  When the summarizer call raises an exception, [_summarize_memory]
    catches it and returns; the history is the one it started with; and
    the trace grows by the one request that failed and the one error
    record: no second request is made. *)
Theorem summarizer_failure_keeps_history upper now summarizer m e :
  let history := conversation_history m in
  let prompt :=
    summary_prompt (history_text upper (history_to_summarize history)) in
  history_to_summarize history <> [] ->
  summarizer (trace m) prompt = Propagates e ->
  exc_is_Exception e = true ->
  _summarize_memory upper now summarizer m
  = ({| conversation_history := history;
        trace :=
          trace m ++
          [Invoke prompt;
           memory_log ERROR (py "Error al resumir la memoria: " ++ exc_str e)] |},
     Returns tt).
Proof. intros history prompt. apply summarize_failed. Qed.

Lemma summarizer_failure_keeps_history_witness :
  let m := Observed.conversation 5 10 in
  _summarize_memory Observed.upper Observed.now Observed.summarizer_down m
  = ({| conversation_history := conversation_history m;
        trace :=
          [Invoke (summary_prompt (py "USER: aaaaaaaaaa

"));
           memory_log ERROR (py "Error al resumir la memoria: Request timed out.")] |},
     Returns tt).
Proof.
  intros m.
  apply (summarizer_failure_keeps_history
           Observed.upper Observed.now Observed.summarizer_down m Observed.timeout).
  - discriminate.
  - reflexivity.
  - reflexivity.
Defined.

(** C8.  After [add_message] the history is the one before with the new
    entry appended at the end, or it is one summary entry followed by the
    recent part of that appended history; the recent part is its last 4
    entries, or nothing when it has fewer than 4, and in either case the
    end of the appended history, entry for entry. *)
Theorem add_message_appends_or_compacts
    settings upper now summarizer who text m :
  let appended :=
    conversation_history m
    ++ [{| role := who; content := text; timestamp := now (trace m) |}] in
  let after :=
    conversation_history
      (fst (add_message settings upper now summarizer who text m)) in
  (after = appended
   \/ exists summary ts, after = summary_entry summary ts :: recent_history appended)
  /\ (recent_history appended = slice_last 4 appended
      \/ recent_history appended = [])
  /\ exists older, appended = older ++ recent_history appended.
Proof.
  intros appended after. split; [| split].
  - apply (check_shape settings upper now summarizer
             {| conversation_history := appended; trace := trace m ++ [Now] |}).
  - unfold recent_history. destruct (4 <=? length appended)%nat; auto.
  - unfold recent_history, slice_last.
    destruct (4 <=? length appended)%nat.
    + exists (take (length appended - 4) appended). by rewrite take_drop.
    + exists appended. by rewrite app_nil_r.
Qed.

(** * Further properties *)

(** ** Texts and patterns *)

Lemma startswith_spec p s : startswith p s = true <-> exists rest, s = p ++ rest.
Proof.
  revert s. induction p as [|a p IH]; intros s.
  - split; [intros _; by exists s | done].
  - destruct s as [|b s]; cbn [startswith].
    + split; [done | intros (rest & E); discriminate E].
    + rewrite andb_true_iff, N.eqb_eq, IH. split.
      * intros (-> & rest & ->). by exists rest.
      * intros (rest & E). injection E as -> ->. split; [done | by exists rest].
Qed.

Lemma contains_spec p s :
  contains p s = true <-> exists before after, s = before ++ p ++ after.
Proof.
  induction s as [|c s IH]; cbn [contains].
  - rewrite orb_false_r, startswith_spec. split.
    + intros (rest & E). by exists [], rest.
    + intros (before & after & E). symmetry in E.
      apply app_eq_nil in E as [-> E]. by exists after.
  - rewrite orb_true_iff, startswith_spec, IH. split.
    + intros [(rest & E)|(before & after & ->)].
      * by exists [], rest.
      * by exists (c :: before), after.
    + intros ([|c' before] & after & E).
      * left. by exists after.
      * right. injection E as -> ->. by exists before, after.
Qed.

Lemma contains_inside p before after : contains p (before ++ p ++ after) = true.
Proof. apply contains_spec. by exists before, after. Qed.

(** What is in a part of a text is in the text. *)
Lemma contains_around p before s after :
  contains p s = true -> contains p (before ++ s ++ after) = true.
Proof.
  rewrite !contains_spec. intros (b & a & ->).
  exists (before ++ b), (a ++ after). by rewrite <- !app_assoc.
Qed.

Lemma find_head {A} (f : A -> bool) a l : f a = true -> find f (a :: l) = Some a.
Proof. cbn [find]. by intros ->. Qed.

Lemma find_finds {A} (f : A -> bool) l a :
  In a l -> f a = true -> exists b, find f l = Some b.
Proof.
  intros Hin Hf. destruct (find f l) as [b|] eqn:E; [by exists b |].
  apply (find_none _ _ E) in Hin. congruence.
Qed.

Lemma accepts_matches r s : accepts r s = true <-> Re.matches r s.
Proof.
  unfold accepts. revert r. induction s as [|c s IH]; intros r; cbn [fold_left].
  - apply ReFacts.nullable_matches.
  - rewrite IH. apply ReFacts.deriv_matches.
Qed.

Lemma matches_star_atoms a s :
  Forall (fun c => Re.atom_matches a c = true) s ->
  Re.matches (Re.Star (Re.Atom a)) s.
Proof.
  induction 1 as [|c s Hc _ IH]; [constructor |].
  apply (Re.matches_star_more (Re.Atom a) [c] s); [by constructor | done].
Qed.

Lemma matches_one_or_more_atoms a s :
  s <> [] ->
  Forall (fun c => Re.atom_matches a c = true) s ->
  Re.matches (one_or_more (Re.Atom a)) s.
Proof.
  intros Hne Hall. destruct Hall as [|c s Hc Hs]; [done |].
  apply (Re.matches_cat (Re.Atom a) _ [c] s); [by constructor |].
  by apply matches_star_atoms.
Qed.

Lemma matches_in_sequence_cons r rs s1 s2 :
  Re.matches r s1 -> Re.matches (in_sequence rs) s2 ->
  Re.matches (in_sequence (r :: rs)) (s1 ++ s2).
Proof.
  intros H1 H2. destruct rs as [|r' rs]; cbn [in_sequence] in *.
  - apply ReFacts.matches_eps_inv in H2 as ->. by rewrite app_nil_r.
  - by constructor.
Qed.

Lemma matches_chars_then s rs t :
  Re.matches (in_sequence rs) t ->
  Re.matches (in_sequence (chars s ++ rs)) (s ++ t).
Proof.
  intros H. induction s as [|c s IH]; [done |].
  apply (matches_in_sequence_cons _ _ [c] (s ++ t)); [| done].
  constructor. cbn [Re.atom_matches]. apply N.eqb_refl.
Qed.

Lemma matches_chars s : Re.matches (in_sequence (chars s)) s.
Proof.
  rewrite <- (app_nil_r s) at 2. rewrite <- (app_nil_r (chars s)).
  apply matches_chars_then. constructor.
Qed.

Lemma matches_one_of r rs s :
  In r rs -> Re.matches r s -> Re.matches (one_of rs) s.
Proof.
  intros Hin H. induction rs as [|r' rs IH]; [done |].
  destruct rs as [|r'' rs].
  - destruct Hin as [->|[]]. done.
  - cbn [one_of]. destruct Hin as [->|Hin].
    + by apply Re.matches_alt_l.
    + apply Re.matches_alt_r. by apply IH.
Qed.

(** A match between two texts is found by the search. *)
Lemma search_regex_inside r before found after :
  Re.matches r found -> Re.search_regex r (before ++ found ++ after) = true.
Proof. intros H. apply ReFacts.search_regex_spec. by exists before, found, after. Qed.

(** ** More on the validator *)

Lemma literal_then_not_empty (prefix rest : pystr) :
  prefix <> [] -> prefix ++ rest <> [].
Proof. intros H E. by apply app_eq_nil in E as [-> _]. Qed.

Lemma reason_not_empty (prefix rest reason : pystr) :
  Some (prefix ++ rest) = Some reason -> prefix <> [] -> reason <> [].
Proof.
  intros E H. assert (prefix ++ rest = reason) as <- by congruence.
  by apply literal_then_not_empty.
Qed.

Lemma verdict_not_empty (prefix rest reason : pystr) (safe : bool) :
  Returns (false, prefix ++ rest) = Returns (safe, reason) ->
  prefix <> [] -> safe = false /\ reason <> [].
Proof.
  intros E H. assert (false = safe /\ prefix ++ rest = reason) as [<- <-]
    by (split; congruence).
  split; [done | by apply literal_then_not_empty].
Qed.

Ltac literal_not_empty := vm_compute; discriminate.

Lemma first_some_none {A B} (f : A -> option B) l :
  first_some f l = None -> forall a, In a l -> f a = None.
Proof.
  induction l as [|a' l IH]; [done |]. cbn [first_some].
  destruct (f a') eqn:E; [done |].
  intros H a [<-|Hin]; [done | by apply IH].
Qed.

Lemma first_some_some {A B} (f : A -> option B) l b :
  first_some f l = Some b -> exists a, In a l /\ f a = Some b.
Proof.
  induction l as [|a' l IH]; [done |]. cbn [first_some].
  destruct (f a') eqn:E.
  - intros H. exists a'. split; [by left | congruence].
  - intros (a & Hin & Ha)%IH. exists a. by split; [right |].
Qed.

Lemma check_node_reason node reason : check_node node = Some reason -> reason <> [].
Proof.
  destruct node as [names|[m|]|func args| | |]; cbn [check_node]; try done.
  - intros (name & _ & H)%first_some_some.
    destruct (str_in name DANGEROUS_MODULES); [| done].
    apply (reason_not_empty _ _ _ H). literal_not_empty.
  - destruct (str_in m DANGEROUS_MODULES); [| done].
    intros H. apply (reason_not_empty _ _ _ H). literal_not_empty.
  - destruct func as [| | |id|value attr|]; try done.
    + destruct (str_in id DANGEROUS_FUNCTIONS); [| done].
      intros H. apply (reason_not_empty _ _ _ H). literal_not_empty.
    + destruct value as [| | |id| |]; try done.
      destruct (str_in id DANGEROUS_MODULES); [| done].
      intros H. apply (reason_not_empty _ _ _ H). literal_not_empty.
Qed.

(** X1.  A verdict of [is_safe_code] and its reason go together: a safe
    verdict has the empty reason, and an unsafe one always says why. *)
Theorem verdict_and_reason ast_parse code safe reason :
  is_safe_code ast_parse code = Returns (safe, reason) ->
  (safe = true /\ reason = []) \/ (safe = false /\ reason <> []).
Proof.
  unfold is_safe_code.
  destruct (dangerous_pattern code) as [pattern|].
  - intros H. right. apply (verdict_not_empty _ _ _ _ H). literal_not_empty.
  - destruct (ast_parse code) as [tree|msg|e]; [| | done].
    + destruct (first_some check_node (walk tree)) as [why|] eqn:E.
      * intros H. right.
        assert (false = safe /\ why = reason) as [<- <-] by (split; congruence).
        split; [done |].
        apply first_some_some in E as (node & _ & E).
        by apply check_node_reason in E.
      * intros H. left. split; congruence.
    + intros H. right. apply (verdict_not_empty _ _ _ _ H). literal_not_empty.
Qed.

Lemma verdict_and_reason_witness :
  (false = true
   /\ py "Patrón de código potencialmente peligroso detectado: os\s*\.\s*system" = [])
  \/ (false = false
      /\ py "Patrón de código potencialmente peligroso detectado: os\s*\.\s*system"
         <> []).
Proof.
  apply (verdict_and_reason Observed.ast_parse (py "import os
os.system('ls')")). by vm_compute.
Defined.

Lemma ast_size_positive n : (1 <= ast_size n)%nat.
Proof. rewrite ast_size_children. lia. Qed.

Lemma list_sum_member (t : ast) todo :
  In t todo -> (ast_size t <= list_sum (map ast_size todo))%nat.
Proof.
  induction todo as [|t' todo IH]; [done |]. simpl.
  intros [->|Hin]; [lia |]. apply IH in Hin. lia.
Qed.

(** With fuel for all its nodes, the walk visits every node of the queue
    and everything below. *)
Lemma walk_queue_complete fuel :
  forall todo t n,
    (list_sum (map ast_size todo) <= fuel)%nat ->
    In t todo -> descendant t n -> In n (walk_queue fuel todo).
Proof.
  induction fuel as [|fuel IH]; intros todo t n Hfuel Hin Hn.
  - pose proof (list_sum_member _ _ Hin). pose proof (ast_size_positive t). lia.
  - destruct todo as [|t0 rest]; [done |]. cbn [walk_queue].
    assert (Hnext : (list_sum (map ast_size (rest ++ children t0)) <= fuel)%nat).
    { simpl in Hfuel. rewrite ast_size_children in Hfuel.
      rewrite map_app, list_sum_app. lia. }
    destruct Hin as [->|Hin].
    + destruct Hn as [n|root child n Hchild Hn]; [by left |].
      right. apply (IH _ child n Hnext); [| done].
      apply in_or_app. right. by apply list_elem_of_In.
    + right. apply (IH _ t n Hnext); [| done]. apply in_or_app. by left.
Qed.

Lemma walk_complete tree n : descendant tree n -> In n (walk tree).
Proof.
  intros H. apply (walk_queue_complete _ [tree] tree n); [| by left | done].
  simpl. lia.
Qed.

(** X2.  A safe verdict vouches for the whole tree.  When [is_safe_code]
    judges a code safe, no denylisted pattern occurs in its text, the text
    was parsed, and nowhere in the tree is there a call of a denylisted
    function by its name, a call of an attribute of a denylisted module
    name, or an import of or from a denylisted module. *)
Theorem safe_verdict_covers_the_tree ast_parse code reason :
  is_safe_code ast_parse code = Returns (true, reason) ->
  dangerous_pattern code = None
  /\ exists tree,
       ast_parse code = Parsed tree
       /\ (forall id args,
             descendant tree (Call (Name id) args) ->
             id ∉ DANGEROUS_FUNCTIONS)
       /\ (forall id attr args,
             descendant tree (Call (Attribute (Name id) attr) args) ->
             id ∉ DANGEROUS_MODULES)
       /\ (forall names name,
             descendant tree (Import names) -> name ∈ names ->
             name ∉ DANGEROUS_MODULES)
       /\ (forall m,
             descendant tree (ImportFrom (Some m)) -> m ∉ DANGEROUS_MODULES).
Proof.
  unfold is_safe_code.
  destruct (dangerous_pattern code) as [pattern|]; [discriminate |].
  destruct (ast_parse code) as [tree|msg|e]; [| discriminate | discriminate].
  destruct (first_some check_node (walk tree)) as [why|] eqn:E; [discriminate |].
  intros _. split; [done |]. exists tree. split; [done |].
  assert (Hnode : forall n, descendant tree n -> check_node n = None).
  { intros n Hn. apply (first_some_none _ _ E). by apply walk_complete. }
  repeat split.
  - intros id args Hn%Hnode. cbn [check_node] in Hn.
    unfold str_in in Hn. case_bool_decide; [discriminate | done].
  - intros id attr args Hn%Hnode. cbn [check_node] in Hn.
    unfold str_in in Hn. case_bool_decide; [discriminate | done].
  - intros names name Hn%Hnode Hname. cbn [check_node] in Hn.
    apply list_elem_of_In in Hname.
    pose proof (first_some_none _ _ Hn name Hname) as Hone. cbv beta in Hone.
    unfold str_in in Hone. case_bool_decide; [discriminate | done].
  - intros m Hn%Hnode. cbn [check_node] in Hn.
    unfold str_in in Hn. case_bool_decide; [discriminate | done].
Qed.

Lemma safe_verdict_covers_the_tree_witness :
  dangerous_pattern Observed.print_then_divide = None
  /\ exists tree,
       Observed.ast_parse Observed.print_then_divide = Parsed tree
       /\ (forall id args,
             descendant tree (Call (Name id) args) ->
             id ∉ DANGEROUS_FUNCTIONS)
       /\ (forall id attr args,
             descendant tree (Call (Attribute (Name id) attr) args) ->
             id ∉ DANGEROUS_MODULES)
       /\ (forall names name,
             descendant tree (Import names) -> name ∈ names ->
             name ∉ DANGEROUS_MODULES)
       /\ (forall m,
             descendant tree (ImportFrom (Some m)) -> m ∉ DANGEROUS_MODULES).
Proof.
  apply (safe_verdict_covers_the_tree
           Observed.ast_parse Observed.print_then_divide []).
  by vm_compute.
Defined.

Lemma is_letter_class c :
  is_letter c = true ->
  Re.atom_matches (Re.Class [(97, 122); (65, 90)]) c = true.
Proof.
  unfold is_letter, Re.atom_matches, Re.in_range. cbn [existsb fst snd].
  by rewrite orb_false_r.
Qed.

(** X3.  A name between double underscores makes any code unsafe,
    wherever it stands in the text (in a comment or a string as well):
    the verdict is unsafe and, the pattern being the first one tried, the
    reason names the pattern [__[a-zA-Z]+__]. *)
Theorem dunder_name_is_rejected ast_parse before name after :
  name <> [] ->
  Forall (fun c => is_letter c = true) name ->
  is_safe_code ast_parse (before ++ py "__" ++ name ++ py "__" ++ after)
  = Returns (false,
             py "Patrón de código potencialmente peligroso detectado: "
             ++ py "__[a-zA-Z]+__").
Proof.
  intros Hne Hletters. apply is_safe_code_pattern.
  unfold dangerous_pattern, DANGEROUS_PATTERNS. apply find_head.
  unfold Re.search.
  replace (Re.compile (py "__[a-zA-Z]+__"))
    with (Some (in_sequence
                  [Re.Atom (Re.Lit 95); Re.Atom (Re.Lit 95);
                   one_or_more (Re.Atom (Re.Class [(97, 122); (65, 90)]));
                   Re.Atom (Re.Lit 95); Re.Atom (Re.Lit 95)]))
    by (by vm_compute).
  replace (before ++ py "__" ++ name ++ py "__" ++ after)
    with (before ++ ([95] ++ [95] ++ name ++ [95] ++ [95]) ++ after)
    by (change (py "__") with ([95] ++ [95]); by rewrite <- !app_assoc).
  apply search_regex_inside.
  apply matches_in_sequence_cons; [by constructor |].
  apply matches_in_sequence_cons; [by constructor |].
  apply matches_in_sequence_cons.
  - apply matches_one_or_more_atoms; [done |].
    eapply Forall_impl; [exact Hletters | apply is_letter_class].
  - apply (matches_in_sequence_cons _ _ [95] [95]); by constructor.
Qed.

Lemma dunder_name_is_rejected_witness :
  is_safe_code Observed.ast_parse
    (py "if " ++ py "__" ++ py "name" ++ py "__" ++ py " == 'main': print(1)")
  = Returns (false,
             py "Patrón de código potencialmente peligroso detectado: "
             ++ py "__[a-zA-Z]+__").
Proof.
  apply (dunder_name_is_rejected Observed.ast_parse).
  - discriminate.
  - by repeat constructor.
Defined.

Lemma import_pattern_compiled :
  Re.compile (py "import\s+(?:" ++ join (py "|") DANGEROUS_MODULES ++ py ")")
  = Some
      (in_sequence
         (chars (py "import")
          ++ [one_or_more space;
              one_of
                (map (fun m =>
                        in_sequence
                          (map (fun c => if c =? 46 then Re.Atom Re.Dot
                                         else Re.Atom (Re.Lit c)) m))
                   DANGEROUS_MODULES)])).
Proof. by vm_compute. Qed.

Lemma module_choice_matches m :
  m ∈ DANGEROUS_MODULES ->
  Re.matches
    (one_of
       (map (fun m =>
               in_sequence
                 (map (fun c => if c =? 46 then Re.Atom Re.Dot
                                else Re.Atom (Re.Lit c)) m))
          DANGEROUS_MODULES))
    m.
Proof.
  intros Hm%list_elem_of_In. apply accepts_matches. revert m Hm.
  apply forallb_forall. by vm_compute.
Qed.

(** X4.  The word [import], blanks, and the name of a denylisted module
    make any code unsafe, wherever they stand in the text and whatever
    follows the name: the import of a module whose name only begins with
    a denylisted one is rejected as well. *)
Theorem import_of_denylisted_module_is_rejected
    ast_parse before blanks m after :
  m ∈ DANGEROUS_MODULES ->
  blanks <> [] ->
  Forall (fun c => isspace c = true) blanks ->
  exists reason,
    is_safe_code ast_parse (before ++ py "import" ++ blanks ++ m ++ after)
    = Returns (false, reason).
Proof.
  intros Hm Hne Hblanks.
  destruct (find_finds
              (fun pattern =>
                 Re.search pattern (before ++ py "import" ++ blanks ++ m ++ after))
              DANGEROUS_PATTERNS
              (py "import\s+(?:" ++ join (py "|") DANGEROUS_MODULES ++ py ")"))
    as [pattern Hfound].
  - unfold DANGEROUS_PATTERNS. do 4 right. by left.
  - unfold Re.search. rewrite import_pattern_compiled.
    replace (before ++ py "import" ++ blanks ++ m ++ after)
      with (before ++ (py "import" ++ blanks ++ m) ++ after)
      by (by rewrite <- !app_assoc).
    apply search_regex_inside. apply matches_chars_then.
    apply matches_in_sequence_cons.
    + by apply matches_one_or_more_atoms.
    + by apply module_choice_matches.
  - eexists. apply is_safe_code_pattern. exact Hfound.
Qed.

Lemma import_of_denylisted_module_is_rejected_witness :
  exists reason,
    is_safe_code Observed.ast_parse
      (py "# " ++ py "import" ++ py "  " ++ py "os" ++ py "cillator")
    = Returns (false, reason).
Proof.
  apply (import_of_denylisted_module_is_rejected Observed.ast_parse).
  - unfold DANGEROUS_MODULES. rewrite elem_of_cons. by left.
  - discriminate.
  - by repeat constructor.
Defined.

(** ** More on the sanitizer *)

Lemma truncated_length : length TRUNCATED = 21%nat.
Proof. by vm_compute. Qed.

(** X5.  What [sanitize_code_output] returns is never longer than
    10,021 characters: 10,000 of the output and the 21 of the marker. *)
Theorem sanitized_output_is_bounded output :
  N.of_nat (length (sanitize_code_output output)) <= 10021.
Proof.
  unfold sanitize_code_output. rewrite sub_empty_control.
  pose proof (List.filter_length_le
                (fun c => negb (in_control_class c))
                (if 10000 <? N.of_nat (length output)
                 then take (N.to_nat 10000) output ++ TRUNCATED
                 else output)) as Hle.
  destruct (10000 <? N.of_nat (length output)) eqn:E.
  - rewrite length_app, truncated_length, length_take in Hle. lia.
  - apply N.ltb_ge in E. lia.
Qed.

(** X6.  [sanitize_code_output] removes every tab: the class it strips
    starts at [\x00] and ends at [\x09], the tab, so that of the control
    characters only the newline and the carriage return come through. *)
Theorem sanitized_output_has_no_tab output :
  (9 ∉ sanitize_code_output output)
  /\ forall c, c ∈ sanitize_code_output output -> in_control_class c = false.
Proof.
  assert (H : forall c, c ∈ sanitize_code_output output ->
                        in_control_class c = false).
  { intros c Hc. unfold sanitize_code_output in Hc.
    rewrite sub_empty_control, list_elem_of_In in Hc.
    apply List.filter_In in Hc as [_ Hc]. by apply negb_true_iff in Hc. }
  split; [| done]. intros Hc%H. discriminate Hc.
Qed.

(** ** More on the sandbox *)









(** ** More on the generator *)

Lemma contains_trans a b c :
  contains a b = true -> contains b c = true -> contains a c = true.
Proof.
  rewrite !contains_spec. intros (x & y & ->) (x' & y' & ->).
  exists (x' ++ x), (y ++ y'). by rewrite <- !app_assoc.
Qed.

Lemma contains_refl s : contains s s = true.
Proof. apply contains_spec. exists [], []. by rewrite app_nil_r. Qed.

(** What a part does not have, the whole may have; what the whole does
    not have, no part has. *)
Lemma contains_part_false p part whole :
  contains part whole = true -> contains p whole = false ->
  contains p part = false.
Proof.
  intros Hpart Hwhole. destruct (contains p part) eqn:E; [| done].
  by rewrite (contains_trans _ _ _ E Hpart) in Hwhole.
Qed.

Lemma split_go_cons sep cur s skip :
  exists piece pieces, split_go sep cur s skip = piece :: pieces.
Proof.
  revert cur skip. induction s as [|c s IH]; intros cur skip; cbn [split_go].
  - eauto.
  - destruct skip; [destruct (startswith sep (c :: s)) |]; eauto.
Qed.

(** With an occurrence of the separator there are two pieces at least. *)
Lemma split_go_two sep s :
  sep <> [] ->
  forall cur,
    contains sep s = true ->
    exists first second pieces, split_go sep cur s 0 = first :: second :: pieces.
Proof.
  intros Hsep. induction s as [|c s IH]; intros cur.
  - destruct sep; [done | discriminate].
  - cbn [contains split_go]. destruct (startswith sep (c :: s)) eqn:E.
    + intros _.
      destruct (split_go_cons sep [] s (length sep - 1)) as (second & pieces & ->).
      eauto.
    + cbn [orb]. intros H. apply IH. exact H.
Qed.

(** The first piece: what stands before the first place where the
    separator starts. *)
Lemma split_go_head sep s :
  forall cur,
    exists p rest pieces,
      s = p ++ rest
      /\ split_go sep cur s 0 = (rev cur ++ p) :: pieces
      /\ forall i, (i < length p)%nat -> startswith sep (drop i s) = false.
Proof.
  induction s as [|c s IH]; intros cur.
  - exists [], [], []. cbn [split_go].
    split; [done |]. split; [by rewrite app_nil_r |].
    intros i Hi. cbn [length] in Hi. lia.
  - cbn [split_go]. destruct (startswith sep (c :: s)) eqn:E.
    + exists [], (c :: s), (split_go sep [] s (length sep - 1)).
      split; [done |]. split; [by rewrite app_nil_r |].
      intros i Hi. cbn [length] in Hi. lia.
    + destruct (IH (c :: cur)) as (p & rest & pieces & -> & Hgo & Hno).
      exists (c :: p), rest, pieces.
      split; [done |]. split.
      * rewrite Hgo. cbn [rev]. by rewrite <- app_assoc.
      * intros [|i] Hi; [exact E |]. cbn [length] in Hi.
        change (drop (S i) (c :: p ++ rest)) with (drop i (p ++ rest)).
        apply Hno. lia.
Qed.

Lemma split_head_clean sep s first pieces :
  sep <> [] -> split sep s = first :: pieces -> contains sep first = false.
Proof.
  intros Hsep Hsplit. unfold split in Hsplit.
  destruct (split_go_head sep s []) as (p & rest & pieces' & Hs & Hgo & Hno).
  rewrite Hgo in Hsplit. cbn [rev app] in Hsplit.
  assert (first = p) as -> by congruence.
  destruct (contains sep p) eqn:E; [| done].
  apply contains_spec in E as (a & b & ->).
  specialize (Hno (length a)). rewrite Hs in Hno.
  rewrite <- !app_assoc, drop_app_length, startswith_refl in Hno.
  assert (false = true) as Habs; [| discriminate Habs].
  symmetry. apply Hno. rewrite !length_app.
  destruct sep; [done |]. cbn [length]. lia.
Qed.

(** Every piece is a part of the text. *)
Lemma split_go_pieces sep s :
  forall cur skip piece,
    In piece (split_go sep cur s skip) ->
    contains piece (rev cur ++ drop skip s) = true.
Proof.
  induction s as [|c s IH]; intros cur skip piece.
  - cbn [split_go]. intros [<-|[]]. rewrite drop_nil, app_nil_r.
    apply contains_refl.
  - cbn [split_go]. destruct skip as [|k].
    + cbn [drop]. destruct (startswith sep (c :: s)).
      * intros [<-|Hin].
        -- apply contains_spec. by exists [], (c :: s).
        -- apply IH in Hin. cbn [rev app] in Hin.
           apply contains_spec in Hin as (a & b & Hin).
           apply contains_spec.
           exists (rev cur ++ c :: take (length sep - 1) s ++ a), b.
           rewrite <- !app_assoc. cbn [app]. f_equal. f_equal.
           rewrite <- app_assoc, <- Hin. by rewrite take_drop.
      * intros Hin. apply IH in Hin. cbn [rev drop] in Hin.
        by rewrite <- app_assoc in Hin.
    + intros Hin. by apply IH in Hin.
Qed.

Lemma split_pieces sep s piece :
  In piece (split sep s) -> contains piece s = true.
Proof. intros H. by apply split_go_pieces in H. Qed.

Lemma lstrip_part s : contains (lstrip s) s = true.
Proof.
  induction s as [|c s IH]; [done |]. cbn [lstrip].
  destruct (isspace c); [| apply contains_refl].
  apply contains_spec in IH as (a & b & IH). apply contains_spec.
  exists (c :: a), b. cbn [app]. by f_equal.
Qed.

Lemma contains_rev p s : contains p s = true -> contains (rev p) (rev s) = true.
Proof.
  rewrite !contains_spec. intros (a & b & ->).
  exists (rev b), (rev a). by rewrite !rev_app_distr, <- !app_assoc.
Qed.

Lemma strip_part s : contains (strip s) s = true.
Proof.
  unfold strip, rstrip.
  apply contains_trans with (lstrip s); [| apply lstrip_part].
  rewrite <- (rev_involutive (lstrip s)) at 2.
  apply contains_rev, lstrip_part.
Qed.

Lemma item_found {A} (parts : list A) i x :
  parts !! i = Some x -> item parts i = Returns x.
Proof. unfold item. by intros ->. Qed.

Lemma fence_not_empty : py "```" <> [].
Proof. literal_not_empty. Qed.

Lemma python_fence_not_empty : py "```python" <> [].
Proof. literal_not_empty. Qed.

(** The second branch and the first do the same with the text after the
    opening fence. *)
Lemma first_block_clean rest :
  exists block,
    item (split (py "```") rest) 0 = Returns block
    /\ contains (strip block) rest = true
    /\ contains (py "```") (strip block) = false.
Proof.
  destruct (split_go_cons (py "```") [] rest 0) as (block & pieces & Hsplit).
  fold (split (py "```") rest) in Hsplit.
  exists block. split; [by rewrite Hsplit |].
  assert (Hpart : contains block rest = true).
  { apply split_pieces with (py "```"). rewrite Hsplit. by left. }
  split.
  - apply contains_trans with block; [apply strip_part | done].
  - apply contains_part_false with block; [apply strip_part |].
    apply (split_head_clean _ _ _ _ fence_not_empty Hsplit).
Qed.

Lemma fenced_block_clean fence response :
  fence <> [] ->
  contains fence response = true ->
  exists code,
    match item (split fence response) 1 with
    | Returns rest =>
        match item (split (py "```") rest) 0 with
        | Returns block => Returns (strip block)
        | other => other
        end
    | other => other
    end = Returns code
    /\ contains code response = true
    /\ contains (py "```") code = false.
Proof.
  intros Hfence Hin.
  destruct (split_go_two fence response Hfence [] Hin)
    as (first & rest & pieces & Hsplit).
  fold (split fence response) in Hsplit.
  destruct (first_block_clean rest) as (block & Hblock & Hpart & Hclean).
  exists (strip block). rewrite Hsplit. cbn [item lookup list_lookup].
  rewrite Hblock. split; [done |]. split; [| done].
  apply contains_trans with rest; [done |].
  apply split_pieces with fence. rewrite Hsplit. right. by left.
Qed.

(** [extract_code] raises no [IndexError]: where it asks for the second
    piece of a split, the separator is in the text. *)
Lemma extract_code_returns response :
  exists code,
    extract_code response = Returns code
    /\ contains code response = true
    /\ (contains (py "```") response = false -> code = response)
    /\ (contains (py "```") response = true ->
        contains (py "```") code = false).
Proof.
  unfold extract_code.
  destruct (contains (py "```python") response) eqn:Hpython.
  - destruct (fenced_block_clean (py "```python") response
                python_fence_not_empty Hpython)
      as (code & -> & Hpart & Hclean).
    exists code. repeat split; try done.
    intros Hnone.
    assert (contains (py "```") response = true) as Hfence; [| congruence].
    apply contains_trans with (py "```python"); [by vm_compute | done].
  - destruct (contains (py "```") response) eqn:Hfence.
    + destruct (fenced_block_clean (py "```") response
                  fence_not_empty Hfence)
        as (code & -> & Hpart & Hclean).
      exists code. repeat split; done.
    + exists response. repeat split; try done. apply contains_refl.
Qed.

(** X9.  [extract_code] always gives a code, and never fails on an index:
    a response without three backquotes in a row is given back as it is;
    from any other response a part is taken that has no three backquotes
    in a row. *)
Theorem extract_code_gives_clean_code response :
  exists code,
    extract_code response = Returns code
    /\ contains code response = true
    /\ (contains (py "```") response = false -> code = response)
    /\ (contains (py "```") response = true ->
        contains (py "```") code = false).
Proof. apply extract_code_returns. Qed.

(** X10.  [generate_code] always gives a code when the model call ends
    and raises nothing but an [Exception], and asks the model once.  When
    the model answers, the code is what [extract_code] takes from the
    answer: a part of it, and the whole answer when it has no fence.  When
    the call fails, the code is the fallback snippet with the text of the
    exception, and the failure is logged. *)
Theorem generate_code_always_answers llm query :
  llm (code_generation_prompt query) <> Hangs ->
  (forall e, llm (code_generation_prompt query) = Propagates e ->
             exc_is_Exception e = true) ->
  exists code events,
    generate_code llm query
    = (Returns code, Invoke (code_generation_prompt query) :: events)
    /\ match llm (code_generation_prompt query) with
       | Returns answer =>
           extract_code answer = Returns code
           /\ contains code answer = true
           /\ (contains (py "```") answer = false -> code = answer)
           /\ events = []
       | Propagates e =>
           code = fallback_code (exc_str e)
           /\ events
              = [executor_log ERROR (py "Error al generar código: " ++ exc_str e)]
       | Hangs => False
       end.
Proof.
  intros Hends Hexc. unfold generate_code.
  destruct (llm (code_generation_prompt query)) as [answer|e|]; [| | done].
  - destruct (extract_code_returns answer) as (code & Hcode & Hpart & Hplain & _).
    rewrite Hcode. by exists code, [].
  - rewrite (Hexc e eq_refl). by eexists _, _.
Qed.

Lemma generate_code_always_answers_witness :
  exists code events,
    generate_code Observed.llm_down (py "calcula 23*45")
    = (Returns code, Invoke (code_generation_prompt (py "calcula 23*45")) :: events)
    /\ match Observed.llm_down (code_generation_prompt (py "calcula 23*45")) with
       | Returns answer =>
           extract_code answer = Returns code
           /\ contains code answer = true
           /\ (contains (py "```") answer = false -> code = answer)
           /\ events = []
       | Propagates e =>
           code = fallback_code (exc_str e)
           /\ events
              = [executor_log ERROR (py "Error al generar código: " ++ exc_str e)]
       | Hangs => False
       end.
Proof.
  apply (generate_code_always_answers Observed.llm_down (py "calcula 23*45")).
  - discriminate.
  - intros e H. unfold Observed.llm_down in H.
    assert (e = Observed.timeout) as -> by congruence. reflexivity.
Defined.

(** ** The router *)

Section RouterFacts.

Variable lower : pystr -> pystr.
Variable other_decimal_digits : list (N * N).

Local Abbreviation detect :=
  (detect_code_execution_needed lower other_decimal_digits).
Local Abbreviation patterns := (math_patterns other_decimal_digits).

Lemma detect_keyword query keyword before after :
  In keyword code_keywords ->
  lower query = before ++ keyword ++ after ->
  detect query = true.
Proof.
  intros Hin Hq. unfold detect_code_execution_needed. apply orb_true_iff. left.
  apply existsb_exists. exists keyword. split; [done |].
  rewrite Hq. apply contains_inside.
Qed.

Lemma detect_pattern query pattern before found after :
  In pattern patterns ->
  Re.matches pattern found ->
  lower query = before ++ found ++ after ->
  detect query = true.
Proof.
  intros Hin Hm Hq. unfold detect_code_execution_needed. apply orb_true_iff. right.
  apply existsb_exists. exists pattern. split; [done |].
  rewrite Hq. by apply search_regex_inside.
Qed.

Lemma digit_matches c :
  is_ascii_digit c = true ->
  Re.atom_matches (Re.Class ((48, 57) :: other_decimal_digits)) c = true.
Proof.
  intros H. cbn [Re.atom_matches existsb]. apply orb_true_iff. by left.
Qed.

Lemma digits_match x :
  x <> [] ->
  Forall (fun c => is_ascii_digit c = true) x ->
  Re.matches (one_or_more (digit other_decimal_digits)) x.
Proof.
  intros Hne Hx. apply matches_one_or_more_atoms; [done |].
  eapply Forall_impl; [exact Hx | apply digit_matches].
Qed.

Lemma blanks_match blanks :
  Forall (fun c => isspace c = true) blanks ->
  Re.matches (Re.Star space) blanks.
Proof. intros H. by apply (matches_star_atoms Re.Space). Qed.

End RouterFacts.

(** X11.  A keyword, or one of the words [logaritmo], [factorial],
    [media], [mediana], [moda], [promedio] and [probabilidad], sends a
    query to the code path wherever it stands in the lower-cased query,
    inside a longer word as well. *)
Theorem word_anywhere_asks_for_code
    lower other_decimal_digits query word before after :
  word ∈ code_keywords
         ++ [py "logaritmo"; py "factorial"; py "media"; py "mediana";
             py "moda"; py "promedio"; py "probabilidad"] ->
  lower query = before ++ word ++ after ->
  detect_code_execution_needed lower other_decimal_digits query = true.
Proof.
  intros Hword Hq. apply elem_of_app in Hword as [Hkey|Hword].
  - apply list_elem_of_In in Hkey. by eapply detect_keyword.
  - assert (Hchoice : forall w,
              In w [py "media"; py "mediana"; py "moda"; py "promedio"] ->
              lower query = before ++ w ++ after ->
              detect_code_execution_needed lower other_decimal_digits query = true).
    { intros w Hw Hqw.
      apply (detect_pattern lower other_decimal_digits query
               (one_of (map (fun w => in_sequence (chars w))
                          [py "media"; py "mediana"; py "moda"; py "promedio"]))
               before w after); [| | done].
      - unfold math_patterns. do 5 right. by left.
      - apply matches_one_of with (in_sequence (chars w)); [| apply matches_chars].
        by apply (in_map (fun w => in_sequence (chars w))). }
    assert (Hsingle : forall k,
              nth_error (math_patterns other_decimal_digits) k
              = Some (in_sequence (chars word)) ->
              detect_code_execution_needed lower other_decimal_digits query = true).
    { intros k Hk.
      apply (detect_pattern lower other_decimal_digits query
               (in_sequence (chars word)) before word after); [| | done].
      - by apply nth_error_In in Hk.
      - apply matches_chars. }
    repeat (apply elem_of_cons in Hword as [->|Hword]).
    + by apply (Hsingle 3%nat).
    + by apply (Hsingle 4%nat).
    + apply (Hchoice (py "media")); [| done]. by left.
    + apply (Hchoice (py "mediana")); [| done]. right. by left.
    + apply (Hchoice (py "moda")); [| done]. do 2 right. by left.
    + apply (Hchoice (py "promedio")); [| done]. do 3 right. by left.
    + by apply (Hsingle 7%nat).
    + by apply elem_of_nil in Hword.
Qed.

(** X12.  A number followed by an operator [+ - * / ^] and a number, or
    by a percent sign, with any blanks between them, sends a query to the
    code path wherever it stands in the lower-cased query. *)
Theorem number_with_operator_asks_for_code
    lower other_decimal_digits query before x blanks after :
  x <> [] ->
  Forall (fun c => is_ascii_digit c = true) x ->
  Forall (fun c => isspace c = true) blanks ->
  (forall op more_blanks y,
     op ∈ [43; 45; 42; 47; 94] ->
     Forall (fun c => isspace c = true) more_blanks ->
     y <> [] ->
     Forall (fun c => is_ascii_digit c = true) y ->
     lower query = before ++ (x ++ blanks ++ [op] ++ more_blanks ++ y) ++ after ->
     detect_code_execution_needed lower other_decimal_digits query = true)
  /\ (lower query = before ++ (x ++ blanks ++ [37]) ++ after ->
      detect_code_execution_needed lower other_decimal_digits query = true).
Proof.
  intros Hx Hdigits Hblanks. split.
  - intros op more_blanks y Hop Hmore Hy Hydigits Hq.
    apply (detect_pattern lower other_decimal_digits query
             (in_sequence
                [one_or_more (digit other_decimal_digits); Re.Star space;
                 operator; Re.Star space;
                 one_or_more (digit other_decimal_digits)])
             before (x ++ blanks ++ [op] ++ more_blanks ++ y) after);
      [by left | | exact Hq].
    apply matches_in_sequence_cons; [by apply digits_match |].
    apply matches_in_sequence_cons; [by apply blanks_match |].
    apply matches_in_sequence_cons.
    + constructor. unfold operator. cbn [Re.atom_matches existsb].
      unfold Re.in_range. cbn [fst snd].
      repeat (apply elem_of_cons in Hop as [->|Hop]); try reflexivity.
      by apply elem_of_nil in Hop.
    + apply matches_in_sequence_cons; [by apply blanks_match |].
      by apply digits_match.
  - intros Hq.
    apply (detect_pattern lower other_decimal_digits query
             (in_sequence
                [one_or_more (digit other_decimal_digits); Re.Star space;
                 Re.Atom (Re.Lit 37)])
             before (x ++ blanks ++ [37]) after);
      [right; by left | | exact Hq].
    apply matches_in_sequence_cons; [by apply digits_match |].
    apply matches_in_sequence_cons; [by apply blanks_match |].
    by constructor.
Qed.

Lemma word_anywhere_asks_for_code_witness :
  detect_code_execution_needed Sample.lower Sample.other_decimal_digits
    (py "Responde inmediatamente") = true.
Proof.
  apply (word_anywhere_asks_for_code
           Sample.lower Sample.other_decimal_digits (py "Responde inmediatamente")
           (py "media") (py "responde in") (py "tamente")).
  - apply list_elem_of_In, in_or_app. right. do 2 right. by left.
  - by vm_compute.
Defined.

Lemma number_with_operator_asks_for_code_witness :
  detect_code_execution_needed Sample.lower Sample.other_decimal_digits
    (py "23 * 45") = true
  /\ detect_code_execution_needed Sample.lower Sample.other_decimal_digits
       (py "el 50 % del total") = true.
Proof.
  split.
  - destruct (number_with_operator_asks_for_code
                Sample.lower Sample.other_decimal_digits (py "23 * 45")
                [] (py "23") (py " ") []) as [H _].
    + discriminate.
    + by repeat constructor.
    + by repeat constructor.
    + apply (H 42 (py " ") (py "45")).
      * rewrite !elem_of_cons. right. right. by left.
      * by repeat constructor.
      * discriminate.
      * by repeat constructor.
      * by vm_compute.
  - destruct (number_with_operator_asks_for_code
                Sample.lower Sample.other_decimal_digits (py "el 50 % del total")
                (py "el ") (py "50") (py " ") (py " del total")) as [_ H].
    + discriminate.
    + by repeat constructor.
    + by repeat constructor.
    + apply H. by vm_compute.
Defined.

(** ** The explainer *)

(** X13.  [explain_code_result] always gives an answer when the model
    call ends and raises nothing but an [Exception], and asks the model
    once.  When the call fails the answer is made here: after a run with
    status [success] it shows the standard output, and otherwise the
    error text. *)
Theorem explanation_always_comes llm query code result :
  let prompt :=
    explanation_prompt query code (status result) (stdout result)
      (stderr result) (error result) (var_str (variables result)) in
  llm prompt <> Hangs ->
  (forall e, llm prompt = Propagates e -> exc_is_Exception e = true) ->
  exists answer events,
    explain_code_result llm query code result
    = (Returns answer, Invoke prompt :: events)
    /\ Forall (fun ev => is_invoke ev = false) events
    /\ (forall e,
          llm prompt = Propagates e ->
          if pystr_eqb (status result) (py "success")
          then contains (stdout result) answer = true
          else contains (str_of_option (error result)) answer = true).
Proof.
  intros prompt Hends Hexc. unfold explain_code_result. fold prompt.
  destruct (llm prompt) as [answer|e|] eqn:Hllm; [| | done].
  - exists answer, []. repeat split; [done | discriminate].
  - rewrite (Hexc e eq_refl). eexists _, _. split; [done |].
    split; [by repeat constructor |]. intros _ _.
    destruct (pystr_eqb (status result) (py "success")).
    + unfold explanation_fallback_success. apply contains_inside.
    + unfold explanation_fallback_error. apply contains_inside.
Qed.

Lemma explanation_always_comes_witness :
  let result :=
    {| status := py "error"; stdout := []; stderr := [];
       error := Some (py "division by zero");
       traceback := Some (format_exc Observed.division_by_zero);
       variables := None |} in
  exists answer events,
    explain_code_result Observed.llm_down (py "divide") (py "x = 1/0") result
    = (Returns answer,
       Invoke (explanation_prompt (py "divide") (py "x = 1/0") (status result)
                 (stdout result) (stderr result) (error result)
                 (var_str (variables result)))
       :: events)
    /\ Forall (fun ev => is_invoke ev = false) events
    /\ (forall e,
          Observed.llm_down
            (explanation_prompt (py "divide") (py "x = 1/0") (status result)
               (stdout result) (stderr result) (error result)
               (var_str (variables result)))
          = Propagates e ->
          if pystr_eqb (status result) (py "success")
          then contains (stdout result) answer = true
          else contains (str_of_option (error result)) answer = true).
Proof.
  intros result.
  apply (explanation_always_comes
           Observed.llm_down (py "divide") (py "x = 1/0") result).
  - discriminate.
  - intros e H. unfold Observed.llm_down in H.
    assert (e = Observed.timeout) as -> by congruence. reflexivity.
Defined.

(** ** More on the conversation memory *)

Lemma slice_from_tail {A} (n : Z) (l : list A) :
  (1 <= n)%Z -> slice_from (- n) l = drop (length l - Z.to_nat n) l.
Proof.
  intros Hn. unfold slice_from.
  replace (- n <? 0)%Z with true by (symmetry; apply Z.ltb_lt; lia).
  f_equal. lia.
Qed.

(** X14.  For [n >= 1], [get_recent_history(n)] is the last [n] messages,
    in their order, or all of them when there are fewer. *)
Theorem recent_history_is_the_tail n m :
  (1 <= n)%Z ->
  get_recent_history n m
  = drop (length (conversation_history m) - Z.to_nat n) (conversation_history m)
  /\ length (get_recent_history n m)
     = Nat.min (Z.to_nat n) (length (conversation_history m)).
Proof.
  intros Hn. unfold get_recent_history.
  destruct (conversation_history m) as [|e h] eqn:E.
  - cbn [length Nat.ltb Nat.leb]. rewrite drop_nil. split; [done |].
    cbn [length]. lia.
  - cbn [length Nat.ltb Nat.leb]. rewrite slice_from_tail by done.
    split; [done |]. rewrite length_drop. cbn [length]. lia.
Qed.

Lemma recent_history_is_the_tail_witness :
  get_recent_history 5 (Observed.conversation 7 3)
  = drop (length (conversation_history (Observed.conversation 7 3)) - Z.to_nat 5)
      (conversation_history (Observed.conversation 7 3))
  /\ length (get_recent_history 5 (Observed.conversation 7 3))
     = Nat.min (Z.to_nat 5)
         (length (conversation_history (Observed.conversation 7 3))).
Proof. apply (recent_history_is_the_tail 5 (Observed.conversation 7 3)). lia. Defined.

(** X15.  For [n <= 0], [get_recent_history(n)] is the history without
    its first [-n] messages: for [n = 0] the whole history, and not the
    empty list. *)
Theorem recent_history_of_nothing_is_everything n m :
  (n <= 0)%Z ->
  get_recent_history n m = drop (Z.to_nat (- n)) (conversation_history m)
  /\ get_recent_history 0 m = conversation_history m.
Proof.
  assert (H : forall k, (k <= 0)%Z ->
                get_recent_history k m
                = drop (Z.to_nat (- k)) (conversation_history m)).
  { intros k Hk. unfold get_recent_history, slice_from.
    destruct (conversation_history m) as [|e h];
      cbn [length Nat.ltb Nat.leb]; [by rewrite drop_nil |].
    replace (- k <? 0)%Z with false by (symmetry; apply Z.ltb_ge; lia). done. }
  intros Hn. split; [by apply H |]. by rewrite (H 0%Z).
Qed.

Lemma recent_history_of_nothing_is_everything_witness :
  get_recent_history (-2) (Observed.conversation 7 3)
  = drop (Z.to_nat (- -2)) (conversation_history (Observed.conversation 7 3))
  /\ get_recent_history 0 (Observed.conversation 7 3)
     = conversation_history (Observed.conversation 7 3).
Proof.
  apply (recent_history_of_nothing_is_everything (-2) (Observed.conversation 7 3)).
  lia.
Defined.

(** [get_formatted_history(n)] shows the messages
    [get_recent_history(n)] returns, whatever [n] and the history. *)
Lemma formatted_history_shows_recent_history upper n m :
  get_formatted_history upper (Some n) m
  = join (py "

") (map (format_message upper) (get_recent_history n m)).
Proof.
  unfold get_formatted_history, get_recent_history.
  destruct (conversation_history m) as [|e h]; [| done].
  unfold slice_from. by rewrite !drop_nil, Tauto.if_same.
Qed.

Lemma total_chars_app h1 h2 :
  total_chars (h1 ++ h2) = (total_chars h1 + total_chars h2)%Z.
Proof.
  unfold total_chars. induction h1 as [|e h1 IH]; [done |].
  cbn [app fold_right]. rewrite IH. lia.
Qed.

Lemma total_chars_one e : total_chars [e] = Z.of_nat (length (content e)).
Proof. unfold total_chars. cbn [fold_right]. lia. Qed.

Section MoreMemoryFacts.

Variable settings : Settings.
Variable upper : pystr -> pystr.
Variable now : list event -> pystr.
Variable summarizer : list event -> pystr -> run pystr.

Local Abbreviation add := (add_message settings upper now summarizer).
Local Abbreviation check := (_check_and_summarize settings upper now summarizer).
Local Abbreviation summarize := (_summarize_memory upper now summarizer).

Lemma check_calm m :
  calm settings (length (conversation_history m))
    (total_chars (conversation_history m)) ->
  check m = (m, Returns tt).
Proof.
  intros [Hshort|[Hratio Hunder]]; unfold _check_and_summarize.
  - by replace (length (conversation_history m) <=? 2)%nat with true
      by (symmetry; by apply Nat.leb_le).
  - destruct (length (conversation_history m) <=? 2)%nat; [done |].
    apply Z.eqb_neq in Hratio. rewrite Hratio.
    by replace (max_memory_tokens settings <? _)%Z with false
      by (symmetry; by apply Z.ltb_ge).
Qed.

Lemma add_calm who text m :
  calm settings (length (conversation_history m) + 1)
    (total_chars (conversation_history m) + Z.of_nat (length text)) ->
  add who text m
  = ({| conversation_history :=
          conversation_history m
          ++ [{| role := who; content := text; timestamp := now (trace m) |}];
        trace := trace m ++ [Now] |},
     Returns tt).
Proof.
  intros Hcalm. unfold add_message. apply check_calm.
  cbn [conversation_history]. by rewrite length_app, total_chars_app, total_chars_one.
Qed.

(** What [_summarize_memory] and [_check_and_summarize] add to the trace
    holds one request to a model at most. *)
Lemma summarize_trace m :
  exists events,
    trace (fst (summarize m)) = trace m ++ events
    /\ (length (List.filter is_invoke events) <= 1)%nat.
Proof.
  unfold _summarize_memory.
  destruct (history_to_summarize (conversation_history m)) as [|old older].
  - exists []. rewrite app_nil_r. split; [done |]. cbn. lia.
  - destruct (summarizer _ _) as [summary|e|]; cbn [fst trace record_event].
    + eexists. rewrite <- app_assoc. split; [done |]. cbn. lia.
    + destruct (exc_is_Exception e); cbn [fst trace record_event].
      * eexists. rewrite <- app_assoc. split; [done |]. cbn. lia.
      * eexists. split; [done |]. cbn. lia.
    + eexists. split; [done |]. cbn. lia.
Qed.

Lemma check_trace m :
  exists events,
    trace (fst (check m)) = trace m ++ events
    /\ (length (List.filter is_invoke events) <= 1)%nat.
Proof.
  unfold _check_and_summarize.
  assert (Hnone : exists events,
            trace m = trace m ++ events
            /\ (length (List.filter is_invoke events) <= 1)%nat).
  { exists []. rewrite app_nil_r. split; [done |]. cbn. lia. }
  destruct (length (conversation_history m) <=? 2)%nat; [done |].
  destruct (char_to_token_ratio settings =? 0)%Z; [done |].
  destruct (_ <? _)%Z; [| done].
  destruct (summarize_trace (record_event m
              (memory_log INFO
                 (py "Resumiendo memoria (aprox. "
                  ++ str_of_int (total_chars (conversation_history m)
                                 / char_to_token_ratio settings)
                  ++ py " tokens)")))) as (events & Ht & Hone).
  eexists. rewrite Ht. cbn [trace record_event]. rewrite <- app_assoc.
  split; [done |]. exact Hone.
Qed.

End MoreMemoryFacts.

(** X16.  While the trigger does not fire ([calm]: the history has two
    entries at most after the append, however long they are and whatever
    the settings, or the estimate is within the ceiling), [add_message]
    appends the message with the time of the call and does nothing else:
    no request to the summarizer, no log record. *)
Theorem calm_add_message_only_appends
    settings upper now summarizer who text m :
  calm settings (length (conversation_history m) + 1)
    (total_chars (conversation_history m) + Z.of_nat (length text)) ->
  add_message settings upper now summarizer who text m
  = ({| conversation_history :=
          conversation_history m
          ++ [{| role := who; content := text; timestamp := now (trace m) |}];
        trace := trace m ++ [Now] |},
     Returns tt).
Proof. apply add_calm. Qed.

Lemma calm_add_message_only_appends_witness :
  add_message {| max_memory_tokens := 10; char_to_token_ratio := 0 |}
    Observed.upper Observed.now Observed.summarizer_ok
    (py "assistant") (py "hola") (Observed.conversation 1 4002)
  = ({| conversation_history :=
          conversation_history (Observed.conversation 1 4002)
          ++ [{| role := py "assistant"; content := py "hola";
                 timestamp := Observed.now (trace (Observed.conversation 1 4002)) |}];
        trace := trace (Observed.conversation 1 4002) ++ [Now] |},
     Returns tt).
Proof.
  apply (calm_add_message_only_appends
           {| max_memory_tokens := 10; char_to_token_ratio := 0 |}).
  left. cbn. lia.
Defined.

(** X17.  With a ratio of zero in the settings and two entries or more
    already there, [add_message] raises [ZeroDivisionError], and it does
    so after the append: the message is in the history. *)
Theorem zero_ratio_raises_after_the_append
    settings upper now summarizer who text m :
  char_to_token_ratio settings = 0%Z ->
  (2 <= length (conversation_history m))%nat ->
  add_message settings upper now summarizer who text m
  = ({| conversation_history :=
          conversation_history m
          ++ [{| role := who; content := text; timestamp := now (trace m) |}];
        trace := trace m ++ [Now] |},
     Propagates ZeroDivisionError).
Proof.
  intros Hratio Hlen. unfold add_message, _check_and_summarize.
  cbn [conversation_history]. rewrite length_app. cbn [length].
  replace (length (conversation_history m) + 1 <=? 2)%nat with false
    by (symmetry; apply Nat.leb_gt; lia).
  by rewrite Hratio.
Qed.

Lemma zero_ratio_raises_after_the_append_witness :
  add_message {| max_memory_tokens := 2000; char_to_token_ratio := 0 |}
    Observed.upper Observed.now Observed.summarizer_ok
    (py "user") (py "hola") (Observed.conversation 2 3)
  = ({| conversation_history :=
          conversation_history (Observed.conversation 2 3)
          ++ [{| role := py "user"; content := py "hola";
                 timestamp := Observed.now (trace (Observed.conversation 2 3)) |}];
        trace := trace (Observed.conversation 2 3) ++ [Now] |},
     Propagates ZeroDivisionError).
Proof.
  apply (zero_ratio_raises_after_the_append
           {| max_memory_tokens := 2000; char_to_token_ratio := 0 |}).
  - reflexivity.
  - cbn. lia.
Defined.

(** X18.  The message just added is the last entry of the history after
    [add_message], compaction or not, unless it is the third: with three
    entries a compaction summarizes them all, the new one too. *)
Theorem added_message_stays_last settings upper now summarizer who text m :
  length (conversation_history m) <> 2%nat ->
  last (conversation_history
          (fst (add_message settings upper now summarizer who text m)))
  = Some {| role := who; content := text; timestamp := now (trace m) |}.
Proof.
  intros Hlen. unfold add_message.
  set (new := {| role := who; content := text; timestamp := now (trace m) |}).
  set (m1 := {| conversation_history := conversation_history m ++ [new];
                trace := trace m ++ [Now] |}).
  destruct (decide (length (conversation_history m) < 2)%nat) as [Hshort|Hlong].
  - unfold _check_and_summarize. cbn [conversation_history m1].
    rewrite length_app. cbn [length].
    replace (length (conversation_history m) + 1 <=? 2)%nat with true
      by (symmetry; apply Nat.leb_le; lia).
    cbn [fst conversation_history]. apply last_snoc.
  - destruct (check_shape settings upper now summarizer m1)
      as [H|(summary & ts & H)]; rewrite H; cbn [conversation_history m1].
    + apply last_snoc.
    + destruct (recent_history_long (conversation_history m ++ [new]))
        as [-> _]; [rewrite length_app; cbn [length]; lia |].
      unfold slice_last. rewrite length_app. cbn [length].
      rewrite drop_app_le by lia. by rewrite last_cons, last_snoc.
Qed.

Lemma added_message_stays_last_witness :
  last (conversation_history
          (fst (add_message default_settings Observed.upper Observed.now
                  Observed.summarizer_ok (py "user") (py "hola mundo")
                  (Observed.conversation 3 2666))))
  = Some {| role := py "user"; content := py "hola mundo";
            timestamp := Observed.now (trace (Observed.conversation 3 2666)) |}.
Proof.
  apply (added_message_stays_last default_settings Observed.upper Observed.now
           Observed.summarizer_ok (py "user") (py "hola mundo")
           (Observed.conversation 3 2666)).
  cbn. lia.
Defined.

(** X19.  One call of [add_message] reads the clock first and then makes
    one request to the summarizer at most; what the trace held before
    stays. *)
Theorem add_message_asks_the_summarizer_once
    settings upper now summarizer who text m :
  exists events,
    trace (fst (add_message settings upper now summarizer who text m))
    = trace m ++ Now :: events
    /\ (length (List.filter is_invoke events) <= 1)%nat.
Proof.
  unfold add_message.
  destruct (check_trace settings upper now summarizer
              {| conversation_history :=
                   conversation_history m
                   ++ [{| role := who; content := text;
                          timestamp := now (trace m) |}];
                 trace := trace m ++ [Now] |}) as (events & Ht & Hone).
  exists events. rewrite Ht. cbn [trace]. by rewrite <- app_assoc.
Qed.

Lemma contains_prefix p s after :
  contains p s = true -> contains p (s ++ after) = true.
Proof. intros H. apply (contains_around p [] s after H). Qed.

Lemma history_text_shows upper (e : entry) (l : list entry) :
  e ∈ l -> contains (format_message upper e) (history_text upper l) = true.
Proof.
  unfold history_text.
  assert (H : forall l acc,
            contains (format_message upper e) acc = true \/ e ∈ l ->
            contains (format_message upper e)
              (fold_left
                 (fun text e0 =>
                    text ++ upper (role e0) ++ py ": " ++ content e0 ++ py "

") l acc) = true).
  { clear l. induction l as [|a l IH]; intros acc [Hacc|Hin]; cbn [fold_left].
    - done.
    - by apply elem_of_nil in Hin.
    - apply IH. left. by apply contains_prefix.
    - apply IH. apply elem_of_cons in Hin as [->|Hin]; [left | by right].
      apply contains_spec. exists acc, (py "

"). unfold format_message. by rewrite <- !app_assoc. }
  intros Hin. apply H. by right.
Qed.

(** X20.  A compaction drops no message the summarizer has not seen:
    after [_summarize_memory], a message of the history is still in the
    history, or a request was made whose prompt holds the message, its
    role in capitals, a colon and its content. *)
Theorem nothing_is_dropped_unseen upper now summarizer m e :
  e ∈ conversation_history m ->
  e ∈ conversation_history (fst (_summarize_memory upper now summarizer m))
  \/ exists prompt,
       Invoke prompt ∈ trace (fst (_summarize_memory upper now summarizer m))
       /\ contains (format_message upper e) prompt = true.
Proof.
  intros Hin. unfold _summarize_memory.
  destruct (history_to_summarize (conversation_history m)) as [|old older] eqn:E;
    [by left |].
  rewrite <- E.
  destruct (summarizer _ _) as [summary|exc|].
  - assert (Hsplit : e ∈ history_to_summarize (conversation_history m)
                     \/ e ∈ recent_history (conversation_history m)).
    { destruct (decide (4 <= length (conversation_history m))%nat) as [Hlong|Hshort].
      - apply elem_of_app. by rewrite <- history_split.
      - left. destruct (recent_history_short (conversation_history m))
          as [_ ->]; [lia | done]. }
    destruct Hsplit as [Hold|Hrecent].
    + right. eexists. split.
      * cbn [fst trace record_event]. rewrite elem_of_app. left.
        rewrite elem_of_app. right. apply elem_of_cons. by left.
      * unfold summary_prompt. apply contains_around.
        by apply history_text_shows.
    + left. cbn [fst conversation_history]. apply elem_of_cons. by right.
  - left. by destruct (exc_is_Exception exc).
  - by left.
Qed.

Lemma nothing_is_dropped_unseen_witness :
  Observed.message (py "user") 3
  ∈ conversation_history
      (fst (_summarize_memory Observed.upper Observed.now Observed.summarizer_ok
              (Observed.conversation 7 3)))
  \/ exists prompt,
       Invoke prompt
       ∈ trace (fst (_summarize_memory Observed.upper Observed.now
                       Observed.summarizer_ok (Observed.conversation 7 3)))
       /\ contains (format_message Observed.upper (Observed.message (py "user") 3))
            prompt = true.
Proof.
  apply (nothing_is_dropped_unseen Observed.upper Observed.now
           Observed.summarizer_ok (Observed.conversation 7 3)
           (Observed.message (py "user") 3)).
  apply elem_of_cons. by left.
Defined.

(** ** The engine and the handlers of the interface *)

Lemma grows_refl P m : grows P m m.
Proof. exists []. by rewrite app_nil_r. Qed.

Lemma grows_trans P m1 m2 m3 : grows P m1 m2 -> grows P m2 m3 -> grows P m1 m3.
Proof.
  intros (ev1 & H1 & F1) (ev2 & H2 & F2). exists (ev1 ++ ev2).
  rewrite H2, H1, <- app_assoc. split; [done |]. by apply Forall_app.
Qed.

Lemma grows_emit P events m : Forall P events -> grows P m (emit events m).
Proof. intros H. by exists events. Qed.

Lemma grows_history P history m :
  grows P m {| conversation_history := history; trace := trace m |}.
Proof. exists []. by rewrite app_nil_r. Qed.

Ltac quiet_events := repeat (constructor; try exact I).

Section TraceFacts.

Variable settings : Settings.
Variable upper : pystr -> pystr.
Variable now : list event -> pystr.
Variable summarizer : list event -> pystr -> run pystr.
Variable P : event -> Prop.
Hypothesis P_log : forall logger lvl msg, P (Log logger lvl msg).
Hypothesis P_invoke : forall prompt, P (Invoke prompt).
Hypothesis P_now : P Now.

Ltac plain_events :=
  repeat (constructor; try first [apply P_log | apply P_invoke | apply P_now]).

Lemma summarize_grows m :
  grows P m (fst (_summarize_memory upper now summarizer m)).
Proof using Type*.
  unfold _summarize_memory.
  destruct (history_to_summarize (conversation_history m)) as [|old older];
    [apply grows_refl |].
  destruct (summarizer _ _) as [summary|e|]; cbn [fst].
  - eexists. cbn [trace record_event]. rewrite <- app_assoc.
    split; [done |]. plain_events.
  - destruct (exc_is_Exception e); cbn [fst].
    + eexists. cbn [trace record_event]. rewrite <- app_assoc.
      split; [done |]. plain_events.
    + eexists. split; [done |]. plain_events.
  - eexists. split; [done |]. plain_events.
Qed.

Lemma check_grows m :
  grows P m (fst (_check_and_summarize settings upper now summarizer m)).
Proof using Type*.
  unfold _check_and_summarize.
  destruct (length (conversation_history m) <=? 2)%nat; [apply grows_refl |].
  destruct (char_to_token_ratio settings =? 0)%Z; [apply grows_refl |].
  destruct (_ <? _)%Z; [| apply grows_refl].
  eapply grows_trans; [| apply summarize_grows].
  eexists. split; [done |]. plain_events.
Qed.

Lemma add_grows who text m :
  grows P m (fst (add_message settings upper now summarizer who text m)).
Proof using Type*.
  unfold add_message. eapply grows_trans; [| apply check_grows].
  eexists. split; [done |]. plain_events.
Qed.

Lemma generate_code_events llm query : Forall P (snd (generate_code llm query)).
Proof using Type*.
  unfold generate_code.
  destruct (match llm _ with Returns c => extract_code c | other => other end)
    as [c|e|]; [| destruct (exc_is_Exception e) |]; plain_events.
Qed.

Lemma explain_events llm query code result :
  Forall P (snd (explain_code_result llm query code result)).
Proof using Type*.
  unfold explain_code_result.
  destruct (llm _) as [c|e|]; [| destruct (exc_is_Exception e) |];
    plain_events.
Qed.

Lemma retrieval_events vector_db similarity_search query before :
  Forall P (snd (get_relevant_documents vector_db similarity_search query before)).
Proof using Type*.
  unfold get_relevant_documents.
  destruct vector_db; cbn [negb]; [| plain_events].
  destruct (similarity_search _ _) as [c|e|]; [| destruct (exc_is_Exception e) |];
    plain_events.
Qed.

End TraceFacts.

Lemma on_exception_events ast_parse out err e :
  Forall (vetted ast_parse) (snd (on_exception out err e)).
Proof.
  unfold on_exception.
  destruct (exc_is_Exception e); [| quiet_events].
  destruct (str_exc e); [| quiet_events ..].
  destruct (format_exc_call e); [| quiet_events ..].
  destruct out; [| quiet_events ..]. destruct err; quiet_events.
Qed.

Lemma execute_code_events ast_parse pyobj py_str exec code :
  Forall (vetted ast_parse)
    (snd (execute_code ast_parse pyobj py_str exec code)).
Proof.
  unfold execute_code.
  destruct (is_safe_code ast_parse code) as [[[|] reason]|e|] eqn:E;
    [| quiet_events ..].
  cbn [then_events snd]. constructor; [by exists code, reason |].
  destruct (ending (exec (augmented_code code))) as [vars|e|];
    [| apply on_exception_events | quiet_events].
  destruct (written_out _) as [out|e|];
    [| apply on_exception_events | quiet_events].
  destruct (written_err _) as [err|e|];
    [| apply on_exception_events | quiet_events].
  cbn [then_events snd app]. constructor; [exact I |].
  destruct (render pyobj py_str vars) as [rendered|e|];
    [quiet_events | apply on_exception_events | quiet_events].
Qed.

Section EngineFacts.

Variable settings : Settings.
Variable upper lower : pystr -> pystr.
Variable other_decimal_digits : list (N * N).
Variable now : list event -> pystr.
Variable summarizer : list event -> pystr -> run pystr.
Variable llm : list event -> pystr -> run pystr.
Variable ast_parse : pystr -> parse_result.
Variable pyobj : Type.
Variable py_str : pyobj -> run pystr.
Variable exec : list event -> pystr -> exec_result pyobj.
Variable vector_db : bool.
Variable similarity_search : list event -> pystr -> run (list Document).

Local Abbreviation handle_code :=
  (_handle_code_execution llm ast_parse pyobj py_str exec).
Local Abbreviation handle_rag :=
  (_handle_rag_query upper llm vector_db similarity_search).
Local Abbreviation process :=
  (process_query settings upper lower other_decimal_digits now summarizer llm
     ast_parse pyobj py_str exec vector_db similarity_search).
Local Abbreviation chat_and_log :=
  (_chat_and_log settings upper lower other_decimal_digits now summarizer llm
     ast_parse pyobj py_str exec vector_db similarity_search).
Local Abbreviation regenerate :=
  (_regenerate_response settings upper lower other_decimal_digits now
     summarizer llm ast_parse pyobj py_str exec vector_db similarity_search).
Local Abbreviation safe := (vetted ast_parse).

Lemma vetted_log logger lvl msg : safe (Log logger lvl msg).
Proof. exact I. Qed.

Lemma vetted_invoke prompt : safe (Invoke prompt).
Proof. exact I. Qed.

Lemma vetted_now : safe Now.
Proof. exact I. Qed.



Lemma except_Exception_grows {A} (Q : event -> Prop) m
    (body : memory * run A) handler :
  grows Q m (fst body) ->
  (forall e m', grows Q m' (fst (handler e m'))) ->
  grows Q m (fst (except_Exception body handler)).
Proof.
  unfold except_Exception. intros Hbody Hhandler.
  destruct (snd body) as [a|e|]; [done | | done].
  destruct (exc_is_Exception e); [| done].
  eapply grows_trans; [exact Hbody | apply Hhandler].
Qed.

Lemma except_Exception_history {A} m (body : memory * run A) handler :
  conversation_history (fst body) = conversation_history m ->
  (forall e m', conversation_history (fst (handler e m'))
                = conversation_history m') ->
  conversation_history (fst (except_Exception body handler))
  = conversation_history m.
Proof.
  unfold except_Exception. intros Hbody Hhandler.
  destruct (snd body) as [a|e|]; [done | | done].
  destruct (exc_is_Exception e); [| done]. by rewrite Hhandler.
Qed.

Lemma with_str_grows {A} (Q : event -> Prop) e m
    (use : pystr -> memory * run A) :
  (forall message, grows Q m (fst (use message))) ->
  grows Q m (fst (with_str e m use)).
Proof.
  intros Huse. unfold with_str.
  destruct (str_exc e); [apply Huse | apply grows_refl ..].
Qed.

Lemma with_str_history {A} e m (use : pystr -> memory * run A) :
  (forall message,
     conversation_history (fst (use message)) = conversation_history m) ->
  conversation_history (fst (with_str e m use)) = conversation_history m.
Proof. intros Huse. unfold with_str. by destruct (str_exc e). Qed.

Lemma handle_code_grows query m : grows safe m (fst (handle_code query m)).
Proof.
  unfold _handle_code_execution. apply except_Exception_grows.
  - eapply grows_trans.
    { apply grows_emit, generate_code_events;
        [apply vetted_log | apply vetted_invoke | apply vetted_now]. }
    destruct (fst (generate_code _ _)) as [code|e|]; [| apply grows_refl ..].
    eapply grows_trans; [apply grows_emit, execute_code_events |].
    destruct (fst (execute_code _ _ _ _ _)) as [result|e|];
      [| apply grows_refl ..].
    cbn [fst]. apply grows_emit, explain_events;
      [apply vetted_log | apply vetted_invoke | apply vetted_now].
  - intros e m'. apply with_str_grows. intros message. cbn [fst].
    apply grows_emit. quiet_events.
Qed.

Lemma handle_rag_grows query m : grows safe m (fst (handle_rag query m)).
Proof.
  unfold _handle_rag_query. apply except_Exception_grows.
  - eapply grows_trans.
    { apply grows_emit, retrieval_events;
        [apply vetted_log | apply vetted_invoke | apply vetted_now]. }
    destruct (fst (get_relevant_documents _ _ _ _)) as [docs|e|];
      [| apply grows_refl ..].
    cbn [fst]. apply grows_emit. quiet_events.
  - intros e m'. apply with_str_grows. intros message. cbn [fst].
    apply grows_emit. quiet_events.
Qed.

Lemma handle_code_history query m :
  conversation_history (fst (handle_code query m)) = conversation_history m.
Proof.
  unfold _handle_code_execution. apply except_Exception_history;
    [| intros e m'; by apply with_str_history].
  destruct (fst (generate_code _ _)) as [code|e|]; [| done ..].
  by destruct (fst (execute_code _ _ _ _ _)) as [result|e|].
Qed.

Lemma handle_rag_history query m :
  conversation_history (fst (handle_rag query m)) = conversation_history m.
Proof.
  unfold _handle_rag_query. apply except_Exception_history;
    [| intros e m'; by apply with_str_history].
  by destruct (fst (get_relevant_documents _ _ _ _)) as [docs|e|].
Qed.

Lemma process_grows query m : grows safe m (fst (process query m)).
Proof.
  unfold process_query.
  set (m0 := emit _ m).
  assert (H0 : grows safe m m0) by (apply grows_emit; quiet_events).
  assert (Hasked : grows safe m
            (fst (add_message settings upper now summarizer (py "user") query m0))).
  { eapply grows_trans; [exact H0 |].
    apply add_grows; [apply vetted_log | apply vetted_invoke | apply vetted_now]. }
  destruct (snd (add_message _ _ _ _ (py "user") _ _)); [| done ..].
  set (answered := if detect_code_execution_needed _ _ _ then _ else _).
  assert (Hanswered : grows safe m (fst answered)).
  { eapply grows_trans; [exact Hasked |]. subst answered.
    destruct (detect_code_execution_needed _ _ _).
    - eapply grows_trans; [| apply handle_code_grows].
      apply grows_emit. quiet_events.
    - apply handle_rag_grows. }
  destruct (snd answered) as [response|e|]; [| done ..].
  assert (Hstored : grows safe m
            (fst (add_message settings upper now summarizer (py "assistant")
                    response (fst answered)))).
  { eapply grows_trans; [exact Hanswered |].
    apply add_grows; [apply vetted_log | apply vetted_invoke | apply vetted_now]. }
  by destruct (snd (add_message _ _ _ _ (py "assistant") _ _)).
Qed.

Lemma chat_grows query history m :
  grows safe m (fst (chat_and_log query history m)).
Proof.
  unfold _chat_and_log. destruct (negb (truthy query)); [apply grows_refl |].
  apply except_Exception_grows.
  - pose proof (process_grows query m) as H.
    by destruct (snd (process query m)).
  - intros e m'. apply with_str_grows. intros message. cbn [fst].
    apply grows_emit. quiet_events.
Qed.

Lemma regenerate_grows history m :
  grows safe m (fst (regenerate history m)).
Proof.
  unfold _regenerate_response.
  destruct (last history) as [[last_query answer]|]; [| apply grows_refl].
  set (m1 := if (2 <=? _)%nat then _ else m).
  assert (H1 : grows safe m m1).
  { subst m1. destruct (2 <=? _)%nat; [apply grows_history | apply grows_refl]. }
  pose proof (grows_trans _ _ _ _ H1 (process_grows last_query m1)) as H.
  by destruct (snd (process last_query m1)).
Qed.

End EngineFacts.

(** X21.  Whatever the models, the index and the parser answer, every
    program the chat handler and the regeneration handler pass to [exec]
    is the preamble followed by a text the validator has judged safe; and
    they add to the trace without touching what it held. *)
Theorem handlers_run_only_vetted_code
    settings upper lower other_decimal_digits now summarizer llm ast_parse
    pyobj py_str exec vector_db similarity_search query history m :
  (exists events,
     trace (fst (_chat_and_log settings upper lower other_decimal_digits now
                   summarizer llm ast_parse pyobj py_str exec vector_db
                   similarity_search query history m))
     = trace m ++ events
     /\ Forall (vetted ast_parse) events)
  /\ (exists events,
        trace (fst (_regenerate_response settings upper lower
                      other_decimal_digits now summarizer llm ast_parse pyobj
                      py_str exec vector_db similarity_search history m))
        = trace m ++ events
        /\ Forall (vetted ast_parse) events).
Proof. split; [apply chat_grows | apply regenerate_grows]. Qed.

Example chat_runs_generated_code :
  let turn :=
    _chat_and_log default_settings Observed.upper Sample.lower
      Sample.other_decimal_digits Observed.now Observed.summarizer_ok
      Sample.llm_codes Observed.ast_parse Observed.value Observed.py_str
      Sample.exec false Sample.index_empty (py "calcula x") []
      (Observed.conversation 0 0) in
  snd turn = Returns ([], [(py "calcula x", py "x vale 1")])
  /\ List.filter (fun ev => match ev with Exec _ => true | _ => false end)
       (trace (fst turn))
     = [Exec (augmented_code Observed.assign_x)].
Proof. by vm_compute. Qed.

Lemma calm_eq settings n n' total total' :
  n = n' -> total = total' -> calm settings n total -> calm settings n' total'.
Proof. by intros -> ->. Qed.

Section TurnFacts.

Variable settings : Settings.
Variable upper lower : pystr -> pystr.
Variable other_decimal_digits : list (N * N).
Variable now : list event -> pystr.
Variable summarizer : list event -> pystr -> run pystr.
Variable llm : list event -> pystr -> run pystr.
Variable ast_parse : pystr -> parse_result.
Variable pyobj : Type.
Variable py_str : pyobj -> run pystr.
Variable exec : list event -> pystr -> exec_result pyobj.
Variable vector_db : bool.
Variable similarity_search : list event -> pystr -> run (list Document).

Local Abbreviation add := (add_message settings upper now summarizer).
Local Abbreviation handle_code :=
  (_handle_code_execution llm ast_parse pyobj py_str exec).
Local Abbreviation handle_rag :=
  (_handle_rag_query upper llm vector_db similarity_search).
Local Abbreviation process :=
  (process_query settings upper lower other_decimal_digits now summarizer llm
     ast_parse pyobj py_str exec vector_db similarity_search).
Local Abbreviation chat_and_log :=
  (_chat_and_log settings upper lower other_decimal_digits now summarizer llm
     ast_parse pyobj py_str exec vector_db similarity_search).
Local Abbreviation regenerate :=
  (_regenerate_response settings upper lower other_decimal_digits now
     summarizer llm ast_parse pyobj py_str exec vector_db similarity_search).

Lemma add_zero_ratio who text m :
  char_to_token_ratio settings = 0%Z ->
  (2 <= length (conversation_history m))%nat ->
  add who text m
  = ({| conversation_history :=
          conversation_history m
          ++ [{| role := who; content := text; timestamp := now (trace m) |}];
        trace := trace m ++ [Now] |},
     Propagates ZeroDivisionError).
Proof.
  intros Hratio Hlen. unfold add_message, _check_and_summarize.
  cbn [conversation_history]. rewrite length_app. cbn [length].
  replace (length (conversation_history m) + 1 <=? 2)%nat with false
    by (symmetry; apply Nat.leb_gt; lia).
  by rewrite Hratio.
Qed.






Lemma process_calm query response m :
  snd (process query m) = Returns response ->
  calm settings (length (conversation_history m) + 1)
    (total_chars (conversation_history m) + Z.of_nat (length query)) ->
  calm settings (length (conversation_history m) + 2)
    (total_chars (conversation_history m) + Z.of_nat (length query)
     + Z.of_nat (length response)) ->
  map said (conversation_history (fst (process query m)))
  = map said (conversation_history m)
    ++ [(py "user", query); (py "assistant", response)].
Proof.
  intros Hret Hc1 Hc2. revert Hret. unfold process_query.
  set (m0 := emit _ m).
  rewrite (add_calm settings upper now summarizer (py "user") query m0)
    by exact Hc1.
  cbn [snd fst].
  set (asked := {| conversation_history := _; trace := _ |}).
  set (answered := if detect_code_execution_needed _ _ _ then _ else _).
  assert (Hh : conversation_history (fst answered)
               = conversation_history m
                 ++ [{| role := py "user"; content := query;
                        timestamp := now (trace m0) |}]).
  { subst answered. destruct (detect_code_execution_needed _ _ _).
    - by rewrite handle_code_history.
    - by rewrite handle_rag_history. }
  destruct (snd answered) as [r|e|]; [| discriminate ..].
  destruct (snd (add (py "assistant") r (fst answered))) as [[]|e|] eqn:Estored;
    [| discriminate ..].
  cbn [snd fst]. intros [= ->].
  rewrite (add_calm settings upper now summarizer (py "assistant") response
             (fst answered)).
  - cbn [fst conversation_history]. rewrite Hh, !map_app. cbn [map said role content].
    by rewrite <- app_assoc.
  - rewrite Hh, length_app, total_chars_app, total_chars_one.
    cbn [length content]. eapply calm_eq; [| | exact Hc2]; lia.
Qed.

End TurnFacts.

(** X22.  A turn that returns and fires no compaction adds two messages
    to the memory and changes nothing else of it: the question under the
    role [user], then the answer it returns under the role [assistant]. *)
Theorem calm_turn_stores_question_and_answer
    settings upper lower other_decimal_digits now summarizer llm ast_parse
    pyobj py_str exec vector_db similarity_search query response m :
  snd (process_query settings upper lower other_decimal_digits now summarizer
         llm ast_parse pyobj py_str exec vector_db similarity_search query m)
  = Returns response ->
  calm settings (length (conversation_history m) + 1)
    (total_chars (conversation_history m) + Z.of_nat (length query)) ->
  calm settings (length (conversation_history m) + 2)
    (total_chars (conversation_history m) + Z.of_nat (length query)
     + Z.of_nat (length response)) ->
  map said
    (conversation_history
       (fst (process_query settings upper lower other_decimal_digits now
               summarizer llm ast_parse pyobj py_str exec vector_db
               similarity_search query m)))
  = map said (conversation_history m)
    ++ [(py "user", query); (py "assistant", response)].
Proof. apply process_calm. Qed.

Lemma calm_turn_stores_question_and_answer_witness :
  map said
    (conversation_history
       (fst (process_query default_settings Observed.upper Sample.lower
               Sample.other_decimal_digits Observed.now Observed.summarizer_ok
               Sample.llm_greets Observed.ast_parse Observed.value
               Observed.py_str Sample.exec false Sample.index_empty
               (py "hola") (Observed.conversation 4 30))))
  = map said (conversation_history (Observed.conversation 4 30))
    ++ [(py "user", py "hola");
        (py "assistant", py "Hola, ¿en qué puedo ayudarte?")].
Proof.
  apply (calm_turn_stores_question_and_answer default_settings Observed.upper
           Sample.lower Sample.other_decimal_digits Observed.now
           Observed.summarizer_ok Sample.llm_greets Observed.ast_parse
           Observed.value Observed.py_str Sample.exec false Sample.index_empty
           (py "hola") (py "Hola, ¿en qué puedo ayudarte?")
           (Observed.conversation 4 30)).
  - by vm_compute.
  - right. split; [done |]. by vm_compute.
  - right. split; [done |]. by vm_compute.
Defined.




Section HandlerFacts.

Variable settings : Settings.
Variable upper lower : pystr -> pystr.
Variable other_decimal_digits : list (N * N).
Variable now : list event -> pystr.
Variable summarizer : list event -> pystr -> run pystr.
Variable llm : list event -> pystr -> run pystr.
Variable ast_parse : pystr -> parse_result.
Variable pyobj : Type.
Variable py_str : pyobj -> run pystr.
Variable exec : list event -> pystr -> exec_result pyobj.
Variable vector_db : bool.
Variable similarity_search : list event -> pystr -> run (list Document).

Local Abbreviation process :=
  (process_query settings upper lower other_decimal_digits now summarizer llm
     ast_parse pyobj py_str exec vector_db similarity_search).
Local Abbreviation chat_and_log :=
  (_chat_and_log settings upper lower other_decimal_digits now summarizer llm
     ast_parse pyobj py_str exec vector_db similarity_search).
Local Abbreviation regenerate :=
  (_regenerate_response settings upper lower other_decimal_digits now
     summarizer llm ast_parse pyobj py_str exec vector_db similarity_search).

Lemma chat_zero_ratio query history m :
  char_to_token_ratio settings = 0%Z ->
  (2 <= length (conversation_history m))%nat ->
  truthy query = true ->
  chat_and_log query history m
  = ({| conversation_history :=
          conversation_history m
          ++ [{| role := py "user"; content := query;
                 timestamp :=
                   now (trace m
                        ++ [engine_log INFO (py "Procesando consulta: " ++ query)]) |}];
        trace :=
          trace m
          ++ [engine_log INFO (py "Procesando consulta: " ++ query);
              Now;
              app_log ERROR
                (py "Error en el chat: " ++ exc_str ZeroDivisionError)] |},
     Returns
       ([],
        history
        ++ [(query,
             py "Lo siento, ocurrió un error al procesar tu consulta: "
             ++ exc_str ZeroDivisionError)])).
Proof.
  intros Hratio Hlen Hquery. unfold _chat_and_log. rewrite Hquery. cbn [negb].
  unfold process_query.
  rewrite (add_zero_ratio settings upper now summarizer (py "user") query
             (emit [engine_log INFO (py "Procesando consulta: " ++ query)] m)
             Hratio Hlen).
  unfold except_Exception, with_str, str_exc. cbn [snd fst].
  replace (exc_is_Exception ZeroDivisionError) with true by done.
  replace (exc_str_fails ZeroDivisionError)
    with (@None (failure exception)) by done.
  unfold emit. cbn [conversation_history trace].
  by rewrite <- !app_assoc.
Qed.

Lemma regenerate_last chat query old h e1 e2 m shown :
  conversation_history m = h ++ [e1; e2] ->
  snd (regenerate (chat ++ [(query, old)]) m) = Returns shown ->
  exists response,
    shown = chat ++ [(query, response)]
    /\ (calm settings (length h + 1)
          (total_chars h + Z.of_nat (length query)) ->
        calm settings (length h + 2)
          (total_chars h + Z.of_nat (length query)
           + Z.of_nat (length response)) ->
        map said (conversation_history
                    (fst (regenerate (chat ++ [(query, old)]) m)))
        = map said h ++ [(py "user", query); (py "assistant", response)]).
Proof.
  intros Hm. unfold _regenerate_response.
  rewrite last_snoc, List.removelast_last, Hm, length_app.
  cbn [length].
  replace (2 <=? length h + 2)%nat with true by (symmetry; apply Nat.leb_le; lia).
  unfold slice_but_last. rewrite length_app. cbn [length].
  replace (length h + 2 - 2)%nat with (length h) by lia.
  rewrite take_app_length.
  set (m1 := {| conversation_history := h; trace := trace m |}).
  destruct (snd (process query m1)) as [response|e|] eqn:E; [| discriminate ..].
  cbn [snd fst]. intros [= <-]. exists response. split; [done |].
  intros Hc1 Hc2.
  exact (process_calm settings upper lower other_decimal_digits now summarizer
           llm ast_parse pyobj py_str exec vector_db similarity_search
           query response m1 E Hc1 Hc2).
Qed.

Lemma rag_without_index query m e response :
  similarity_search (trace m) query = Propagates e ->
  exc_is_Exception e = true ->
  llm (trace m
       ++ [document_log ERROR
             (py "Error al recuperar documentos relevantes: " ++ exc_str e)])
    (rag_prompt_without_documents
       (get_formatted_history upper (Some 5%Z) m) query)
  = Returns response ->
  _handle_rag_query upper llm true similarity_search query m
  = (emit [document_log ERROR
             (py "Error al recuperar documentos relevantes: " ++ exc_str e);
           Invoke (rag_prompt_without_documents
                     (get_formatted_history upper (Some 5%Z) m) query)] m,
     Returns response).
Proof.
  intros Hsearch He Hllm.
  unfold _handle_rag_query, get_relevant_documents. cbn [negb].
  rewrite Hsearch, He. cbn [fst snd].
  unfold except_Exception. cbn [snd fst emit trace conversation_history].
  change (get_formatted_history upper (Some 5%Z)
            (emit [document_log ERROR
                     (py "Error al recuperar documentos relevantes: "
                      ++ exc_str e)] m))
    with (get_formatted_history upper (Some 5%Z) m).
  rewrite Hllm. unfold emit. cbn [conversation_history trace].
  by rewrite <- app_assoc.
Qed.

End HandlerFacts.

(** X25.  With a ratio of zero in the settings and two messages or more
    in the memory, the chat handler asks no model: it stores the
    question, and shows the text of the [ZeroDivisionError] as the
    answer. *)
Theorem zero_ratio_turn_shows_the_division_error
    settings upper lower other_decimal_digits now summarizer llm ast_parse
    pyobj py_str exec vector_db similarity_search query history m :
  char_to_token_ratio settings = 0%Z ->
  (2 <= length (conversation_history m))%nat ->
  truthy query = true ->
  _chat_and_log settings upper lower other_decimal_digits now summarizer llm
    ast_parse pyobj py_str exec vector_db similarity_search query history m
  = ({| conversation_history :=
          conversation_history m
          ++ [{| role := py "user"; content := query;
                 timestamp :=
                   now (trace m
                        ++ [engine_log INFO (py "Procesando consulta: " ++ query)]) |}];
        trace :=
          trace m
          ++ [engine_log INFO (py "Procesando consulta: " ++ query);
              Now;
              app_log ERROR
                (py "Error en el chat: " ++ exc_str ZeroDivisionError)] |},
     Returns
       ([],
        history
        ++ [(query,
             py "Lo siento, ocurrió un error al procesar tu consulta: "
             ++ exc_str ZeroDivisionError)])).
Proof. apply chat_zero_ratio. Qed.

Lemma zero_ratio_turn_shows_the_division_error_witness :
  snd (_chat_and_log {| max_memory_tokens := 2000; char_to_token_ratio := 0 |}
         Observed.upper Sample.lower Sample.other_decimal_digits Observed.now
         Observed.summarizer_ok Sample.llm_greets Observed.ast_parse
         Observed.value Observed.py_str Sample.exec false Sample.index_empty
         (py "hola") [] (Observed.conversation 2 3))
  = Returns
      ([],
       [(py "hola",
         py "Lo siento, ocurrió un error al procesar tu consulta: integer division or modulo by zero")]).
Proof.
  rewrite (zero_ratio_turn_shows_the_division_error
             {| max_memory_tokens := 2000; char_to_token_ratio := 0 |}
             Observed.upper Sample.lower Sample.other_decimal_digits
             Observed.now Observed.summarizer_ok Sample.llm_greets
             Observed.ast_parse Observed.value Observed.py_str Sample.exec
             false Sample.index_empty (py "hola") []
             (Observed.conversation 2 3)).
  - by vm_compute.
  - reflexivity.
  - cbn. lia.
  - reflexivity.
Defined.

(** X26.  Regenerating replaces the last exchange: when the memory ends
    with two messages and the handler returns, the chat it returns is the
    one it was given with a new answer to the last question; and when no
    compaction fires, the memory is the one before those two messages
    with the question and the new answer. *)
Theorem regenerate_replaces_the_last_exchange
    settings upper lower other_decimal_digits now summarizer llm ast_parse
    pyobj py_str exec vector_db similarity_search
    chat query old h e1 e2 m shown :
  conversation_history m = h ++ [e1; e2] ->
  snd (_regenerate_response settings upper lower other_decimal_digits now
         summarizer llm ast_parse pyobj py_str exec vector_db
         similarity_search (chat ++ [(query, old)]) m)
  = Returns shown ->
  exists response,
    shown = chat ++ [(query, response)]
    /\ (calm settings (length h + 1)
          (total_chars h + Z.of_nat (length query)) ->
        calm settings (length h + 2)
          (total_chars h + Z.of_nat (length query)
           + Z.of_nat (length response)) ->
        map said
          (conversation_history
             (fst (_regenerate_response settings upper lower
                     other_decimal_digits now summarizer llm ast_parse pyobj
                     py_str exec vector_db similarity_search
                     (chat ++ [(query, old)]) m)))
        = map said h ++ [(py "user", query); (py "assistant", response)]).
Proof. apply regenerate_last. Qed.

Lemma regenerate_replaces_the_last_exchange_witness :
  exists response,
    [(py "hola", response)] = [] ++ [(py "hola", response)]
    /\ map said
         (conversation_history
            (fst (_regenerate_response default_settings Observed.upper
                    Sample.lower Sample.other_decimal_digits Observed.now
                    Observed.summarizer_ok Sample.llm_greets Observed.ast_parse
                    Observed.value Observed.py_str Sample.exec false
                    Sample.index_empty ([] ++ [(py "hola", py "Buenas")])
                    {| conversation_history :=
                         Observed.turns 2 true 30
                         ++ [Observed.message (py "user") 4;
                             Observed.message (py "assistant") 6];
                       trace := [] |})))
       = map said (Observed.turns 2 true 30)
         ++ [(py "user", py "hola"); (py "assistant", response)].
Proof.
  destruct (regenerate_replaces_the_last_exchange default_settings
              Observed.upper Sample.lower Sample.other_decimal_digits
              Observed.now Observed.summarizer_ok Sample.llm_greets
              Observed.ast_parse Observed.value Observed.py_str Sample.exec
              false Sample.index_empty [] (py "hola") (py "Buenas")
              (Observed.turns 2 true 30)
              (Observed.message (py "user") 4)
              (Observed.message (py "assistant") 6)
              {| conversation_history :=
                   Observed.turns 2 true 30
                   ++ [Observed.message (py "user") 4;
                       Observed.message (py "assistant") 6];
                 trace := [] |}
              [(py "hola", py "Hola, ¿en qué puedo ayudarte?")])
    as (response & Hshown & Hmemory).
  - reflexivity.
  - by vm_compute.
  - exists response. split; [reflexivity |].
    assert (Hresponse : response = py "Hola, ¿en qué puedo ayudarte?")
      by (cbn [app] in Hshown; congruence).
    apply Hmemory; right; (split; [done |]); rewrite ?Hresponse; by vm_compute.
Defined.

(** X27.  A failed retrieval does not fail the answer: when the search of
    the index raises an [Exception], [_handle_rag_query] logs it and asks
    the model with the prompt that has no documents, on the conversation
    as it is; what the model answers is the answer. *)
Theorem failed_retrieval_still_asks_the_model
    upper llm similarity_search query m e response :
  similarity_search (trace m) query = Propagates e ->
  exc_is_Exception e = true ->
  llm (trace m
       ++ [document_log ERROR
             (py "Error al recuperar documentos relevantes: " ++ exc_str e)])
    (rag_prompt_without_documents
       (get_formatted_history upper (Some 5%Z) m) query)
  = Returns response ->
  _handle_rag_query upper llm true similarity_search query m
  = (emit [document_log ERROR
             (py "Error al recuperar documentos relevantes: " ++ exc_str e);
           Invoke (rag_prompt_without_documents
                     (get_formatted_history upper (Some 5%Z) m) query)] m,
     Returns response).
Proof. apply rag_without_index. Qed.

Lemma failed_retrieval_still_asks_the_model_witness :
  snd (_handle_rag_query Observed.upper Sample.llm_greets true Sample.index_down
         (py "hola") (Observed.conversation 2 3))
  = Returns (py "Hola, ¿en qué puedo ayudarte?").
Proof.
  rewrite (failed_retrieval_still_asks_the_model Observed.upper
             Sample.llm_greets Sample.index_down (py "hola")
             (Observed.conversation 2 3) Observed.timeout
             (py "Hola, ¿en qué puedo ayudarte?"));
    reflexivity.
Defined.

Lemma join_contains sep x l : x ∈ l -> contains x (join sep l) = true.
Proof.
  induction l as [|p rest IH]; intros Hin; [by apply elem_of_nil in Hin |].
  apply elem_of_cons in Hin as [->|Hin].
  - destruct rest as [|q rest]; cbn [join]; [apply contains_refl |].
    apply (contains_inside p []).
  - specialize (IH Hin). destruct rest as [|q rest];
      [by apply elem_of_nil in Hin |].
    change (join sep (p :: q :: rest)) with (p ++ sep ++ join sep (q :: rest)).
    apply contains_spec in IH as (b & a & ->).
    apply contains_spec. exists (p ++ sep ++ b), a. by rewrite <- !app_assoc.
Qed.

Lemma contains_skip p before s :
  contains p s = true -> contains p (before ++ s) = true.
Proof.
  intros H. rewrite <- (app_nil_r s). by apply contains_around.
Qed.

Lemma contains_here p after : contains p (p ++ after) = true.
Proof. apply (contains_inside p []). Qed.

Lemma format_documents_shows doc docs :
  doc ∈ docs -> contains (page_content doc) (format_documents docs) = true.
Proof.
  intros Hin. unfold format_documents.
  destruct docs as [|d ds] eqn:E; [by apply elem_of_nil in Hin |].
  rewrite <- E in *. clear E.
  apply list_elem_of_lookup_1 in Hin as (i & Hi).
  eapply contains_trans; [| apply join_contains, elem_of_lookup_imap_2, Hi].
  cbv beta. do 7 apply contains_skip. apply contains_here.
Qed.

(** X28.  What the index finds reaches the model: when the search returns
    passages, [_handle_rag_query] makes a request to the model whose
    prompt holds the text of every passage found, and the question. *)
Theorem retrieved_passages_reach_the_model
    upper llm similarity_search query m docs doc :
  similarity_search (trace m) query = Returns docs ->
  doc ∈ docs ->
  exists prompt,
    Invoke prompt
    ∈ trace (fst (_handle_rag_query upper llm true similarity_search query m))
    /\ contains (page_content doc) prompt = true
    /\ contains query prompt = true.
Proof.
  intros Hsearch Hin.
  exists (rag_prompt_with_documents (get_formatted_history upper (Some 5%Z) m)
            (format_documents docs) query).
  split; [| split].
  - unfold _handle_rag_query, get_relevant_documents. cbn [negb].
    rewrite Hsearch. cbn [fst snd].
    destruct docs as [|d ds] eqn:E; [by apply elem_of_nil in Hin |].
    rewrite <- E. unfold except_Exception, with_str. cbn [snd fst].
    destruct (llm _ _) as [response|e|];
      [| destruct (exc_is_Exception e); [destruct (str_exc e) |] |];
      cbn [fst emit trace]; rewrite ?elem_of_app, !elem_of_cons; tauto.
  - unfold rag_prompt_with_documents.
    apply (contains_trans _ (format_documents docs));
      [by apply format_documents_shows |].
    do 3 apply contains_skip. apply contains_here.
  - unfold rag_prompt_with_documents.
    do 5 apply contains_skip. apply contains_here.
Qed.

Lemma retrieved_passages_reach_the_model_witness :
  exists prompt,
    Invoke prompt
    ∈ trace (fst (_handle_rag_query Observed.upper Sample.llm_greets true
                    Sample.index_one (py "¿De qué color es el cielo?")
                    (Observed.conversation 2 3)))
    /\ contains (page_content Sample.passage) prompt = true
    /\ contains (py "¿De qué color es el cielo?") prompt = true.
Proof.
  apply (retrieved_passages_reach_the_model Observed.upper Sample.llm_greets
           Sample.index_one (py "¿De qué color es el cielo?")
           (Observed.conversation 2 3) [Sample.passage] Sample.passage).
  - reflexivity.
  - apply elem_of_cons. by left.
Defined.
